(** * vipsgen: the generation driver and the command-line entry point

    A shallow embedding of
      - [internal/generator]: [TemplateData], [NewTemplateData], [Generate]
      - [cmd/vipsgen/main.go]: [main]
    Calls that leave the two files (the [TemplateLoader] interface, the
    introspection package, [os], [log]) are events of a small program
    monad; a handler gives them meaning over a world, and running a
    program yields its outcome, the final world and the trace of calls. *)

From Stdlib Require Import String Ascii List Bool Arith ZArith Lia.
From Stdlib Require Import DecimalString.
Import ListNotations.

Set Implicit Arguments.
Local Open Scope list_scope.
Local Open Scope string_scope.

(** ** Go library functions used by the two files *)

Module strings.

(** [strings.HasSuffix(s, suffix)]:
    [len(s) >= len(suffix) && s[len(s)-len(suffix):] == suffix]. *)
Definition HasSuffix (s suffix : string) : bool :=
  (String.length suffix <=? String.length s)%nat &&
  String.eqb
    (substring (String.length s - String.length suffix)
               (String.length suffix) s)
    suffix.

(** [strings.TrimSuffix(s, suffix)]: [s] without the trailing [suffix],
    [s] itself when it does not end in [suffix]. *)
Definition TrimSuffix (s suffix : string) : string :=
  if HasSuffix s suffix
  then substring 0 (String.length s - String.length suffix) s
  else s.

(** [strings.Join(elems, sep)]. *)
Fixpoint Join (elems : list string) (sep : string) : string :=
  match elems with
  | [] => ""
  | [e] => e
  | e :: rest => e ++ sep ++ Join rest sep
  end.

End strings.

Module filepath.

(** Unix build: the separator is the slash. *)
Definition IsPathSeparator (c : ascii) : bool := Ascii.eqb c "/"%char.

(** The loop of [Base] that strips trailing separators. *)
Fixpoint stripTrailingSeparators (path : string) : string :=
  match path with
  | "" => ""
  | String c rest =>
      match stripTrailingSeparators rest with
      | "" => if IsPathSeparator c then "" else String c ""
      | rest' => String c rest'
      end
  end.

(** [path[i+1:]] for the last separator index [i]; [acc] is the
    candidate found so far. *)
Fixpoint afterLastSeparator (acc path : string) : string :=
  match path with
  | "" => acc
  | String c rest =>
      if IsPathSeparator c then afterLastSeparator rest rest
      else afterLastSeparator acc rest
  end.

(** [filepath.Base]: the last element of the path; "." for the empty
    path, the separator for a path of separators only. *)
Definition Base (path : string) : string :=
  if String.eqb path "" then "."
  else
    let path := stripTrailingSeparators path in
    let path := afterLastSeparator path path in
    if String.eqb path "" then "/" else path.

(** The elements of a path between separators (empty ones included). *)
Fixpoint elements (path : string) : list string :=
  match path with
  | "" => [""]
  | String c rest =>
      if IsPathSeparator c then "" :: elements rest
      else match elements rest with
           | e :: es => String c e :: es
           | [] => [String c ""]
           end
  end.

(** One round of the loop of [Clean], read element by element; [out]
    holds the elements written so far, last one first. *)
Definition cleanElement (rooted : bool) (out : list string) (e : string)
  : list string :=
  if String.eqb e "" then out
  else if String.eqb e "." then out
  else if String.eqb e ".." then
    match out with
    | top :: below => if String.eqb top ".." then ".." :: out else below
    | [] => if rooted then [] else [".."]
    end
  else e :: out.

Definition isRooted (path : string) : bool :=
  match path with
  | String c _ => IsPathSeparator c
  | "" => false
  end.

(** [filepath.Clean]: the shortest equivalent path. *)
Definition Clean (path : string) : string :=
  if String.eqb path "" then "."
  else
    let rooted := isRooted path in
    let out := fold_left (cleanElement rooted) (elements path) [] in
    let body := strings.Join (rev out) "/" in
    if rooted then "/" ++ body
    else if String.eqb body "" then "." else body.

(** [filepath.Join]: leading empty elements are ignored, the rest is
    joined with the separator and cleaned. *)
Fixpoint Join (elem : list string) : string :=
  match elem with
  | [] => ""
  | e :: rest =>
      if String.eqb e "" then Join rest
      else Clean (strings.Join elem "/")
  end.

End filepath.

Module fmt.

(** The verb [%d] on a non-negative [int]. *)
Definition d (n : nat) : string := NilEmpty.string_of_uint (Nat.to_uint n).

End fmt.

(** ** Package flag, for the six flags that main registers

    [flag.Parse] on the default command line set ([ExitOnError]). *)
Module flag.

(** The values behind the six pointers that main obtains from
    [flag.Bool] and [flag.String]. *)
Record FlagSet : Type := {
  extractTemplates : bool;    (* -extract *)
  extractDir : string;        (* -extract-dir *)
  outputDirFlag : string;     (* -out *)
  templateDirFlag : string;   (* -templates *)
  isDebug : bool;             (* -debug *)
  includeTest : bool          (* -include-test *)
}.

(** The defaults given at registration. *)
Definition registered : FlagSet := {|
  extractTemplates := false;
  extractDir := "./templates";
  outputDirFlag := "./vips";
  templateDirFlag := "";
  isDebug := false;
  includeTest := false
|}.

(** [strconv.ParseBool]. *)
Definition ParseBool (str : string) : option bool :=
  if existsb (String.eqb str) ["1"; "t"; "T"; "TRUE"; "true"; "True"]
  then Some true
  else if existsb (String.eqb str) ["0"; "f"; "F"; "FALSE"; "false"; "False"]
  then Some false
  else None.

Inductive Setter : Type :=
| SetBool (set : bool -> FlagSet -> FlagSet)
| SetString (set : string -> FlagSet -> FlagSet).

(** The map [f.formal] of registered flags, by name. *)
Definition formal (name : string) : option Setter :=
  if String.eqb name "extract" then
    Some (SetBool (fun b f =>
      {| extractTemplates := b; extractDir := extractDir f;
         outputDirFlag := outputDirFlag f;
         templateDirFlag := templateDirFlag f;
         isDebug := isDebug f; includeTest := includeTest f |}))
  else if String.eqb name "extract-dir" then
    Some (SetString (fun v f =>
      {| extractTemplates := extractTemplates f; extractDir := v;
         outputDirFlag := outputDirFlag f;
         templateDirFlag := templateDirFlag f;
         isDebug := isDebug f; includeTest := includeTest f |}))
  else if String.eqb name "out" then
    Some (SetString (fun v f =>
      {| extractTemplates := extractTemplates f; extractDir := extractDir f;
         outputDirFlag := v;
         templateDirFlag := templateDirFlag f;
         isDebug := isDebug f; includeTest := includeTest f |}))
  else if String.eqb name "templates" then
    Some (SetString (fun v f =>
      {| extractTemplates := extractTemplates f; extractDir := extractDir f;
         outputDirFlag := outputDirFlag f;
         templateDirFlag := v;
         isDebug := isDebug f; includeTest := includeTest f |}))
  else if String.eqb name "debug" then
    Some (SetBool (fun b f =>
      {| extractTemplates := extractTemplates f; extractDir := extractDir f;
         outputDirFlag := outputDirFlag f;
         templateDirFlag := templateDirFlag f;
         isDebug := b; includeTest := includeTest f |}))
  else if String.eqb name "include-test" then
    Some (SetBool (fun b f =>
      {| extractTemplates := extractTemplates f; extractDir := extractDir f;
         outputDirFlag := outputDirFlag f;
         templateDirFlag := templateDirFlag f;
         isDebug := isDebug f; includeTest := b |}))
  else None.

(** The first equals sign of [s]: what is before it and what is after. *)
Fixpoint cutAtEquals (s : string) : option (string * string) :=
  match s with
  | "" => None
  | String c rest =>
      if Ascii.eqb c "="%char then Some ("", rest)
      else match cutAtEquals rest with
           | Some (before, after) => Some (String c before, after)
           | None => None
           end
  end.

(** [name] and [value] of "name=value"; the equals sign is looked for
    from index 1. *)
Definition splitValue (name : string) : string * option string :=
  match name with
  | "" => ("", None)
  | String c rest =>
      match cutAtEquals rest with
      | Some (before, value) => (String c before, Some value)
      | None => (name, None)
      end
  end.

(** What one argument looks like to [parseOne]. *)
Inductive Token : Type :=
| NotAFlag                  (* shorter than 2 or no leading minus *)
| Terminator                (* "--" *)
| BadSyntax                 (* "---x", "-=x" *)
| FlagToken (name : string) (value : option string).

Definition token (s : string) : Token :=
  match s with
  | String m (String c tail) =>
      if Ascii.eqb m "-"%char then
        if Ascii.eqb c "-"%char && String.eqb tail "" then Terminator
        else
          let name := if Ascii.eqb c "-"%char then tail else String c tail in
          match name with
          | "" => BadSyntax
          | String n _ =>
              if Ascii.eqb n "-"%char || Ascii.eqb n "="%char then BadSyntax
              else let (name, value) := splitValue name in
                   FlagToken name value
          end
      else NotAFlag
  | _ => NotAFlag
  end.

Definition quote : string := String (ascii_of_nat 34) "".

(** The result of [parseOne]: [(true, nil)] with the updated set and
    the arguments left, [(false, nil)], or [(false, err)]. *)
Inductive One : Type :=
| Seen (f : FlagSet) (args : list string)
| Stop (args : list string)
| Failed (err : string)
| ErrHelp.

Definition parseOne (f : FlagSet) (args : list string) : One :=
  match args with
  | [] => Stop []
  | s :: rest =>
      match token s with
      | NotAFlag => Stop args
      | Terminator => Stop rest
      | BadSyntax => Failed ("bad flag syntax: " ++ s)
      | FlagToken name value =>
          match formal name with
          | None =>
              if String.eqb name "help" || String.eqb name "h" then ErrHelp
              else Failed ("flag provided but not defined: -" ++ name)
          | Some (SetBool set) =>
              match value with
              | Some v =>
                  match ParseBool v with
                  | Some b => Seen (set b f) rest
                  | None =>
                      Failed ("invalid boolean value " ++ quote ++ v ++ quote
                              ++ " for -" ++ name ++ ": parse error")
                  end
              | None => Seen (set true f) rest
              end
          | Some (SetString set) =>
              match value, rest with
              | Some v, _ => Seen (set v f) rest
              | None, v :: rest' => Seen (set v f) rest'
              | None, [] => Failed ("flag needs an argument: -" ++ name)
              end
          end
      end
  end.

(** The outcome of [Parse]: the flag values and the positional
    arguments ([flag.Args()]), or the exit it makes under [ExitOnError]. *)
Inductive Parsed : Type :=
| Ok (f : FlagSet) (positional : list string)
| ExitWith (code : Z) (msg : string)
| OutOfFuel.

(** The loop [for { seen, err := f.parseOne() ... }]. *)
Fixpoint parseLoop (fuel : nat) (f : FlagSet) (args : list string)
  : Parsed :=
  match fuel with
  | O => OutOfFuel
  | S fuel =>
      match parseOne f args with
      | Seen f' args' => parseLoop fuel f' args'
      | Stop args' => Ok f args'
      | Failed err => ExitWith 2 err
      | ErrHelp => ExitWith 0 "flag: help requested"
      end
  end.

(** [flag.Parse()] on [os.Args[1:]]; every round takes at least one
    argument, so the fuel is never used up ([Parse_fuel]). *)
Definition Parse (args : list string) : Parsed :=
  parseLoop (S (List.length args)) registered args.

End flag.

(** A Go [error] is its message; [None] is the [nil] error. *)
Definition error := option string.

Definition isError (err : error) : bool :=
  match err with
  | Some _ => true
  | None => false
  end.

(** A pointer to a heap cell; the world decides what it points to. *)
Definition ptr := nat.

(** The line feed of the format strings. *)
Definition nl : string := String (ascii_of_nat 10) "".

(** ** Types declared outside the two files

    [introspection.Operation], [introspection.EnumTypeInfo],
    [introspection.ImageTypeInfo] and [*introspection.Introspection];
    the [generator.TemplateLoader] interface, [template.FuncMap] and
    [embed.FS]; and the package variable [templates.Templates]. *)
Class Collaborators : Type := {
  Operation : Type;
  EnumTypeInfo : Type;
  ImageTypeInfo : Type;
  Introspection : Type;
  TemplateLoader : Type;
  FuncMap : Type;
  EmbedFS : Type;
  templates_Templates : EmbedFS
}.

Section Generator.

Context {C : Collaborators}.

(** [TemplateData] holds all data needed by any template. *)
Record TemplateData : Type := {
  VipsVersion : string;
  Operations : list Operation;
  EnumTypes : list EnumTypeInfo;
  ImageTypes : list ImageTypeInfo;
  IncludeTest : bool
}.

(** *** Events: what the code asks of its surroundings *)
Inductive Event : Type -> Type :=
(* the Go heap: allocation, read and write of a TemplateData cell; the
   two files allocate and read, and a write is what a call could do to
   the cell behind a pointer it was given *)
| Alloc (v : TemplateData) : Event ptr
| Deref (p : ptr) : Event (option TemplateData)
| Store (p : ptr) (v : TemplateData) : Event bool
(* os and log *)
| os_MkdirAll (path : string) (perm : nat) : Event error
| os_Stderr (msg : string) : Event unit
| log_Printf (msg : string) : Event unit
(* methods of the TemplateLoader interface *)
| ListFiles (l : TemplateLoader) : Event (list string * error)
| GenerateFile (l : TemplateLoader) (templateFile outputFile : string)
               (data : ptr) : Event error
(* the rest of package generator *)
| ExtractEmbeddedFS (fs : EmbedFS) (dir : string) : Event error
| GetTemplateFuncMap : Event FuncMap
| NewOSTemplateLoader (dir : string) (funcMap : FuncMap)
  : Event (TemplateLoader * error)
| NewFSTemplateLoader (fs : EmbedFS) (funcMap : FuncMap)
  : Event TemplateLoader
(* package introspection *)
| NewIntrospection (debug : bool) : Event Introspection
| GetVipsVersion (i : Introspection) : Event string
| DiscoverImageTypes (i : Introspection) : Event (list ImageTypeInfo)
| DiscoverOperations (i : Introspection) : Event (list Operation)
| DiscoverEnumTypes (i : Introspection) : Event (list EnumTypeInfo).

(** *** Programs over the events *)
Inductive Prog (R : Type) : Type :=
| Ret (r : R)
| Vis (X : Type) (e : Event X) (k : X -> Prog R)
| Exit (code : Z)
| Panic (msg : string).

Arguments Ret {R} r.
Arguments Vis {R X} e k.
Arguments Exit {R} code.
Arguments Panic {R} msg.

Fixpoint bind {A B : Type} (m : Prog A) (f : A -> Prog B) : Prog B :=
  match m with
  | Ret a => f a
  | Vis e k => Vis e (fun x => bind (k x) f)
  | Exit code => Exit code
  | Panic msg => Panic msg
  end.

Definition call {X : Type} (e : Event X) : Prog X := Vis e Ret.

Notation "x <- m ;; k" := (bind m (fun x => k))
  (at level 61, m at next level, right associativity).
Notation "' pat <- m ;; k" := (bind m (fun x => match x with pat => k end))
  (at level 61, pat pattern, m at next level, right associativity).
Notation "m ;; k" := (bind m (fun _ => k))
  (at level 61, right associativity).

(** [for _, x := range xs { body }] with a body that never leaves early. *)
Fixpoint forEach {A : Type} (xs : list A) (body : A -> Prog unit)
  : Prog unit :=
  match xs with
  | [] => Ret tt
  | x :: rest => body x ;; forEach rest body
  end.

(** [log.Fatalf]: print, then [os.Exit(1)]. *)
Definition log_Fatalf {R : Type} (msg : string) : Prog R :=
  call (log_Printf msg) ;; Exit 1.

(** *** templatedata.go *)

(** [NewTemplateData] creates a new TemplateData structure; the
    composite literal behind [&] is a fresh heap cell. *)
Definition NewTemplateData
    (vipsVersion : string)
    (operations : list Operation)
    (enumTypes : list EnumTypeInfo)
    (imageTypes : list ImageTypeInfo)
    (includeTest : bool) : Prog ptr :=
  call (Alloc {| VipsVersion := vipsVersion;
                 Operations := operations;
                 EnumTypes := enumTypes;
                 ImageTypes := imageTypes;
                 IncludeTest := includeTest |}).

(** *** generator.go *)

(** "vips.go.tmpl" -> "vips.go", under the output directory. *)
Definition outputFileOf (outputDir templateFile : string) : string :=
  filepath.Join
    [outputDir; strings.TrimSuffix (filepath.Base templateFile) ".tmpl"].

(** The name test of the skip: the base name ends in "_test.go.tmpl". *)
Definition isTestTemplate (templateFile : string) : bool :=
  strings.HasSuffix (filepath.Base templateFile) "_test.go.tmpl".

Definition skipNotice (templateFile : string) : string :=
  "Skipping test template: " ++ filepath.Base templateFile
    ++ " (use --include-test to generate)" ++ nl.

Definition generateError (outputFile cause : string) : string :=
  "failed to generate " ++ outputFile ++ ": " ++ cause.

(** The [for ... range templateFiles] loop of [Generate]. It ends with
    [inl err] when the body returns from [Generate], and with
    [inr generatedFiles] when the range is exhausted. *)
Fixpoint generateLoop
    (templateLoader : TemplateLoader) (templateData : ptr)
    (outputDir : string)
    (templateFiles : list string) (generatedFiles : list string)
  : Prog (error + list string) :=
  match templateFiles with
  | [] => Ret (inr generatedFiles)
  | templateFile :: rest =>
      let outputFile := outputFileOf outputDir templateFile in
      d <- call (Deref templateData) ;;
      match d with
      | None => Panic "invalid memory address or nil pointer dereference"
      | Some data =>
          if negb (IncludeTest data) && isTestTemplate templateFile then
            call (log_Printf (skipNotice templateFile)) ;;
            generateLoop templateLoader templateData outputDir
                         rest generatedFiles
          else
            err <- call (GenerateFile templateLoader templateFile
                                      outputFile templateData) ;;
            match err with
            | Some e => Ret (inl (Some (generateError outputFile e)))
            | None =>
                generateLoop templateLoader templateData outputDir
                             rest (generatedFiles ++ [outputFile])%list
            end
      end
  end.

Definition successNotice (generatedFiles : list string) : string :=
  nl ++ "Successfully generated files from templates: "
     ++ fmt.d (List.length generatedFiles) ++ nl.

Definition fileNotice (file : string) : string := "  - " ++ file ++ nl.

(** [Generate] generates all code files from templates. *)
Definition Generate
    (templateLoader : TemplateLoader) (templateData : ptr)
    (outputDir : string) : Prog error :=
  err <- call (os_MkdirAll outputDir 493) ;;
  match err with
  | Some e => Ret (Some ("failed to create output directory: " ++ e))
  | None =>
      '(templateFiles, err) <- call (ListFiles templateLoader) ;;
      match err with
      | Some e => Ret (Some ("failed to list template files: " ++ e))
      | None =>
          r <- generateLoop templateLoader templateData outputDir
                            templateFiles [] ;;
          match r with
          | inl err => Ret err
          | inr generatedFiles =>
              call (log_Printf (successNotice generatedFiles)) ;;
              forEach generatedFiles
                      (fun file => call (log_Printf (fileNotice file))) ;;
              Ret None
          end
      end
  end.

(** *** cmd/vipsgen/main.go *)

(** "Determine output directory". *)
Definition outputDirOf (outputDirFlag : string) (positional : list string)
  : string :=
  if negb (String.eqb outputDirFlag "") then outputDirFlag
  else match positional with
       | arg0 :: _ => arg0          (* flag.NArg() > 0: flag.Arg(0) *)
       | [] => "./vips"
       end.

(** "Determine template source". *)
Definition chooseLoader (templateDirFlag : string) (funcMap : FuncMap)
  : Prog TemplateLoader :=
  if negb (String.eqb templateDirFlag "") then
    '(loader, err) <- call (NewOSTemplateLoader templateDirFlag funcMap) ;;
    match err with
    | Some e => log_Fatalf ("Failed to create template loader: " ++ e)
    | None =>
        call (log_Printf ("Using templates from: " ++ templateDirFlag ++ nl)) ;;
        Ret loader
    end
  else
    loader <- call (NewFSTemplateLoader templates_Templates funcMap) ;;
    call (log_Printf ("Using embedded templates" ++ nl)) ;;
    Ret loader.

(** [main] after [flag.Parse()] returned. *)
Definition mainParsed (f : flag.FlagSet) (positional : list string)
  : Prog unit :=
  if flag.extractTemplates f then
    err <- call (ExtractEmbeddedFS templates_Templates (flag.extractDir f)) ;;
    match err with
    | Some e => log_Fatalf ("Failed to extract templates: " ++ e)
    | None =>
        call (log_Printf ("Templates and static files extracted to: "
                          ++ flag.extractDir f ++ nl)) ;;
        Ret tt
    end
  else
    funcMap <- call GetTemplateFuncMap ;;
    loader <- chooseLoader (flag.templateDirFlag f) funcMap ;;
    let outputDir := outputDirOf (flag.outputDirFlag f) positional in
    vipsIntrospection <- call (NewIntrospection (flag.isDebug f)) ;;
    vipsVersion <- call (GetVipsVersion vipsIntrospection) ;;
    imageTypes <- call (DiscoverImageTypes vipsIntrospection) ;;
    operations <- call (DiscoverOperations vipsIntrospection) ;;
    call (log_Printf ("Extracted " ++ fmt.d (List.length operations)
                      ++ " operations from GObject Introspection" ++ nl)) ;;
    enumTypes <- call (DiscoverEnumTypes vipsIntrospection) ;;
    call (log_Printf ("Discovered " ++ fmt.d (List.length enumTypes)
                      ++ " enum types" ++ nl)) ;;
    templateData <- NewTemplateData vipsVersion operations enumTypes
                                    imageTypes (flag.includeTest f) ;;
    err <- Generate loader templateData outputDir ;;
    match err with
    | Some e => log_Fatalf ("Failed to generate code: " ++ e)
    | None => Ret tt
    end.

(** [main] on the command line [args] ([os.Args[1:]]). *)
Definition main (args : list string) : Prog unit :=
  match flag.Parse args with
  | flag.Ok f positional => mainParsed f positional
  | flag.ExitWith code msg => call (os_Stderr msg) ;; Exit code
  | flag.OutOfFuel => Panic "flag.Parse: out of fuel"
  end.

(** *** Running a program

    A handler answers every event and moves the world. *)
Definition Handler (W : Type) : Type := forall X : Type, Event X -> W -> X * W.

(** One entry of the trace: the call and its answer. *)
Record Step : Type := Called {
  answerType : Type;
  event : Event answerType;
  answer : answerType
}.

Inductive Outcome (R : Type) : Type :=
| Returned (r : R)
| Exited (code : Z)
| Panicked (msg : string).

Arguments Returned {R} r.
Arguments Exited {R} code.
Arguments Panicked {R} msg.

Fixpoint run {W R : Type} (h : Handler W) (p : Prog R) (w : W)
  : Outcome R * W * list Step :=
  match p with
  | Ret r => (Returned r, w, [])
  | Vis e k =>
      let (x, w1) := h _ e w in
      let '(o, w2, t) := run h (k x) w1 in
      (o, w2, Called e x :: t)
  | Exit code => (Exited code, w, [])
  | Panic msg => (Panicked msg, w, [])
  end.

(** The exit status of the process: 0 when [main] returns, the argument
    of [os.Exit], 2 after a panic. *)
Definition exitStatus {R : Type} (o : Outcome R) : Z :=
  match o with
  | Returned _ => 0
  | Exited code => code
  | Panicked _ => 2
  end.

End Generator.

Arguments Exit {C R} code.
Arguments Panic {C R} msg.
Arguments Returned {R} r.
Arguments Exited {R} code.
Arguments Panicked {R} msg.

(** ** Reading a trace *)

Section Observations.

Context {C : Collaborators}.

(** Keep the images of [f] that are defined. *)
Fixpoint choose {A B : Type} (f : A -> option B) (l : list A) : list B :=
  match l with
  | [] => []
  | a :: rest =>
      match f a with
      | Some b => b :: choose f rest
      | None => choose f rest
      end
  end.

(** A call of [GenerateFile]: template file, output file, answer. *)
Definition generateCall (s : Step) : option (string * string * error) :=
  match event s in Event X return X -> option (string * string * error) with
  | GenerateFile _ templateFile outputFile _ =>
      fun err => Some (templateFile, outputFile, err)
  | _ => fun _ => None
  end (answer s).

Definition generateCalls (t : list Step) : list (string * string * error) :=
  choose generateCall t.

(** The messages given to [log.Printf]. *)
Definition printedBy (s : Step) : option string :=
  match event s with
  | log_Printf msg => Some msg
  | _ => None
  end.

Definition printed (t : list Step) : list string := choose printedBy t.

(** The template files answered by [ListFiles]. *)
Definition listedBy (s : Step) : option (list string) :=
  match event s in Event X return X -> option (list string) with
  | ListFiles _ => fun a => Some (fst a)
  | _ => fun _ => None
  end (answer s).

Definition listed (t : list Step) : list string :=
  match choose listedBy t with
  | files :: _ => files
  | [] => []
  end.

(** A call that [Generate] checks and that answered with an error. *)
Definition failedCall (s : Step) : bool :=
  match event s in Event X return X -> bool with
  | os_MkdirAll _ _ => fun err => isError err
  | ListFiles _ => fun a => isError (snd a)
  | GenerateFile _ _ _ _ => fun err => isError err
  | _ => fun _ => false
  end (answer s).

(** The directories given to [os.MkdirAll]. *)
Definition madeDir (s : Step) : option string :=
  match event s with
  | os_MkdirAll path _ => Some path
  | _ => None
  end.

Definition madeDirs (t : list Step) : list string := choose madeDir t.

(** A call into the native registry (package introspection). *)
Definition touchesRegistry (s : Step) : bool :=
  match event s with
  | NewIntrospection _ | GetVipsVersion _ | DiscoverImageTypes _
  | DiscoverOperations _ | DiscoverEnumTypes _ => true
  | _ => false
  end.

(** A step inside the Go heap, as opposed to a call that does I/O. *)
Definition heapOnly (s : Step) : bool :=
  match event s with
  | Alloc _ | Deref _ | Store _ _ => true
  | _ => false
  end.

Definition storesTo (p : ptr) (X : Type) (e : Event X) : bool :=
  match e with
  | Store q _ => Nat.eqb p q
  | _ => false
  end.

(** Events between which the files on disk stay as they are. *)
Definition quiet (X : Type) (e : Event X) : bool :=
  match e with
  | Deref _ | log_Printf _ => true
  | _ => false
  end.

Definition deref {W : Type} (h : Handler W) (p : ptr) (w : W)
  : option TemplateData :=
  fst (h _ (Deref p) w).

(** Only a store through [p] changes the cell behind [p]: the
    collaborators read the snapshot and leave it alone. *)
Definition keepsSnapshot {W : Type} (h : Handler W) (p : ptr) : Prop :=
  forall (X : Type) (e : Event X) (w : W) (d : TemplateData),
    storesTo p e = false ->
    deref h p w = Some d ->
    deref h p (snd (h _ e w)) = Some d.

(** The heap gives back what was allocated. *)
Definition allocInitialises {W : Type} (h : Handler W) : Prop :=
  forall (v : TemplateData) (w : W),
    deref h (fst (h _ (Alloc v) w)) (snd (h _ (Alloc v) w)) = Some v.

(** Modelled from the spec: [GenerateFile] of the [TemplateLoader]
    implementations, which are not in the two files. It renders the
    unit with the snapshot and writes the rendered bytes to the output
    path ("write rendered bytes"); [read] looks a path up on disk and
    [rendering] is what the loader renders. *)
Definition writesRendering {W : Type} (h : Handler W)
    (read : string -> W -> option string)
    (rendering : TemplateLoader -> string -> TemplateData -> string)
  : Prop :=
  (forall l templateFile outputFile p w d,
      deref h p w = Some d ->
      fst (h _ (GenerateFile l templateFile outputFile p) w) = None ->
      let w' := snd (h _ (GenerateFile l templateFile outputFile p) w) in
      read outputFile w' = Some (rendering l templateFile d) /\
      forall other, other <> outputFile -> read other w' = read other w)
  /\
  (forall (X : Type) (e : Event X) w path,
      quiet e = true -> read path (snd (h _ e w)) = read path w).

(** The skip test of the loop, and the units that pass it. *)
Definition skipped (d : TemplateData) (templateFile : string) : bool :=
  negb (IncludeTest d) && isTestTemplate templateFile.

Definition processed (d : TemplateData) (templateFiles : list string)
  : list string :=
  filter (fun u => negb (skipped d u)) templateFiles.

(** The output files of the units that pass the skip test. *)
Definition outputsOf (outputDir : string) (d : TemplateData)
    (templateFiles : list string) : list string :=
  map (outputFileOf outputDir) (processed d templateFiles).

(** The successful call for a unit. *)
Definition generatedOk (outputDir templateFile : string)
  : string * string * error :=
  (templateFile, outputFileOf outputDir templateFile, None).

(** The calls of [GenerateFile] for one template file. *)
Definition callsFor (templateFile : string) (t : list Step)
  : list (string * string * error) :=
  filter (fun c => String.eqb (fst (fst c)) templateFile) (generateCalls t).

(** The last processed unit of a listing whose output file is [path]:
    the unit whose rendering the path holds after the loop. *)
Fixpoint lastWriter (d : TemplateData) (outputDir path : string)
    (templateFiles : list string) : option string :=
  match templateFiles with
  | [] => None
  | u :: rest =>
      match lastWriter d outputDir path rest with
      | Some later => Some later
      | None =>
          if negb (skipped d u)
             && String.eqb (outputFileOf outputDir u) path
          then Some u else None
      end
  end.

(** The command line sets [-out] to the empty string. *)
Fixpoint setsOutEmpty (args : list string) : bool :=
  match args with
  | [] => false
  | s :: rest =>
      String.eqb s "-out=" || String.eqb s "--out="
      || ((String.eqb s "-out" || String.eqb s "--out")
          && match rest with
             | v :: _ => String.eqb v ""
             | [] => false
             end)
      || setsOutEmpty rest
  end.

End Observations.

(** ** A world to run the programs in

    A heap of snapshots, a disk of files and directories, and the lines
    written to standard error; template loaders over a toy template
    language. It provides the concrete runs of this development. *)

Module Disk.

(** A template is a sequence of pieces: literal text, the version
    field, or a reference to a field or helper that does not exist. *)
Inductive Piece : Type :=
| Text (s : string)
| Version
| Unknown (name : string).

Definition Template : Type := list Piece.

(** A loader holds its template units in listing order; [listError]
    makes [ListFiles] fail. *)
Record Loader : Type := {
  units : list (string * Template);
  listError : error
}.

Definition embedded : list (string * Template) :=
  [ ("vips.go.tmpl", [Text "package vips // libvips "; Version]);
    ("image.go.tmpl", [Text "package vips // image"]);
    ("image_test.go.tmpl", [Text "package vips // image tests"]) ].

#[export] Instance collaborators : Collaborators := {|
  Operation := string;
  EnumTypeInfo := string;
  ImageTypeInfo := string;
  Introspection := unit;
  TemplateLoader := Loader;
  FuncMap := unit;
  EmbedFS := list (string * Template);
  templates_Templates := embedded
|}.

Record World : Type := {
  heap : list TemplateData;          (* the cell of pointer p is heap[p-1] *)
  files : list (string * string);    (* path and content *)
  dirs : list string;
  stderr : list string
}.

Definition lookup (path : string) (fs : list (string * string))
  : option string :=
  match find (fun kv => String.eqb (fst kv) path) fs with
  | Some kv => Some (snd kv)
  | None => None
  end.

(** [os.WriteFile]: the old content of the path is replaced. *)
Definition write (path content : string) (fs : list (string * string))
  : list (string * string) :=
  (path, content) :: filter (fun kv => negb (String.eqb (fst kv) path)) fs.

Definition read (path : string) (w : World) : option string :=
  lookup path (files w).

Definition load (p : ptr) (w : World) : option TemplateData :=
  match p with
  | O => None
  | S i => nth_error (heap w) i
  end.

Fixpoint update {A : Type} (i : nat) (v : A) (l : list A) : list A :=
  match l, i with
  | [], _ => []
  | _ :: rest, O => v :: rest
  | a :: rest, S i => a :: update i v rest
  end.

Definition log (msg : string) (w : World) : World :=
  {| heap := heap w; files := files w; dirs := dirs w;
     stderr := (stderr w ++ [msg])%list |}.

Definition findUnit (name : string) (l : Loader) : option Template :=
  match find (fun u => String.eqb (fst u) name) (units l) with
  | Some u => Some (snd u)
  | None => None
  end.

(** Rendering: the text, or the name of the unresolved reference. *)
Fixpoint render (tpl : Template) (d : TemplateData) : string + string :=
  match tpl with
  | [] => inl ""
  | piece :: rest =>
      match piece, render rest d with
      | Unknown name, _ => inr name
      | _, inr name => inr name
      | Text s, inl out => inl (s ++ out)
      | Version, inl out => inl (VipsVersion d ++ out)
      end
  end.

(** What a loader renders for a unit; the empty text stands in where
    [generateFile] fails. *)
Definition rendering (l : Loader) (templateFile : string)
    (d : TemplateData) : string :=
  match findUnit templateFile l with
  | Some tpl => match render tpl d with
                | inl out => out
                | inr _ => ""
                end
  | None => ""
  end.

(** Modelled from the spec: [GenerateFile] of a template loader, whose
    implementations are not in the two files: render the unit with the
    snapshot, fail with the unit and the unresolved reference, else
    write the rendered bytes to the output file. *)
Definition generateFile (l : Loader) (templateFile outputFile : string)
    (data : ptr) (w : World) : error * World :=
  match findUnit templateFile l, load data w with
  | None, _ => (Some ("template " ++ templateFile ++ " not found"), w)
  | Some _, None => (Some "nil template data", w)
  | Some tpl, Some d =>
      match render tpl d with
      | inr name =>
          (Some ("template " ++ templateFile
                 ++ ": can't evaluate field " ++ name), w)
      | inl out =>
          if existsb (String.eqb outputFile) (dirs w) then
            (Some ("open " ++ outputFile ++ ": is a directory"), w)
          else
            (None, {| heap := heap w;
                      files := write outputFile out (files w);
                      dirs := dirs w; stderr := stderr w |})
      end
  end.

(** The source text of a template, for extraction. *)
Definition source (tpl : Template) : string :=
  String.concat ""
    (map (fun piece => match piece with
                       | Text s => s
                       | Version => "{{.VipsVersion}}"
                       | Unknown name => "{{." ++ name ++ "}}"
                       end) tpl).

Definition extract (fs : list (string * Template)) (dir : string)
    (w : World) : error * World :=
  if existsb (String.eqb dir) (map fst (files w)) then
    (Some ("mkdir " ++ dir ++ ": not a directory"), w)
  else
    (None, {| heap := heap w;
              files := fold_left
                         (fun acc u =>
                            write (filepath.Join [dir; fst u])
                                  (source (snd u)) acc)
                         fs (files w);
              dirs := dir :: dirs w; stderr := stderr w |}).

Definition mkdirAll (path : string) (w : World) : error * World :=
  if existsb (String.eqb path) (map fst (files w)) then
    (Some ("mkdir " ++ path ++ ": not a directory"), w)
  else
    (None, {| heap := heap w; files := files w;
              dirs := path :: dirs w; stderr := stderr w |}).

(** The templates found on disk under a directory, as literal text. *)
Definition unitsUnder (dir : string) (w : World)
  : list (string * Template) :=
  map (fun kv => (fst kv, [Text (snd kv)]))
      (filter (fun kv => String.prefix (dir ++ "/") (fst kv)) (files w)).

Definition handler : Handler World :=
  fun X e =>
    match e in Event X return World -> X * World with
    | Alloc v => fun w =>
        (S (List.length (heap w)),
         {| heap := (heap w ++ [v])%list; files := files w;
            dirs := dirs w; stderr := stderr w |})
    | Deref p => fun w => (load p w, w)
    | Store p v => fun w =>
        match load p w with
        | Some _ => (true, {| heap := update (p - 1) v (heap w);
                              files := files w; dirs := dirs w;
                              stderr := stderr w |})
        | None => (false, w)
        end
    | os_MkdirAll path _ => fun w => mkdirAll path w
    | os_Stderr msg => fun w => (tt, log msg w)
    | log_Printf msg => fun w => (tt, log msg w)
    | ListFiles l => fun w => ((map fst (units l), listError l), w)
    | GenerateFile l templateFile outputFile data => fun w =>
        generateFile l templateFile outputFile data w
    | ExtractEmbeddedFS fs dir => fun w => extract fs dir w
    | GetTemplateFuncMap => fun w => (tt, w)
    | NewOSTemplateLoader dir _ => fun w =>
        if existsb (String.eqb dir) (dirs w) then
          ({| units := unitsUnder dir w; listError := None |}, None, w)
        else
          ({| units := []; listError := None |},
           Some ("template directory " ++ dir ++ " does not exist"), w)
    | NewFSTemplateLoader fs _ => fun w =>
        ({| units := fs; listError := None |}, w)
    | NewIntrospection _ => fun w => (tt, w)
    | GetVipsVersion _ => fun w => ("8.18.0", w)
    | DiscoverImageTypes _ => fun w => (["jpeg"; "png"], w)
    | DiscoverOperations _ => fun w => (["resize"; "embed"], w)
    | DiscoverEnumTypes _ => fun w => (["Kernel"], w)
    end.

(** Snapshots and worlds of the concrete runs. *)
Definition snapshot (includeTest : bool) : TemplateData :=
  {| VipsVersion := "8.18.0"; Operations := ["resize"];
     EnumTypes := ["Kernel"]; ImageTypes := ["jpeg"];
     IncludeTest := includeTest |}.

Definition boot (includeTest : bool) : World :=
  {| heap := [snapshot includeTest]; files := []; dirs := [];
     stderr := [] |}.

Definition empty : World :=
  {| heap := []; files := []; dirs := []; stderr := [] |}.

Definition embeddedLoader : Loader :=
  {| units := embedded; listError := None |}.

(** A batch whose second unit refers to a field that does not exist. *)
Definition brokenLoader : Loader :=
  {| units := [ ("a.go.tmpl", [Text "package a"]);
                ("b.go.tmpl", [Text "package b "; Unknown "Nope"]);
                ("c.go.tmpl", [Text "package c"]) ];
     listError := None |}.

(** Two units in different subdirectories with one base name. *)
Definition nestedLoader : Loader :=
  {| units := [ ("core/types.go.tmpl", [Text "package core"]);
                ("extra/types.go.tmpl", [Text "package extra"]) ];
     listError := None |}.

Definition oneUnit (name : string) : Loader :=
  {| units := [ (name, [Text "package vips"]) ]; listError := None |}.

(** The runs of [Generate] that the examples look at: the embedded
    templates without and with the test flag, the broken batch, and the
    batch with two directories. *)
Definition defaultRun : Outcome error * World * list Step :=
  run handler (Generate embeddedLoader 1 "./vips") (boot false).

Definition testRun : Outcome error * World * list Step :=
  run handler (Generate embeddedLoader 1 "./vips") (boot true).

Definition brokenRun : Outcome error * World * list Step :=
  run handler (Generate brokenLoader 1 "out") (boot true).

Definition nestedRun : Outcome error * World * list Step :=
  run handler (Generate nestedLoader 1 "out") (boot true).

Definition brokenCause : string :=
  "template b.go.tmpl: can't evaluate field Nope".

(** The call that fails in [brokenRun]. *)
Definition brokenCall : Step :=
  Called (GenerateFile brokenLoader "b.go.tmpl" "out/b.go" 1)
         (Some brokenCause).

(** Runs of [main]. *)
Definition extractRun : Outcome unit * World * list Step :=
  run handler (main ["-extract"; "-extract-dir"; "tpl"]) empty.

Definition positionalRun : Outcome unit * World * list Step :=
  run handler (main ["-out"; ""; "gen"]) empty.

End Disk.

(** ** The traces of a run *)

Section Traces.

Context {C : Collaborators}.

(** The answers given to the reads through [p]. *)
Definition derefAnswer (p : ptr) (s : Step)
  : option (option TemplateData) :=
  match event s in Event X return X -> option (option TemplateData) with
  | Deref q => fun a => if Nat.eqb p q then Some a else None
  | _ => fun _ => None
  end (answer s).

Definition derefAnswers (p : ptr) (t : list Step)
  : list (option TemplateData) :=
  choose (derefAnswer p) t.

Definition storeFree (p : ptr) (t : list Step) : Prop :=
  Forall (fun s => storesTo p (event s) = false) t.

(** A trace is a replay of the handler: every answer is the handler's,
    and the world moves from call to call. *)
Inductive Replay {W : Type} (h : Handler W) : W -> list Step -> W -> Prop :=
| Replay_nil (w : W) : Replay h w [] w
| Replay_cons (X : Type) (e : Event X) (w w' : W) (t : list Step) :
    Replay h (snd (h _ e w)) t w' ->
    Replay h w (Called e (fst (h _ e w)) :: t) w'.

Variables (l : TemplateLoader) (p : ptr) (outputDir : string).

(** The traces of the loop of [Generate], round by round. *)
Inductive LoopTrace
  : list string -> list string -> Outcome (error + list string)
    -> list Step -> Prop :=
| Loop_done (acc : list string) :
    LoopTrace [] acc (Returned (inr acc)) []
| Loop_nil (u : string) (rest acc : list string) :
    LoopTrace (u :: rest) acc
      (Panicked "invalid memory address or nil pointer dereference")
      [Called (Deref p) None]
| Loop_skip (u : string) (rest acc : list string) (d : TemplateData)
            (o : Outcome (error + list string)) (t : list Step) :
    skipped d u = true ->
    LoopTrace rest acc o t ->
    LoopTrace (u :: rest) acc o
      (Called (Deref p) (Some d)
       :: Called (log_Printf (skipNotice u)) tt :: t)
| Loop_fail (u : string) (rest acc : list string) (d : TemplateData)
            (e : string) :
    skipped d u = false ->
    LoopTrace (u :: rest) acc
      (Returned (inl (Some (generateError (outputFileOf outputDir u) e))))
      [Called (Deref p) (Some d);
       Called (GenerateFile l u (outputFileOf outputDir u) p) (Some e)]
| Loop_next (u : string) (rest acc : list string) (d : TemplateData)
            (o : Outcome (error + list string)) (t : list Step) :
    skipped d u = false ->
    LoopTrace rest (acc ++ [outputFileOf outputDir u])%list o t ->
    LoopTrace (u :: rest) acc o
      (Called (Deref p) (Some d)
       :: Called (GenerateFile l u (outputFileOf outputDir u) p) None :: t).

Definition logged (msg : string) : Step := Called (log_Printf msg) tt.

(** The closing lines of a successful run. *)
Definition closing (generatedFiles : list string) : list Step :=
  logged (successNotice generatedFiles)
  :: map (fun file => logged (fileNotice file)) generatedFiles.

(** The traces of [Generate]. *)
Inductive GenerateTrace : Outcome error -> list Step -> Prop :=
| Generate_mkdir (e : string) :
    GenerateTrace
      (Returned (Some ("failed to create output directory: " ++ e)))
      [Called (os_MkdirAll outputDir 493) (Some e)]
| Generate_list (files : list string) (e : string) :
    GenerateTrace
      (Returned (Some ("failed to list template files: " ++ e)))
      [Called (os_MkdirAll outputDir 493) None;
       Called (ListFiles l) (files, Some e)]
| Generate_panic (files : list string) (msg : string) (t : list Step) :
    LoopTrace files [] (Panicked msg) t ->
    GenerateTrace (Panicked msg)
      (Called (os_MkdirAll outputDir 493) None
       :: Called (ListFiles l) (files, None) :: t)
| Generate_abort (files : list string) (err : error) (t : list Step) :
    LoopTrace files [] (Returned (inl err)) t ->
    GenerateTrace (Returned err)
      (Called (os_MkdirAll outputDir 493) None
       :: Called (ListFiles l) (files, None) :: t)
| Generate_done (files generatedFiles : list string) (t : list Step) :
    LoopTrace files [] (Returned (inr generatedFiles)) t ->
    GenerateTrace (Returned None)
      (Called (os_MkdirAll outputDir 493) None
       :: Called (ListFiles l) (files, None)
       :: t ++ closing generatedFiles)%list.

End Traces.

(** ** The traces of main, and more to read in a trace *)

Section MainTraces.

Context {C : Collaborators}.

(** A step that [Generate] takes on its own arguments: the directory,
    the loader and the pointer it was given. *)
Definition generateStep (l : TemplateLoader) (p : ptr) (outputDir : string)
    (s : Step) : Prop :=
  match event s with
  | os_MkdirAll path perm => path = outputDir /\ perm = 493
  | ListFiles l' => l' = l
  | Deref q => q = p
  | GenerateFile l' templateFile outputFile q =>
      l' = l /\ q = p /\ outputFile = outputFileOf outputDir templateFile
  | log_Printf _ => True
  | _ => False
  end.

(** A file name without a separator. *)
Fixpoint plain (name : string) : bool :=
  match name with
  | "" => true
  | String c rest => negb (filepath.IsPathSeparator c) && plain rest
  end.

(** The steps of "Determine template source" when a loader is obtained. *)
Definition loaderSteps (f : flag.FlagSet) (funcMap : FuncMap)
    (loader : TemplateLoader) : list Step :=
  if negb (String.eqb (flag.templateDirFlag f) "") then
    [Called (NewOSTemplateLoader (flag.templateDirFlag f) funcMap)
            (loader, None);
     logged ("Using templates from: " ++ flag.templateDirFlag f ++ nl)]
  else
    [Called (NewFSTemplateLoader templates_Templates funcMap) loader;
     logged ("Using embedded templates" ++ nl)].

(** The reads of the native registry, up to the snapshot built from
    them. *)
Definition registrySteps (f : flag.FlagSet) (i : Introspection)
    (vipsVersion : string) (imageTypes : list ImageTypeInfo)
    (operations : list Operation) (enumTypes : list EnumTypeInfo)
    (p : ptr) : list Step :=
  [Called (NewIntrospection (flag.isDebug f)) i;
   Called (GetVipsVersion i) vipsVersion;
   Called (DiscoverImageTypes i) imageTypes;
   Called (DiscoverOperations i) operations;
   logged ("Extracted " ++ fmt.d (List.length operations)
           ++ " operations from GObject Introspection" ++ nl);
   Called (DiscoverEnumTypes i) enumTypes;
   logged ("Discovered " ++ fmt.d (List.length enumTypes)
           ++ " enum types" ++ nl);
   Called (Alloc {| VipsVersion := vipsVersion;
                    Operations := operations;
                    EnumTypes := enumTypes;
                    ImageTypes := imageTypes;
                    IncludeTest := flag.includeTest f |}) p].

(** How main ends after [Generate]: it returns, or prints the error and
    exits with status 1. *)
Definition finish (generated : Outcome error) : Outcome unit :=
  match generated with
  | Returned None => Returned tt
  | Returned (Some _) => Exited 1
  | Exited code => Exited code
  | Panicked msg => Panicked msg
  end.

Definition ending (generated : Outcome error) : list Step :=
  match generated with
  | Returned (Some e) => [logged ("Failed to generate code: " ++ e)]
  | _ => []
  end.

(** The traces of main once the flags are parsed. *)
Inductive MainTrace (f : flag.FlagSet) (positional : list string)
  : Outcome unit -> list Step -> Prop :=
| Main_extract_failed (e : string) :
    flag.extractTemplates f = true ->
    MainTrace f positional (Exited 1)
      [Called (ExtractEmbeddedFS templates_Templates (flag.extractDir f))
              (Some e);
       logged ("Failed to extract templates: " ++ e)]
| Main_extracted :
    flag.extractTemplates f = true ->
    MainTrace f positional (Returned tt)
      [Called (ExtractEmbeddedFS templates_Templates (flag.extractDir f))
              None;
       logged ("Templates and static files extracted to: "
               ++ flag.extractDir f ++ nl)]
| Main_loader_failed (funcMap : FuncMap) (loader : TemplateLoader)
                     (e : string) :
    flag.extractTemplates f = false ->
    String.eqb (flag.templateDirFlag f) "" = false ->
    MainTrace f positional (Exited 1)
      [Called GetTemplateFuncMap funcMap;
       Called (NewOSTemplateLoader (flag.templateDirFlag f) funcMap)
              (loader, Some e);
       logged ("Failed to create template loader: " ++ e)]
| Main_generate (funcMap : FuncMap) (loader : TemplateLoader)
                (i : Introspection) (vipsVersion : string)
                (imageTypes : list ImageTypeInfo)
                (operations : list Operation)
                (enumTypes : list EnumTypeInfo) (p : ptr)
                (generated : Outcome error) (tg : list Step) :
    flag.extractTemplates f = false ->
    GenerateTrace loader p
                  (outputDirOf (flag.outputDirFlag f) positional)
                  generated tg ->
    MainTrace f positional (finish generated)
      (Called GetTemplateFuncMap funcMap
       :: loaderSteps f funcMap loader
       ++ registrySteps f i vipsVersion imageTypes operations enumTypes p
       ++ tg ++ ending generated)%list.

(** The error of a loader that could not be created. *)
Definition loaderError (s : Step) : error :=
  match event s in Event X return X -> error with
  | NewOSTemplateLoader _ _ => fun a => snd a
  | _ => fun _ => None
  end (answer s).

(** The template source a step opens: [true] for a directory on disk,
    [false] for the embedded templates. *)
Definition loaderSource (s : Step) : option bool :=
  match event s with
  | NewOSTemplateLoader _ _ => Some true
  | NewFSTemplateLoader _ _ => Some false
  | _ => None
  end.

(** The loaders handed out by the two constructors. *)
Definition loaderMade (s : Step) : option TemplateLoader :=
  match event s in Event X return X -> option TemplateLoader with
  | NewOSTemplateLoader _ _ => fun a => Some (fst a)
  | NewFSTemplateLoader _ _ => fun a => Some a
  | _ => fun _ => None
  end (answer s).

(** The loader a step calls a method of. *)
Definition loaderUsed (s : Step) : option TemplateLoader :=
  match event s with
  | ListFiles l => Some l
  | GenerateFile l _ _ _ => Some l
  | _ => None
  end.

(** The snapshots allocated, with the pointers returned for them. *)
Definition allocation (s : Step) : option (TemplateData * ptr) :=
  match event s in Event X return X -> option (TemplateData * ptr) with
  | Alloc v => fun p => Some (v, p)
  | _ => fun _ => None
  end (answer s).

(** The pointer a step reads through or hands on. *)
Definition pointerUsed (s : Step) : option ptr :=
  match event s with
  | Deref p => Some p
  | Store p _ => Some p
  | GenerateFile _ _ _ p => Some p
  | _ => None
  end.

(** The calls into the native registry, by kind. *)
Inductive RegistryCall : Type :=
| AskNew (debug : bool)
| AskVersion
| AskImageTypes
| AskOperations
| AskEnumTypes.

Definition registryCall (s : Step) : option RegistryCall :=
  match event s with
  | NewIntrospection debug => Some (AskNew debug)
  | GetVipsVersion _ => Some AskVersion
  | DiscoverImageTypes _ => Some AskImageTypes
  | DiscoverOperations _ => Some AskOperations
  | DiscoverEnumTypes _ => Some AskEnumTypes
  | _ => None
  end.

(** A call that main or [Generate] checks and that answered with an
    error. *)
Definition checkedFailure (s : Step) : bool :=
  failedCall s ||
  match event s in Event X return X -> bool with
  | ExtractEmbeddedFS _ _ => fun err => isError err
  | NewOSTemplateLoader _ _ => fun a => isError (snd a)
  | _ => fun _ => false
  end (answer s).

End MainTraces.

(** More runs in the world of [Disk]. *)
Module Runs.

Import Disk.

(** The output directory exists as a file. *)
Definition blocked : World :=
  {| heap := [snapshot true]; files := [("out", "not a directory")];
     dirs := []; stderr := [] |}.

Definition unlistable : Loader :=
  {| units := embedded; listError := Some "permission denied" |}.

Definition noUnits : Loader := {| units := []; listError := None |}.

Definition blockedRun : Outcome error * World * list Step :=
  run handler (Generate embeddedLoader 1 "out") blocked.

Definition unlistableRun : Outcome error * World * list Step :=
  run handler (Generate unlistable 1 "out") (boot true).

Definition emptyRun : Outcome error * World * list Step :=
  run handler (Generate noUnits 0 "out") empty.

Definition nilRun : Outcome error * World * list Step :=
  run handler (Generate embeddedLoader 0 "out") empty.

(** Runs of main: all defaults with the test flag, a template directory
    that does not exist, a run whose generation fails because the output
    directory is a file, and a positional argument alone. *)
Definition flagRun : Outcome unit * World * list Step :=
  run handler (main ["-include-test"; "-debug"]) empty.

(** The snapshot that [flagRun] builds from the registry of [Disk]. *)
Definition flagSnapshot : TemplateData :=
  {| VipsVersion := "8.18.0"; Operations := ["resize"; "embed"];
     EnumTypes := ["Kernel"]; ImageTypes := ["jpeg"; "png"];
     IncludeTest := true |}.

Definition noTemplatesRun : Outcome unit * World * list Step :=
  run handler (main ["-templates"; "nowhere"]) empty.

Definition blockedMainRun : Outcome unit * World * list Step :=
  run handler (main ["-out"; "out"]) blocked.

Definition bareRun : Outcome unit * World * list Step :=
  run handler (main ["gen"; "-include-test"]) empty.

(** Templates on disk, one of which cannot be written: its output path
    is a directory. *)
Definition onDisk : World :=
  {| heap := [];
     files := [("tpl/a.go.tmpl", "package a"); ("tpl/b.go.tmpl", "package b")];
     dirs := ["tpl"; "gen/a.go"]; stderr := [] |}.

Definition onDiskRun : Outcome unit * World * list Step :=
  run handler (main ["-templates"; "tpl"; "-out"; "gen"]) onDisk.

(** A failing first unit after a skipped one, for the log of a failing
    run. *)
Definition skipThenBreak : Loader :=
  {| units := [ ("a_test.go.tmpl", [Text "package a"]);
                ("b.go.tmpl", [Text "package b "; Unknown "Nope"]);
                ("c_test.go.tmpl", [Text "package c"]) ];
     listError := None |}.

Definition skipThenBreakRun : Outcome error * World * list Step :=
  run handler (Generate skipThenBreak 1 "out") (boot false).

(** The output path "out/x.go" is taken by a directory. *)
Definition clash : World :=
  {| heap := [snapshot true]; files := []; dirs := ["out/x.go"];
     stderr := [] |}.

(** One unit named [u] that cannot be written in [clash]. *)
Definition clashRun (u : string) : Outcome error * World * list Step :=
  run handler (Generate (oneUnit u) 1 "out") clash.

(** A command line that does not parse, and a call for help. *)
Definition unknownFlagRun : Outcome unit * World * list Step :=
  run handler (main ["-bogus"]) empty.

Definition helpRun : Outcome unit * World * list Step :=
  run handler (main ["-h"]) empty.

End Runs.

(** A loader that writes to the snapshot it is handed: the world of
    [Disk], except that [GenerateFile] sets IncludeTest in the cell
    behind its data pointer after it has done its work. *)
Module Meddler.

Import Disk.

Definition tamper (d : TemplateData) : TemplateData :=
  {| VipsVersion := VipsVersion d; Operations := Operations d;
     EnumTypes := EnumTypes d; ImageTypes := ImageTypes d;
     IncludeTest := true |}.

Definition meddle (data : ptr) (w : World) : World :=
  match load data w with
  | Some d => snd (Disk.handler (Store data (tamper d)) w)
  | None => w
  end.

Definition handler : Handler World :=
  fun X e =>
    match e in Event X return World -> X * World with
    | GenerateFile l templateFile outputFile data => fun w =>
        let (err, w1) := generateFile l templateFile outputFile data w in
        (err, meddle data w1)
    | e' => Disk.handler e'
    end.


End Meddler.

(** * Properties *)

Unset Implicit Arguments.

(** ** Running programs *)

Section Running.

Context {C : Collaborators} {W : Type} (h : Handler W).
Arguments h : clear implicits.

Lemma run_bind (A B : Type) (m : Prog A) (f : A -> Prog B) (w : W) :
  run h (bind m f) w =
  match run h m w with
  | (Returned a, w1, t1) =>
      let '(o, w2, t2) := run h (f a) w1 in (o, w2, (t1 ++ t2)%list)
  | (Exited code, w1, t1) => (Exited code, w1, t1)
  | (Panicked msg, w1, t1) => (Panicked msg, w1, t1)
  end.
Proof.
  revert w. induction m as [a | X e k IH | code | msg]; intros w; simpl.
  - destruct (run h (f a) w) as [[o w2] t2]. reflexivity.
  - destruct (h X e w) as [x w1]. rewrite IH.
    destruct (run h (k x) w1) as [[[a | code | msg] w2] t1]; try reflexivity.
    destruct (run h (f a) w2) as [[o w3] t2]. reflexivity.
  - reflexivity.
  - reflexivity.
Qed.

(** The trace of a run replays the handler from the first world to the
    last. *)
Lemma run_replay (R : Type) (prog : Prog R) (w w' : W)
    (o : Outcome R) (t : list Step) :
  run h prog w = (o, w', t) -> Replay h w t w'.
Proof.
  revert w t. induction prog as [r | X e k IH | code | msg];
    intros w t Hrun; simpl in Hrun.
  - inversion Hrun; subst. constructor.
  - destruct (h X e w) as [x w1] eqn:He.
    destruct (run h (k x) w1) as [[o1 w2] t1] eqn:Hk.
    inversion Hrun; subst.
    replace x with (fst (h X e w)) by (rewrite He; reflexivity).
    constructor. rewrite He. simpl. eapply IH. eassumption.
  - inversion Hrun; subst. constructor.
  - inversion Hrun; subst. constructor.
Qed.

Lemma choose_app (A B : Type) (f : A -> option B) (a b : list A) :
  choose f (a ++ b)%list = (choose f a ++ choose f b)%list.
Proof.
  induction a as [| x a IH]; simpl; [reflexivity |].
  destruct (f x); simpl; rewrite IH; reflexivity.
Qed.

(** The closing loop of [Generate] prints one line per generated file. *)
Lemma run_fileNotices (generatedFiles : list string) (w : W) :
  exists w',
    run h (forEach generatedFiles
                   (fun file => call (log_Printf (fileNotice file)))) w
    = (Returned tt, w',
       map (fun file => logged (fileNotice file)) generatedFiles).
Proof.
  revert w. induction generatedFiles as [| file rest IH]; intros w; simpl.
  - eexists. reflexivity.
  - destruct (h unit (log_Printf (fileNotice file)) w) as [[] w1].
    destruct (IH w1) as [w' Hrest]. rewrite Hrest.
    eexists. reflexivity.
Qed.

Variables (l : TemplateLoader) (p : ptr) (outputDir : string).

(** Every run of the loop has one of the traces of [LoopTrace]. *)
Lemma generateLoop_trace (templateFiles acc : list string) (w w' : W)
    (o : Outcome (error + list string)) (t : list Step) :
  run h (generateLoop l p outputDir templateFiles acc) w = (o, w', t) ->
  LoopTrace l p outputDir templateFiles acc o t.
Proof.
  revert acc w o t.
  induction templateFiles as [| u rest IH]; intros acc w o t Hrun;
    simpl in Hrun.
  - inversion Hrun; subst. constructor.
  - destruct (h _ (Deref p) w) as [[d |] w1].
    + fold (skipped d u) in Hrun.
      destruct (skipped d u) eqn:Hskip; simpl in Hrun.
      * destruct (h unit (log_Printf (skipNotice u)) w1) as [[] w2].
        destruct (run h (generateLoop l p outputDir rest acc) w2)
          as [[o1 w3] t1] eqn:Hrest.
        inversion Hrun; subst.
        apply Loop_skip; [assumption | eapply IH; eassumption].
      * destruct (h _ (GenerateFile l u (outputFileOf outputDir u) p) w1)
          as [[e |] w2]; simpl in Hrun.
        -- inversion Hrun; subst. apply Loop_fail. assumption.
        -- destruct (run h (generateLoop l p outputDir rest
                              (acc ++ [outputFileOf outputDir u])) w2)
             as [[o1 w3] t1] eqn:Hrest.
           inversion Hrun; subst.
           apply Loop_next; [assumption | eapply IH; eassumption].
    + simpl in Hrun. inversion Hrun; subst. constructor.
Qed.

Lemma LoopTrace_never_exits (templateFiles acc : list string)
    (o : Outcome (error + list string)) (t : list Step) :
  LoopTrace l p outputDir templateFiles acc o t ->
  forall code, o <> Exited code.
Proof.
  induction 1; intros code; try discriminate; auto.
Qed.

(** Every run of [Generate] has one of the traces of [GenerateTrace]. *)
Lemma Generate_trace (w w' : W) (o : Outcome error) (t : list Step) :
  run h (Generate l p outputDir) w = (o, w', t) ->
  GenerateTrace l p outputDir o t.
Proof.
  unfold Generate. intros Hrun. simpl in Hrun.
  destruct (h _ (os_MkdirAll outputDir 493) w) as [[e |] w1];
    simpl in Hrun.
  { inversion Hrun; subst. constructor. }
  destruct (h _ (ListFiles l) w1) as [[files [e |]] w2]; simpl in Hrun.
  { inversion Hrun; subst. constructor. }
  rewrite run_bind in Hrun.
  destruct (run h (generateLoop l p outputDir files []) w2)
    as [[[[err | generatedFiles] | code | msg] w3] t1] eqn:Hloop.
  - simpl in Hrun. inversion Hrun; subst.
    rewrite app_nil_r. apply Generate_abort.
    eapply generateLoop_trace. eassumption.
  - simpl in Hrun.
    destruct (h unit (log_Printf (successNotice generatedFiles)) w3)
      as [[] w4].
    rewrite run_bind in Hrun.
    destruct (run_fileNotices generatedFiles w4) as [w5 Hnotices].
    rewrite Hnotices in Hrun. simpl in Hrun.
    inversion Hrun; subst. rewrite app_nil_r.
    apply Generate_done. eapply generateLoop_trace. eassumption.
  - apply generateLoop_trace in Hloop.
    exfalso. eapply LoopTrace_never_exits; [eassumption | reflexivity].
  - inversion Hrun; subst. apply Generate_panic.
    eapply generateLoop_trace. eassumption.
Qed.

End Running.

(** ** What the traces of [Generate] say *)

Section TraceFacts.

Context {C : Collaborators}.
Variables (l : TemplateLoader) (p : ptr) (outputDir : string).

Lemma cut_head (A B : Type) (f : A -> option B)
    (pre post t : list A) (s a : A) :
  (pre ++ s :: post)%list = a :: t ->
  f a = None -> f s <> None ->
  exists pre', pre = a :: pre' /\ (pre' ++ s :: post)%list = t.
Proof.
  intros Heq Ha Hs. destruct pre as [| x pre']; simpl in Heq.
  - inversion Heq; subst. contradiction.
  - inversion Heq; subst. eauto.
Qed.

Lemma cut_tail (A B : Type) (f : A -> option B)
    (pre post t1 t2 : list A) (s : A) :
  (pre ++ s :: post)%list = (t1 ++ t2)%list ->
  Forall (fun x => f x = None) t2 -> f s <> None ->
  exists post', post = (post' ++ t2)%list /\ (pre ++ s :: post')%list = t1.
Proof.
  revert t1. induction pre as [| x pre IH]; intros t1 Heq Hquiet Hs.
  - destruct t1 as [| y t1]; simpl in Heq.
    + subst t2. inversion Hquiet; subst. contradiction.
    + inversion Heq; subst. exists t1. auto.
  - destruct t1 as [| y t1]; simpl in Heq.
    + subst t2. exfalso.
      rewrite Forall_forall in Hquiet.
      apply Hs, Hquiet. right. apply in_elt.
    + inversion Heq; subst.
      destruct (IH t1 H1 Hquiet Hs) as [post' [Hpost Hpre]].
      exists post'. subst. auto.
Qed.

(** Neither the loop nor [Generate] stores through a pointer. *)
Lemma LoopTrace_storeFree (q : ptr) (files acc : list string)
    (o : Outcome (error + list string)) (t : list Step) :
  LoopTrace l p outputDir files acc o t -> storeFree q t.
Proof.
  unfold storeFree. induction 1; repeat constructor; assumption.
Qed.

Lemma GenerateTrace_storeFree (q : ptr) (o : Outcome error)
    (t : list Step) :
  GenerateTrace l p outputDir o t -> storeFree q t.
Proof.
  unfold storeFree.
  destruct 1 as [e | files e | files msg t Hloop | files err t Hloop
                 | files gen t Hloop];
    repeat constructor;
    try (eapply LoopTrace_storeFree; eassumption).
  apply Forall_app. split.
  - eapply LoopTrace_storeFree; eassumption.
  - constructor; [reflexivity |].
    apply Forall_forall. intros s Hin.
    apply in_map_iff in Hin. destruct Hin as [file [<- _]]. reflexivity.
Qed.

(** Every call of [GenerateFile] names the output file of its unit. *)
Lemma LoopTrace_outputs (files acc : list string)
    (o : Outcome (error + list string)) (t : list Step) :
  LoopTrace l p outputDir files acc o t ->
  Forall (fun c => snd (fst c) = outputFileOf outputDir (fst (fst c)))
         (generateCalls t).
Proof.
  induction 1; simpl; repeat constructor; assumption.
Qed.

(** The loop fails exactly when one of its calls fails. *)
Lemma LoopTrace_failedCall (files acc : list string)
    (o : Outcome (error + list string)) (t : list Step) :
  LoopTrace l p outputDir files acc o t ->
  existsb failedCall t = match o with
                         | Returned (inl _) => true
                         | _ => false
                         end.
Proof.
  induction 1; simpl; auto.
Qed.

(** A failing call of [GenerateFile] ends the loop on the spot. *)
Lemma LoopTrace_failure_is_last (files acc : list string)
    (o : Outcome (error + list string)) (t : list Step) :
  LoopTrace l p outputDir files acc o t ->
  forall pre s post u out e,
    t = (pre ++ s :: post)%list ->
    generateCall s = Some (u, out, Some e) ->
    post = [] /\ out = outputFileOf outputDir u /\
    o = Returned (inl (Some (generateError out e))).
Proof.
  induction 1 as [acc | u0 rest acc | u0 rest acc d o t Hskip Hloop IH
                  | u0 rest acc d e0 Hskip
                  | u0 rest acc d o t Hskip Hloop IH];
    intros pre s post u out e Ht Hs;
    assert (Hsome : generateCall s <> None) by (rewrite Hs; discriminate);
    symmetry in Ht.
  - destruct pre; discriminate.
  - destruct pre as [| x [| y pre]]; inversion Ht; subst; discriminate.
  - destruct (cut_head _ _ generateCall _ _ _ _ _ Ht eq_refl Hsome)
      as [pre1 [-> Ht1]].
    destruct (cut_head _ _ generateCall _ _ _ _ _ Ht1 eq_refl Hsome)
      as [pre2 [-> Ht2]].
    eapply IH; [symmetry; eassumption | eassumption].
  - destruct (cut_head _ _ generateCall _ _ _ _ _ Ht eq_refl Hsome)
      as [pre1 [-> Ht1]].
    destruct pre1 as [| x [| y pre1]]; inversion Ht1; subst.
    simpl in Hs. inversion Hs; subst. auto.
  - destruct (cut_head _ _ generateCall _ _ _ _ _ Ht eq_refl Hsome)
      as [pre1 [-> Ht1]].
    destruct pre1 as [| x pre1]; simpl in Ht1; inversion Ht1; subst.
    + simpl in Hs. discriminate.
    + eapply IH; [reflexivity | eassumption].
Qed.

(** The loop never returns a nil error. *)
Lemma LoopTrace_error (files acc : list string)
    (o : Outcome (error + list string)) (t : list Step) :
  LoopTrace l p outputDir files acc o t -> o <> Returned (inl None).
Proof.
  induction 1; try discriminate; assumption.
Qed.

(** The trace of a run that succeeds. *)
Lemma GenerateTrace_success (t : list Step) :
  GenerateTrace l p outputDir (Returned None) t ->
  exists files generatedFiles t1,
    LoopTrace l p outputDir files [] (Returned (inr generatedFiles)) t1 /\
    t = (Called (os_MkdirAll outputDir 493) None
         :: Called (ListFiles l) (files, None)
         :: t1 ++ closing generatedFiles)%list.
Proof.
  intros Htrace. remember (Returned None) as o eqn:Ho.
  destruct Htrace as [e0 | files e0 | files msg t Hloop | files err t Hloop
                      | files gen t Hloop]; try discriminate.
  - inversion Ho; subst err.
    exfalso. exact (LoopTrace_error _ _ _ _ Hloop eq_refl).
  - exists files, gen, t. auto.
Qed.

Lemma GenerateTrace_failure_is_last (o : Outcome error) (t : list Step) :
  GenerateTrace l p outputDir o t ->
  forall pre s post u out e,
    t = (pre ++ s :: post)%list ->
    generateCall s = Some (u, out, Some e) ->
    post = [] /\ out = outputFileOf outputDir u /\
    o = Returned (Some (generateError out e)).
Proof.
  destruct 1 as [e0 | files e0 | files msg t Hloop | files err t Hloop
                 | files gen t Hloop];
    intros pre s post u out e Ht Hs;
    assert (Hsome : generateCall s <> None) by (rewrite Hs; discriminate);
    symmetry in Ht.
  - destruct pre as [| x [| y pre]]; inversion Ht; subst; discriminate.
  - destruct pre as [| x [| y [| z pre]]]; inversion Ht; subst;
      discriminate.
  - destruct (cut_head _ _ generateCall _ _ _ _ _ Ht eq_refl Hsome)
      as [pre1 [-> Ht1]].
    destruct (cut_head _ _ generateCall _ _ _ _ _ Ht1 eq_refl Hsome)
      as [pre2 [-> Ht2]].
    destruct (LoopTrace_failure_is_last _ _ _ _ Hloop _ _ _ _ _ _
                (eq_sym Ht2) Hs)
      as [_ [_ Ho]]. discriminate.
  - destruct (cut_head _ _ generateCall _ _ _ _ _ Ht eq_refl Hsome)
      as [pre1 [-> Ht1]].
    destruct (cut_head _ _ generateCall _ _ _ _ _ Ht1 eq_refl Hsome)
      as [pre2 [-> Ht2]].
    destruct (LoopTrace_failure_is_last _ _ _ _ Hloop _ _ _ _ _ _
                (eq_sym Ht2) Hs)
      as [Hpost [Hout Ho]].
    inversion Ho; subst. auto.
  - destruct (cut_head _ _ generateCall _ _ _ _ _ Ht eq_refl Hsome)
      as [pre1 [-> Ht1]].
    destruct (cut_head _ _ generateCall _ _ _ _ _ Ht1 eq_refl Hsome)
      as [pre2 [-> Ht2]].
    assert (Hquiet : Forall (fun x => generateCall x = None)
              (logged (successNotice gen)
               :: map (fun file => logged (fileNotice file)) gen)).
    { constructor; [reflexivity |].
      apply Forall_forall. intros x Hin.
      apply in_map_iff in Hin. destruct Hin as [file [<- _]].
      reflexivity. }
    destruct (cut_tail _ _ generateCall _ _ _ _ _ Ht2 Hquiet Hsome)
      as [post' [_ Ht3]].
    destruct (LoopTrace_failure_is_last _ _ _ _ Hloop _ _ _ _ _ _
                (eq_sym Ht3) Hs)
      as [_ [_ Ho]]. discriminate.
Qed.

End TraceFacts.

(** ** Runs over a snapshot that stays as it is *)

Section Snapshot.

Context {C : Collaborators}.
Variables (l : TemplateLoader) (p : ptr) (outputDir : string).
Variable d : TemplateData.

(** Along a trace without a store through [p], every read through [p]
    sees [d], and so does the last world. *)
Lemma Replay_snapshot (W : Type) (h : Handler W) (w w' : W)
    (t : list Step) :
  Replay h w t w' ->
  keepsSnapshot h p -> storeFree p t -> deref h p w = Some d ->
  Forall (eq (Some d)) (derefAnswers p t) /\ deref h p w' = Some d.
Proof.
  intros Hreplay Hkeeps.
  induction Hreplay as [w | X e w w' t Hreplay IH]; intros Hfree Hd.
  - split; [constructor | assumption].
  - inversion Hfree as [| s t' Hs Hfree']; subst. simpl in Hs.
    destruct (IH Hfree' (Hkeeps X e w d Hs Hd)) as [Hall Hlast].
    split; [| assumption].
    unfold derefAnswers in *. simpl.
    destruct (derefAnswer p (Called e (fst (h X e w)))) as [a |] eqn:Ha;
      [| assumption].
    constructor; [| assumption].
    unfold derefAnswer in Ha. simpl in Ha.
    destruct e; try discriminate.
    destruct (Nat.eqb_spec p p0); [subst p0 | discriminate].
    inversion Ha; subst. symmetry. exact Hd.
Qed.

Lemma derefAnswers_deref (a : option TemplateData) (t : list Step) :
  derefAnswers p (Called (Deref p) a :: t) = a :: derefAnswers p t.
Proof.
  unfold derefAnswers, derefAnswer. simpl. rewrite Nat.eqb_refl.
  reflexivity.
Qed.

Lemma processed_skip (u : string) (rest : list string) :
  skipped d u = true ->
  processed d (u :: rest) = processed d rest /\
  filter (skipped d) (u :: rest) = u :: filter (skipped d) rest.
Proof.
  intros Hskip. unfold processed. simpl. rewrite Hskip. auto.
Qed.

Lemma processed_keep (u : string) (rest : list string) :
  skipped d u = false ->
  processed d (u :: rest) = u :: processed d rest /\
  filter (skipped d) (u :: rest) = filter (skipped d) rest.
Proof.
  intros Hskip. unfold processed. simpl. rewrite Hskip. auto.
Qed.

(** The loop over a snapshot [d]: it goes through the units that pass
    the skip test, in listing order, until the first failure. *)
Lemma LoopTrace_snapshot (files acc : list string)
    (o : Outcome (error + list string)) (t : list Step) :
  LoopTrace l p outputDir files acc o t ->
  Forall (eq (Some d)) (derefAnswers p t) ->
  match o with
  | Returned (inr generatedFiles) =>
      generatedFiles = (acc ++ outputsOf outputDir d files)%list /\
      generateCalls t = map (generatedOk outputDir) (processed d files) /\
      printed t = map skipNotice (filter (skipped d) files)
  | Returned (inl err) =>
      exists before u after e,
        files = (before ++ u :: after)%list /\
        skipped d u = false /\
        err = Some (generateError (outputFileOf outputDir u) e) /\
        generateCalls t
        = (map (generatedOk outputDir) (processed d before)
             ++ [(u, outputFileOf outputDir u, Some e)])%list /\
        printed t = map skipNotice (filter (skipped d) before)
  | _ => False
  end.
Proof.
  unfold outputsOf.
  induction 1 as [acc | u0 rest acc | u0 rest acc d0 o t Hskip Hloop IH
                  | u0 rest acc d0 e0 Hskip
                  | u0 rest acc d0 o t Hskip Hloop IH];
    intros Hall; try rewrite derefAnswers_deref in Hall;
    try (inversion Hall as [| a rest' Ha Hall']; subst;
         inversion Ha; subst d0).
  - rewrite app_nil_r. auto.
  - specialize (IH Hall').
    destruct o as [[err | generatedFiles] | code | msg]; try assumption.
    + destruct IH
        as [before [u [after [e [Hfiles [Hu [Herr [Hcalls Hlog]]]]]]]].
      exists (u0 :: before), u, after, e. subst rest.
      destruct (processed_skip u0 before Hskip) as [-> ->].
      repeat split; try assumption.
      change (skipNotice u0 :: printed t
              = map skipNotice (u0 :: filter (skipped d) before)).
      rewrite Hlog. reflexivity.
    + destruct IH as [Hgen [Hcalls Hlog]].
      destruct (processed_skip u0 rest Hskip) as [-> ->].
      repeat split; try assumption.
      change (skipNotice u0 :: printed t
              = map skipNotice (u0 :: filter (skipped d) rest)).
      rewrite Hlog. reflexivity.
  - exists [], u0, rest, e0. repeat split. assumption.
  - specialize (IH Hall').
    destruct o as [[err | generatedFiles] | code | msg]; try assumption.
    + destruct IH
        as [before [u [after [e [Hfiles [Hu [Herr [Hcalls Hlog]]]]]]]].
      exists (u0 :: before), u, after, e. subst rest.
      destruct (processed_keep u0 before Hskip) as [-> ->].
      repeat split; try assumption.
      change ((u0, outputFileOf outputDir u0, None) :: generateCalls t
              = (generatedOk outputDir u0
                   :: map (generatedOk outputDir) (processed d before))
                  ++ [(u, outputFileOf outputDir u, Some e)])%list.
      rewrite Hcalls. reflexivity.
    + destruct IH as [Hgen [Hcalls Hlog]].
      destruct (processed_keep u0 rest Hskip) as [-> ->].
      repeat split; try assumption.
      * rewrite Hgen, <- app_assoc. reflexivity.
      * change ((u0, outputFileOf outputDir u0, None) :: generateCalls t
                = generatedOk outputDir u0
                    :: map (generatedOk outputDir) (processed d rest)).
        rewrite Hcalls. reflexivity.
Qed.

Lemma closing_quiet (generatedFiles : list string) :
  generateCalls (closing generatedFiles) = [] /\
  derefAnswers p (closing generatedFiles) = [] /\
  existsb failedCall (closing generatedFiles) = false /\
  printed (closing generatedFiles)
  = successNotice generatedFiles :: map fileNotice generatedFiles.
Proof.
  unfold closing.
  change (generateCalls (logged (successNotice generatedFiles) :: ?t))
    with (generateCalls t).
  change (derefAnswers p (logged (successNotice generatedFiles) :: ?t))
    with (derefAnswers p t).
  change (existsb failedCall (logged (successNotice generatedFiles) :: ?t))
    with (existsb failedCall t).
  change (printed (logged (successNotice generatedFiles) :: ?t))
    with (successNotice generatedFiles :: printed t).
  induction generatedFiles as [| file rest IH]; simpl; [auto |].
  destruct IH as [Hcalls [Hderefs [Hfailed Hprinted]]].
  repeat split; try assumption.
  change (printed (logged (fileNotice file) :: ?t))
    with (fileNotice file :: printed t).
  inversion Hprinted as [Hrest]. rewrite Hrest. reflexivity.
Qed.

(** [Generate] over a snapshot [d]. *)
Lemma GenerateTrace_snapshot (o : Outcome error) (t : list Step) :
  GenerateTrace l p outputDir o t ->
  Forall (eq (Some d)) (derefAnswers p t) ->
  match o with
  | Returned None =>
      existsb failedCall t = false /\
      generateCalls t
      = map (generatedOk outputDir) (processed d (listed t)) /\
      printed t
      = (map skipNotice (filter (skipped d) (listed t))
           ++ successNotice (outputsOf outputDir d (listed t))
           :: map fileNotice (outputsOf outputDir d (listed t)))%list
  | Returned (Some msg) =>
      existsb failedCall t = true /\
      (generateCalls t = [] \/
       exists before u after e,
         listed t = (before ++ u :: after)%list /\
         skipped d u = false /\
         msg = generateError (outputFileOf outputDir u) e /\
         generateCalls t
         = (map (generatedOk outputDir) (processed d before)
              ++ [(u, outputFileOf outputDir u, Some e)])%list /\
         printed t = map skipNotice (filter (skipped d) before))
  | _ => False
  end.
Proof.
  destruct 1 as [e0 | files e0 | files msg t Hloop | files err t Hloop
                 | files gen t Hloop]; intros Hall.
  - split; [reflexivity | left; reflexivity].
  - split; [reflexivity | left; reflexivity].
  - exact (LoopTrace_snapshot _ _ _ _ Hloop Hall).
  - pose proof (LoopTrace_snapshot _ _ _ _ Hloop Hall) as Hsnap.
    simpl in Hsnap.
    destruct Hsnap
      as [before [u [after [e [Hfiles [Hu [Herr [Hcalls Hlog]]]]]]]].
    subst err. split.
    + change (existsb failedCall t = true).
      rewrite (LoopTrace_failedCall _ _ _ _ _ _ _ Hloop). reflexivity.
    + right. exists before, u, after, e. auto.
  - destruct (closing_quiet gen) as [Hcalls [Hderefs [Hfailed Hprinted]]].
    change (Forall (eq (Some d)) (derefAnswers p (t ++ closing gen)))
      in Hall.
    unfold derefAnswers in Hall, Hderefs.
    rewrite choose_app, Hderefs, app_nil_r in Hall.
    pose proof (LoopTrace_snapshot _ _ _ _ Hloop Hall) as Hsnap.
    simpl in Hsnap. destruct Hsnap as [Hgen [Hloopcalls Hlog]].
    change (listed (Called (os_MkdirAll outputDir 493) None
                    :: Called (ListFiles l) (files, None)
                    :: t ++ closing gen)) with files.
    split; [| split].
    + change (existsb failedCall (t ++ closing gen) = false).
      rewrite existsb_app, Hfailed,
        (LoopTrace_failedCall _ _ _ _ _ _ _ Hloop). reflexivity.
    + change (generateCalls (t ++ closing gen)
              = map (generatedOk outputDir) (processed d files)).
      unfold generateCalls in *.
      rewrite choose_app, Hcalls, app_nil_r. assumption.
    + change (printed (t ++ closing gen)
              = (map skipNotice (filter (skipped d) files)
                   ++ successNotice (outputsOf outputDir d files)
                   :: map fileNotice (outputsOf outputDir d files))%list).
      unfold printed in *.
      rewrite choose_app, Hprinted, Hlog, Hgen. reflexivity.
Qed.

End Snapshot.

(** ** The generation driver *)

Section Driver.

Context {C : Collaborators} {W : Type} (h : Handler W).
Arguments h : clear implicits.
Variables (l : TemplateLoader) (p : ptr) (outputDir : string).

(** What a run over a snapshot [d] gives: its trace shape and the reads
    through the pointer. *)
Lemma Generate_run (d : TemplateData) (w w' : W) (o : Outcome error)
    (t : list Step) :
  keepsSnapshot h p -> deref h p w = Some d ->
  run h (Generate l p outputDir) w = (o, w', t) ->
  GenerateTrace l p outputDir o t /\
  Forall (eq (Some d)) (derefAnswers p t) /\
  deref h p w' = Some d.
Proof.
  intros Hkeeps Hd Hrun.
  pose proof (Generate_trace h l p outputDir w w' o t Hrun) as Htrace.
  split; [assumption |].
  eapply Replay_snapshot; try eassumption.
  - eapply run_replay. eassumption.
  - eapply GenerateTrace_storeFree. eassumption.
Qed.

(** The calls for one unit among the calls for the processed units. *)
Lemma callsFor_processed (d : TemplateData) (u : string)
    (files : list string) :
  filter (fun c => String.eqb (fst (fst c)) u)
         (map (generatedOk outputDir) (processed d files))
  = if skipped d u then []
    else repeat (generatedOk outputDir u) (count_occ string_dec files u).
Proof.
  unfold processed.
  induction files as [| x files IH]; simpl.
  - destruct (skipped d u); reflexivity.
  - destruct (skipped d x) eqn:Hx; simpl.
    + rewrite IH. destruct (skipped d u) eqn:Hu; [reflexivity |].
      destruct (string_dec x u) as [-> | Hne]; [congruence | reflexivity].
    + destruct (String.eqb_spec x u) as [-> | Hne].
      * rewrite IH, Hx. destruct (string_dec u u); [| contradiction].
        reflexivity.
      * rewrite IH. destruct (string_dec x u); [contradiction |].
        reflexivity.
Qed.

Lemma filter_app_last (A : Type) (f : A -> bool) (xs : list A) (x : A) :
  filter f (xs ++ [x])%list
  = (filter f xs ++ (if f x then [x] else []))%list.
Proof.
  rewrite filter_app. reflexivity.
Qed.

(** C1. A template unit whose base name ends in "_test.go.tmpl" is never
    generated when IncludeTest is unset, and a run that succeeds prints the
    skip notice for it; when IncludeTest is set, a run that succeeds makes
    exactly one successful GenerateFile call per listing of the unit, to
    its output file. *)
Theorem Generate_test_templates (d : TemplateData) (w w' : W)
    (o : Outcome error) (t : list Step) (u : string) :
  keepsSnapshot h p -> deref h p w = Some d ->
  run h (Generate l p outputDir) w = (o, w', t) ->
  isTestTemplate u = true ->
  (IncludeTest d = false ->
     callsFor u t = [] /\
     (o = Returned None -> In u (listed t) ->
      In (skipNotice u) (printed t)))
  /\
  (IncludeTest d = true -> o = Returned None ->
     callsFor u t
     = repeat (generatedOk outputDir u) (count_occ string_dec (listed t) u)).
Proof.
  intros Hkeeps Hd Hrun Htest.
  destruct (Generate_run d w w' o t Hkeeps Hd Hrun) as [Htrace [Hall _]].
  pose proof (GenerateTrace_snapshot l p outputDir d o t Htrace Hall) as Hsnap.
  unfold callsFor. split.
  - intros Hflag.
    assert (Hskip : skipped d u = true)
      by (unfold skipped; rewrite Hflag, Htest; reflexivity).
    destruct o as [[msg |] | code | msg]; try contradiction.
    + destruct Hsnap as [_ [Hcalls | Hcalls]].
      * rewrite Hcalls. split; [reflexivity | discriminate].
      * destruct Hcalls as [before [x [after [e [_ [Hx [_ [Hcalls _]]]]]]]].
        split; [| discriminate].
        rewrite Hcalls, filter_app_last, callsFor_processed, Hskip. simpl.
        destruct (String.eqb_spec x u) as [-> | _]; [congruence | reflexivity].
    + destruct Hsnap as [_ [Hcalls Hlog]].
      rewrite Hcalls, callsFor_processed, Hskip.
      split; [reflexivity |]. intros _ Hin.
      rewrite Hlog. apply in_or_app. left.
      apply in_map. apply filter_In. auto.
  - intros Hflag Ho. subst o.
    assert (Hskip : skipped d u = false)
      by (unfold skipped; rewrite Hflag; reflexivity).
    destruct Hsnap as [_ [Hcalls _]].
    rewrite Hcalls, callsFor_processed, Hskip. reflexivity.
Qed.

Lemma GenerateTrace_outputs (o : Outcome error) (t : list Step) :
  GenerateTrace l p outputDir o t ->
  Forall (fun c => snd (fst c) = outputFileOf outputDir (fst (fst c)))
         (generateCalls t).
Proof.
  destruct 1 as [e0 | files e0 | files msg t Hloop | files err t Hloop
                 | files gen t Hloop];
    try (constructor; fail);
    try (exact (LoopTrace_outputs _ _ _ _ _ _ _ Hloop)).
  change (Forall (fun c => snd (fst c) = outputFileOf outputDir (fst (fst c)))
                 (generateCalls (t ++ closing gen))).
  unfold generateCalls. rewrite choose_app.
  destruct (closing_quiet p gen) as [Hquiet _].
  unfold generateCalls in Hquiet. rewrite Hquiet, app_nil_r.
  exact (LoopTrace_outputs _ _ _ _ _ _ _ Hloop).
Qed.

(** C2. In every run of Generate, each file is generated at the output
    directory joined with the base name of its template without the
    ".tmpl" suffix; a run that succeeds generates exactly one file per
    processed unit, in listing order. *)
Theorem Generate_output_paths (w w' : W) (o : Outcome error)
    (t : list Step) :
  run h (Generate l p outputDir) w = (o, w', t) ->
  Forall (fun c =>
            snd (fst c)
            = filepath.Join
                [outputDir;
                 strings.TrimSuffix (filepath.Base (fst (fst c))) ".tmpl"])
         (generateCalls t)
  /\
  (forall d : TemplateData,
      keepsSnapshot h p -> deref h p w = Some d -> o = Returned None ->
      generateCalls t
      = map (fun u =>
               (u, filepath.Join
                     [outputDir;
                      strings.TrimSuffix (filepath.Base u) ".tmpl"],
                None))
            (processed d (listed t))).
Proof.
  intros Hrun. split.
  - apply GenerateTrace_outputs with (o := o).
    eapply Generate_trace. eassumption.
  - intros d Hkeeps Hd Ho. subst o.
    destruct (Generate_run d w w' _ t Hkeeps Hd Hrun) as [Htrace [Hall _]].
    pose proof (GenerateTrace_snapshot l p outputDir d _ t Htrace Hall)
      as Hsnap.
    destruct Hsnap as [_ [Hcalls _]]. exact Hcalls.
Qed.

(** C3, as the code has it. When a unit fails mid-batch, Generate stops
    at that call and undoes nothing: every processed unit listed before
    the failing one has been generated, the failing call is the last
    thing Generate does, and no unit listed after it is generated. *)
Theorem Generate_stops_at_failure (d : TemplateData) (w w' : W)
    (o : Outcome error) (t pre post : list Step) (s : Step)
    (u out e : string) :
  keepsSnapshot h p -> deref h p w = Some d ->
  run h (Generate l p outputDir) w = (o, w', t) ->
  t = (pre ++ s :: post)%list ->
  generateCall s = Some (u, out, Some e) ->
  post = [] /\
  exists before after,
    listed t = (before ++ u :: after)%list /\
    generateCalls t
    = (map (generatedOk outputDir) (processed d before)
         ++ [(u, out, Some e)])%list.
Proof.
  intros Hkeeps Hd Hrun Ht Hs.
  destruct (Generate_run d w w' o t Hkeeps Hd Hrun) as [Htrace [Hall _]].
  destruct (GenerateTrace_failure_is_last l p outputDir o t Htrace
              pre s post u out e Ht Hs) as [Hpost [Hout Ho]].
  split; [assumption |].
  pose proof (GenerateTrace_snapshot l p outputDir d o t Htrace Hall) as Hsnap.
  subst o post.
  assert (Hcalls : generateCalls t
                   = (generateCalls pre ++ [(u, out, Some e)])%list).
  { subst t. unfold generateCalls. rewrite choose_app. simpl.
    rewrite Hs. reflexivity. }
  destruct Hsnap as [_ [Hnone | Hsome]].
  - rewrite Hnone in Hcalls. destruct (generateCalls pre); discriminate.
  - destruct Hsome as [before [x [after [e' [Hfiles [_ [_ [Hcalls' _]]]]]]]].
    rewrite Hcalls in Hcalls'.
    apply app_inj_tail in Hcalls'. destruct Hcalls' as [Hpre Hlast].
    inversion Hlast; subst x.
    exists before, after. split; [assumption |].
    rewrite Hcalls, Hpre. congruence.
Qed.

(** C4, as the code has it. A failing GenerateFile call aborts the
    batch: Generate returns the error "failed to generate <output file>:
    <cause>" and does nothing after that call. The error carries the
    output file of the failing unit (the output directory joined with its
    base name without ".tmpl"), not the name of the unit. *)
Theorem Generate_aborts_on_failure (w w' : W) (o : Outcome error)
    (t pre post : list Step) (s : Step) (u out e : string) :
  run h (Generate l p outputDir) w = (o, w', t) ->
  t = (pre ++ s :: post)%list ->
  generateCall s = Some (u, out, Some e) ->
  o = Returned (Some ("failed to generate " ++ out ++ ": " ++ e)) /\
  out = filepath.Join
          [outputDir; strings.TrimSuffix (filepath.Base u) ".tmpl"] /\
  post = [].
Proof.
  intros Hrun Ht Hs.
  pose proof (Generate_trace h l p outputDir w w' o t Hrun) as Htrace.
  destruct (GenerateTrace_failure_is_last l p outputDir o t Htrace
              pre s post u out e Ht Hs) as [Hpost [Hout Ho]].
  auto.
Qed.

(** C8, as the code has it. Generate returns only an error value: nil
    exactly when no checked call failed. On success the written paths,
    one per processed unit in generation order, are not returned but
    printed: their count, then one line per path. *)
Theorem Generate_reports_written_paths (d : TemplateData) (w w' : W)
    (o : Outcome error) (t : list Step) :
  keepsSnapshot h p -> deref h p w = Some d ->
  run h (Generate l p outputDir) w = (o, w', t) ->
  exists r : error,
    o = Returned r /\
    (r = None <-> existsb failedCall t = false) /\
    (r = None ->
     let written := map (fun c => snd (fst c)) (generateCalls t) in
     written = map (outputFileOf outputDir) (processed d (listed t)) /\
     exists notices,
       printed t
       = (notices ++ successNotice written :: map fileNotice written)%list).
Proof.
  intros Hkeeps Hd Hrun.
  destruct (Generate_run d w w' o t Hkeeps Hd Hrun) as [Htrace [Hall _]].
  pose proof (GenerateTrace_snapshot l p outputDir d o t Htrace Hall) as Hsnap.
  destruct o as [[msg |] | code | msg]; try contradiction.
  - exists (Some msg). destruct Hsnap as [Hfailed _].
    split; [reflexivity |]. rewrite Hfailed.
    split; [split; discriminate | discriminate].
  - exists None. destruct Hsnap as [Hfailed [Hcalls Hlog]].
    split; [reflexivity |]. split; [tauto |]. intros _.
    assert (Hwritten : map (fun c => snd (fst c)) (generateCalls t)
                       = map (outputFileOf outputDir)
                             (processed d (listed t))).
    { rewrite Hcalls, map_map. reflexivity. }
    simpl. rewrite Hwritten. split; [reflexivity |].
    eexists. exact Hlog.
Qed.

End Driver.

(** ** The files a run leaves on disk *)

Section Files.

Context {C : Collaborators} {W : Type} (h : Handler W).
Arguments h : clear implicits.
Variables (l : TemplateLoader) (p : ptr) (outputDir : string).
Variable read : string -> W -> option string.
Variable rendering : TemplateLoader -> string -> TemplateData -> string.
Variable d : TemplateData.
Hypothesis keeps : keepsSnapshot h p.
Hypothesis writes : writesRendering h read rendering.

Lemma Replay_cons_inv (w w' : W) (s : Step) (t : list Step) :
  Replay h w (s :: t) w' ->
  answer s = fst (h _ (event s) w) /\
  Replay h (snd (h _ (event s) w)) t w'.
Proof.
  intros Hreplay. inversion Hreplay; subst. simpl. auto.
Qed.

Lemma Replay_app_inv (t1 t2 : list Step) (w w' : W) :
  Replay h w (t1 ++ t2) w' ->
  exists wm, Replay h w t1 wm /\ Replay h wm t2 w'.
Proof.
  revert w. induction t1 as [| s t1 IH]; intros w Hreplay; simpl in Hreplay.
  - exists w. split; [constructor | assumption].
  - inversion Hreplay; subst.
    destruct (IH _ H3) as [wm [H1 H2]].
    exists wm. split; [constructor |]; assumption.
Qed.

(** Printing the closing lines leaves the files alone. *)
Lemma Replay_closing (generatedFiles : list string) (w w' : W)
    (path : string) :
  Replay h w (closing generatedFiles) w' -> read path w' = read path w.
Proof.
  destruct writes as [_ Hquiet].
  unfold closing. intros Hreplay.
  apply Replay_cons_inv in Hreplay. destruct Hreplay as [_ Hreplay].
  simpl in Hreplay.
  rewrite <- (Hquiet _ (log_Printf (successNotice generatedFiles)) w path
                eq_refl).
  revert Hreplay.
  generalize (snd (h _ (log_Printf (successNotice generatedFiles)) w)).
  induction generatedFiles as [| file rest IH]; intros w0 Hreplay;
    simpl in Hreplay.
  - inversion Hreplay; subst. reflexivity.
  - apply Replay_cons_inv in Hreplay. destruct Hreplay as [_ Hreplay].
    simpl in Hreplay. rewrite (IH _ Hreplay).
    apply Hquiet. reflexivity.
Qed.

(** After a loop that ran to its end, a path holds the rendering of the
    last processed unit that maps to it, and what it held before when
    there is no such unit. *)
Lemma LoopTrace_files (files acc : list string)
    (o : Outcome (error + list string)) (t : list Step) :
  LoopTrace l p outputDir files acc o t ->
  forall (w w' : W) (generatedFiles : list string) (path : string),
    o = Returned (inr generatedFiles) ->
    Replay h w t w' -> deref h p w = Some d ->
    read path w'
    = match lastWriter d outputDir path files with
      | Some u => Some (rendering l u d)
      | None => read path w
      end.
Proof.
  destruct writes as [Hwrite Hquiet].
  induction 1 as [acc | u0 rest acc | u0 rest acc d0 o t Hskip Hloop IH
                  | u0 rest acc d0 e0 Hskip
                  | u0 rest acc d0 o t Hskip Hloop IH];
    intros w w' gen path Ho Hreplay Hd; try discriminate.
  - inversion Hreplay; subst. reflexivity.
  - apply Replay_cons_inv in Hreplay.
    destruct Hreplay as [Hanswer Hreplay]. simpl in Hanswer, Hreplay.
    fold (deref h p w) in Hanswer. rewrite Hd in Hanswer.
    inversion Hanswer; subst d0.
    apply Replay_cons_inv in Hreplay.
    destruct Hreplay as [_ Hreplay]. simpl in Hreplay.
    assert (Hd1 : deref h p (snd (h _ (Deref p) w)) = Some d)
      by (apply keeps; [reflexivity | assumption]).
    assert (Hd2 : deref h p (snd (h _ (log_Printf (skipNotice u0))
                                     (snd (h _ (Deref p) w)))) = Some d)
      by (apply keeps; [reflexivity | assumption]).
    rewrite (IH _ _ gen path Ho Hreplay Hd2).
    simpl. rewrite Hskip. simpl.
    destruct (lastWriter d outputDir path rest); [reflexivity |].
    rewrite !Hquiet by reflexivity. reflexivity.
  - apply Replay_cons_inv in Hreplay.
    destruct Hreplay as [Hanswer Hreplay]. simpl in Hanswer, Hreplay.
    fold (deref h p w) in Hanswer. rewrite Hd in Hanswer.
    inversion Hanswer; subst d0.
    apply Replay_cons_inv in Hreplay.
    destruct Hreplay as [Hok Hreplay]. simpl in Hok, Hreplay.
    assert (Hd1 : deref h p (snd (h _ (Deref p) w)) = Some d)
      by (apply keeps; [reflexivity | assumption]).
    assert (Hd2 : deref h p
                    (snd (h _ (GenerateFile l u0
                                 (outputFileOf outputDir u0) p)
                            (snd (h _ (Deref p) w)))) = Some d)
      by (apply keeps; [reflexivity | assumption]).
    rewrite (IH _ _ gen path Ho Hreplay Hd2).
    simpl. rewrite Hskip. simpl.
    destruct (lastWriter d outputDir path rest); [reflexivity |].
    destruct (Hwrite l u0 (outputFileOf outputDir u0) p _ d Hd1
                (eq_sym Hok)) as [Hhere Hothers].
    destruct (String.eqb_spec (outputFileOf outputDir u0) path)
      as [<- | Hne].
    + exact Hhere.
    + rewrite Hothers by (intros Heq; apply Hne; symmetry; exact Heq).
      apply Hquiet. reflexivity.
Qed.

(** The last unit of a listing that maps to a path is its last writer. *)
Lemma lastWriter_last (before after : list string) (later : string) :
  skipped d later = false ->
  (forall x, In x after -> skipped d x = false ->
             outputFileOf outputDir x <> outputFileOf outputDir later) ->
  lastWriter d outputDir (outputFileOf outputDir later)
             (before ++ later :: after)
  = Some later.
Proof.
  intros Hlater Hafter.
  assert (Hnone : lastWriter d outputDir (outputFileOf outputDir later) after
                  = None).
  { induction after as [| x after IH]; simpl; [reflexivity |].
    rewrite IH by (intros y Hy; apply Hafter; right; exact Hy).
    destruct (skipped d x) eqn:Hx; simpl; [reflexivity |].
    destruct (String.eqb_spec (outputFileOf outputDir x)
                              (outputFileOf outputDir later)) as [Heq | _];
      [| reflexivity].
    exfalso. exact (Hafter x (or_introl eq_refl) Hx Heq). }
  induction before as [| x before IH]; simpl.
  - rewrite Hnone, Hlater, String.eqb_refl. reflexivity.
  - rewrite IH. reflexivity.
Qed.

(** C10. The output path depends on the base name only: two units with
    one base name map to one output path, whatever their directories,
    and after a run that succeeds this path holds the rendering of the
    later unit, which has overwritten that of the earlier one. *)
Theorem Generate_flattens_directories (earlier later : string) :
  filepath.Base earlier = filepath.Base later ->
  outputFileOf outputDir earlier = outputFileOf outputDir later /\
  forall (w w' : W) (t : list Step) (before after : list string),
    deref h p w = Some d ->
    run h (Generate l p outputDir) w = (Returned None, w', t) ->
    listed t = (before ++ later :: after)%list ->
    In earlier before ->
    skipped d later = false ->
    (forall x, In x after -> skipped d x = false ->
               outputFileOf outputDir x <> outputFileOf outputDir later) ->
    read (outputFileOf outputDir earlier) w' = Some (rendering l later d).
Proof.
  intros Hbase.
  assert (Hsame : outputFileOf outputDir earlier
                  = outputFileOf outputDir later)
    by (unfold outputFileOf; rewrite Hbase; reflexivity).
  split; [assumption |].
  intros w w' t before after Hd Hrun Hlisted _ Hlater Hafter.
  rewrite Hsame.
  pose proof (run_replay h _ (Generate l p outputDir) w w' _ t Hrun)
    as Hreplay.
  pose proof (Generate_trace h l p outputDir w w' _ t Hrun) as Htrace.
  destruct (GenerateTrace_success l p outputDir t Htrace)
    as [files [gen [t1 [Hloop ->]]]].
  change (listed _) with files in Hlisted. subst files.
  apply Replay_cons_inv in Hreplay. destruct Hreplay as [_ Hreplay].
  apply Replay_cons_inv in Hreplay. destruct Hreplay as [_ Hreplay].
  simpl in Hreplay.
  apply Replay_app_inv in Hreplay. destruct Hreplay as [wm [Hloopw Hclose]].
  rewrite (Replay_closing gen wm w' _ Hclose).
  rewrite (LoopTrace_files _ _ _ _ Hloop _ wm gen _ eq_refl Hloopw).
  - rewrite lastWriter_last by assumption. reflexivity.
  - apply keeps; [reflexivity |]. apply keeps; [reflexivity | assumption].
Qed.

End Files.

(** ** The command line *)

Section CommandLine.

Lemma cutAtEquals_spec (s before after : string) :
  flag.cutAtEquals s = Some (before, after) ->
  s = before ++ "=" ++ after.
Proof.
  revert before. induction s as [| c s IH]; intros before Hcut;
    simpl in Hcut; [discriminate |].
  destruct (Ascii.eqb_spec c "="%char) as [-> | _].
  - inversion Hcut; subst. reflexivity.
  - destruct (flag.cutAtEquals s) as [[b a] |]; [| discriminate].
    inversion Hcut; subst. simpl. rewrite (IH b eq_refl). reflexivity.
Qed.

(** The arguments that [parseOne] reads as the flag [out]. *)
Lemma token_out (s : string) (value : option string) :
  flag.token s = flag.FlagToken "out" value ->
  match value with
  | None => s = "-out" \/ s = "--out"
  | Some v => s = "-out=" ++ v \/ s = "--out=" ++ v
  end.
Proof.
  unfold flag.token.
  destruct s as [| m [| c tail]]; try discriminate.
  destruct (Ascii.eqb_spec m "-"%char) as [-> | _]; [| discriminate].
  assert (Hname : forall name,
             match name with
             | "" => flag.BadSyntax
             | String n _ =>
                 if Ascii.eqb n "-"%char || Ascii.eqb n "="%char
                 then flag.BadSyntax
                 else let (name0, value0) := flag.splitValue name in
                      flag.FlagToken name0 value0
             end = flag.FlagToken "out" value ->
             match value with
             | None => name = "out"
             | Some v => name = "out=" ++ v
             end).
  { intros [| n name]; [discriminate |].
    destruct (Ascii.eqb n "-"%char || Ascii.eqb n "="%char); [discriminate |].
    unfold flag.splitValue.
    destruct (flag.cutAtEquals name) as [[before after] |] eqn:Hcut.
    - intros Heq. inversion Heq; subst.
      rewrite (cutAtEquals_spec _ _ _ Hcut). reflexivity.
    - intros Heq. inversion Heq; subst. reflexivity. }
  destruct (Ascii.eqb_spec c "-"%char) as [-> | Hc]; cbn [andb].
  - destruct (String.eqb_spec tail "") as [-> | _]; [discriminate |].
    intros Htoken. apply (Hname tail) in Htoken.
    destruct value; subst tail; right; reflexivity.
  - intros Htoken. apply (Hname (String c tail)) in Htoken.
    destruct value; rewrite Htoken; left; reflexivity.
Qed.

(** Only the flag [out] changes the output directory. *)
Lemma formal_out (name : string) :
  match flag.formal name with
  | Some (flag.SetBool set) =>
      forall b f, flag.outputDirFlag (set b f) = flag.outputDirFlag f
  | Some (flag.SetString set) =>
      (name = "out" /\ forall v f, flag.outputDirFlag (set v f) = v) \/
      (forall v f, flag.outputDirFlag (set v f) = flag.outputDirFlag f)
  | None => True
  end.
Proof.
  unfold flag.formal.
  repeat match goal with
         | |- context [String.eqb name ?k] =>
             destruct (String.eqb_spec name k)
         end; simpl; auto.
Qed.

Lemma setsOutEmpty_tail (s : string) (rest : list string) :
  setsOutEmpty rest = true -> setsOutEmpty (s :: rest) = true.
Proof.
  intros Hrest. simpl. rewrite Hrest. apply orb_true_r.
Qed.

(** One round of the parser takes one or two arguments, and leaves the
    output directory alone unless the round is for [out]. *)
Lemma parseOne_seen (f f' : flag.FlagSet) (args args' : list string) :
  flag.parseOne f args = flag.Seen f' args' ->
  (List.length args' < List.length args)%nat /\
  (setsOutEmpty args' = true -> setsOutEmpty args = true) /\
  (flag.outputDirFlag f' = flag.outputDirFlag f \/
   (flag.outputDirFlag f' = "" -> setsOutEmpty args = true)).
Proof.
  unfold flag.parseOne.
  destruct args as [| s rest]; [discriminate |].
  destruct (flag.token s) as [| | | name value] eqn:Htoken; try discriminate.
  pose proof (formal_out name) as Hformal.
  destruct (flag.formal name) as [[set | set] |].
  - destruct value as [v |].
    + destruct (flag.ParseBool v); [| discriminate].
      intros Heq. inversion Heq; subst.
      split; [simpl; lia |]. split; [apply setsOutEmpty_tail | auto].
    + intros Heq. inversion Heq; subst.
      split; [simpl; lia |]. split; [apply setsOutEmpty_tail | auto].
  - destruct value as [v |]; [| destruct rest as [| v rest']];
      try discriminate; intros Heq; inversion Heq; subst;
      (split; [simpl; lia |]);
      (split; [intros; repeat apply setsOutEmpty_tail; assumption |]);
      (destruct Hformal as [[-> Hset] | Hset]; [right | left; apply Hset]);
      rewrite Hset; intros ->; apply token_out in Htoken;
      destruct Htoken as [-> | ->]; reflexivity.
  - destruct (String.eqb name "help" || String.eqb name "h"); discriminate.
Qed.

(** [flag.Parse] always comes to an end within its fuel. *)
Lemma parseLoop_fuel (fuel : nat) (f : flag.FlagSet) (args : list string) :
  (List.length args < fuel)%nat ->
  flag.parseLoop fuel f args <> flag.OutOfFuel.
Proof.
  revert f args. induction fuel as [| fuel IH]; intros f args Hlen;
    [lia |].
  simpl. destruct (flag.parseOne f args) as [f' args' | | |] eqn:Hone;
    try discriminate.
  apply IH. apply parseOne_seen in Hone. lia.
Qed.

Lemma Parse_fuel (args : list string) :
  flag.Parse args <> flag.OutOfFuel.
Proof.
  apply parseLoop_fuel. lia.
Qed.

(** An empty output directory after parsing was empty before or was set
    on the command line. *)
Lemma parseLoop_out (fuel : nat) (f f' : flag.FlagSet)
    (args positional : list string) :
  flag.parseLoop fuel f args = flag.Ok f' positional ->
  flag.outputDirFlag f' = "" ->
  flag.outputDirFlag f = "" \/ setsOutEmpty args = true.
Proof.
  revert f args. induction fuel as [| fuel IH]; intros f args Hloop Hout;
    simpl in Hloop; [discriminate |].
  destruct (flag.parseOne f args) as [f1 args1 | args1 | err |] eqn:Hone;
    try discriminate.
  - destruct (parseOne_seen _ _ _ _ Hone) as [_ [Htail Hhere]].
    destruct (IH _ _ Hloop Hout) as [Hf1 | Hargs1]; [| auto].
    destruct Hhere as [Hsame | Hset]; [left; congruence | auto].
  - inversion Hloop; subst. auto.
Qed.

End CommandLine.

(** ** The entry point *)

Section EntryPoint.

Context {C : Collaborators} {W : Type} (h : Handler W).
Arguments h : clear implicits.

Lemma run_call (X R : Type) (e : Event X) (k : X -> Prog R) (w : W) :
  run h (bind (call e) k) w =
  let (x, w1) := h _ e w in
  let '(o, w2, t) := run h (k x) w1 in (o, w2, Called e x :: t).
Proof.
  reflexivity.
Qed.

(** One call of the program in [H]: name the answer and the rest of the
    run, and put the trace together. *)
Ltac call_step H Hrest :=
  rewrite run_call in H;
  match type of H with
  | context [h ?X ?e ?w] => destruct (h X e w) as [? ?]
  end;
  match type of H with
  | context [run h ?prog ?w] =>
      destruct (run h prog w) as [[? ?] ?] eqn:Hrest
  end;
  inversion H; subst; clear H; cbv beta in Hrest.

Lemma run_Fatalf (R : Type) (msg : string) (w w' : W) (o : Outcome R)
    (t : list Step) :
  run h (log_Fatalf msg) w = (o, w', t) ->
  o = Exited 1 /\ t = [logged msg].
Proof.
  unfold log_Fatalf. intros Hrun. simpl in Hrun.
  destruct (h _ (log_Printf msg) w) as [[] w1].
  inversion Hrun; subst. auto.
Qed.

(** C5. NewTemplateData does no I/O: its only step is the allocation of
    the cell it returns. The cell holds the five arguments, so two calls
    with the same arguments, in any two worlds, return pointers to
    structurally equal TemplateData values. *)
Theorem NewTemplateData_stable (w1 w2 : W)
    (vipsVersion : string) (operations : list Operation)
    (enumTypes : list EnumTypeInfo) (imageTypes : list ImageTypeInfo)
    (includeTest : bool) :
  allocInitialises h ->
  exists (p1 p2 : ptr) (w1' w2' : W) (t1 t2 : list Step),
    run h (NewTemplateData vipsVersion operations enumTypes imageTypes
                           includeTest) w1
    = (Returned p1, w1', t1) /\
    run h (NewTemplateData vipsVersion operations enumTypes imageTypes
                           includeTest) w2
    = (Returned p2, w2', t2) /\
    forallb heapOnly t1 = true /\ forallb heapOnly t2 = true /\
    deref h p1 w1'
    = Some {| VipsVersion := vipsVersion; Operations := operations;
              EnumTypes := enumTypes; ImageTypes := imageTypes;
              IncludeTest := includeTest |} /\
    deref h p2 w2' = deref h p1 w1'.
Proof.
  intros Halloc. unfold NewTemplateData. simpl.
  pose proof (Halloc {| VipsVersion := vipsVersion; Operations := operations;
                        EnumTypes := enumTypes; ImageTypes := imageTypes;
                        IncludeTest := includeTest |}) as Hcell.
  pose proof (Hcell w1) as H1. pose proof (Hcell w2) as H2.
  destruct (h _ (Alloc _) w1) as [p1 w1'].
  destruct (h _ (Alloc _) w2) as [p2 w2'].
  simpl in H1, H2.
  exists p1, p2, w1', w2'. do 2 eexists.
  repeat split; try reflexivity; [exact H1 | congruence].
Qed.

(** C6. With the extract flag set, main copies the embedded templates
    to the extract directory and does nothing else: on success it prints
    one line and returns, so the exit status is zero, and no call into
    the native registry is ever made. *)
Theorem main_extract_mode (args positional : list string)
    (f : flag.FlagSet) (w w' : W) (o : Outcome unit) (t : list Step) :
  flag.Parse args = flag.Ok f positional ->
  flag.extractTemplates f = true ->
  run h (main args) w = (o, w', t) ->
  existsb touchesRegistry t = false /\
  exists err : error,
    t = [Called (ExtractEmbeddedFS templates_Templates (flag.extractDir f))
                err;
         logged (match err with
                 | None => "Templates and static files extracted to: "
                           ++ flag.extractDir f ++ nl
                 | Some e => "Failed to extract templates: " ++ e
                 end)] /\
    (err = None -> o = Returned tt /\ exitStatus o = 0%Z) /\
    (err <> None -> exitStatus o = 1%Z).
Proof.
  intros Hparse Hextract Hrun.
  unfold main in Hrun. rewrite Hparse in Hrun.
  unfold mainParsed in Hrun. rewrite Hextract in Hrun.
  rewrite run_call in Hrun.
  destruct (h _ (ExtractEmbeddedFS templates_Templates (flag.extractDir f)) w)
    as [[e |] w1].
  - destruct (run h (log_Fatalf ("Failed to extract templates: " ++ e)) w1)
      as [[o1 w2] t1] eqn:Hfatal.
    inversion Hrun; subst.
    apply run_Fatalf in Hfatal. destruct Hfatal as [-> ->].
    split; [reflexivity |]. exists (Some e).
    split; [reflexivity |]. split; [discriminate | reflexivity].
  - simpl in Hrun.
    destruct (h _ (log_Printf _) w1) as [[] w2].
    inversion Hrun; subst.
    split; [reflexivity |]. exists None.
    split; [reflexivity |]. split; [auto | congruence].
Qed.

Lemma chooseLoader_dirs (templateDirFlag : string) (funcMap : FuncMap)
    (w w' : W) (o : Outcome TemplateLoader) (t : list Step) :
  run h (chooseLoader templateDirFlag funcMap) w = (o, w', t) ->
  madeDirs t = [].
Proof.
  unfold chooseLoader. intros Hrun.
  destruct (negb (String.eqb templateDirFlag "")).
  - rewrite run_call in Hrun.
    destruct (h _ (NewOSTemplateLoader templateDirFlag funcMap) w)
      as [[loader [e |]] w1].
    + destruct (run h (log_Fatalf _) w1) as [[o1 w2] t1] eqn:Hfatal.
      inversion Hrun; subst.
      apply run_Fatalf in Hfatal. destruct Hfatal as [-> ->]. reflexivity.
    + simpl in Hrun. destruct (h _ (log_Printf _) w1) as [[] w2].
      inversion Hrun; subst. reflexivity.
  - simpl in Hrun.
    destruct (h _ (NewFSTemplateLoader templates_Templates funcMap) w)
      as [loader w1].
    destruct (h _ (log_Printf _) w1) as [[] w2].
    inversion Hrun; subst. reflexivity.
Qed.

Lemma GenerateTrace_dirs (l : TemplateLoader) (p : ptr) (outputDir : string)
    (o : Outcome error) (t : list Step) :
  GenerateTrace l p outputDir o t -> madeDirs t = [outputDir].
Proof.
  assert (Hloop : forall files acc o t,
             LoopTrace l p outputDir files acc o t -> madeDirs t = []).
  { induction 1; simpl; auto. }
  destruct 1 as [e0 | files e0 | files msg t Ht | files err t Ht
                 | files gen t Ht];
    try reflexivity;
    try (change (outputDir :: madeDirs t = [outputDir]);
         rewrite (Hloop _ _ _ _ Ht); reflexivity).
  change (outputDir :: madeDirs (t ++ closing gen) = [outputDir]).
  unfold madeDirs. rewrite choose_app.
  fold (madeDirs t). rewrite (Hloop _ _ _ _ Ht). simpl. f_equal.
  unfold closing. simpl.
  clear Ht. induction gen as [| file gen IH]; simpl; auto.
Qed.

(** The only directory that main creates is the resolved output
    directory. *)
Lemma mainParsed_dirs (f : flag.FlagSet) (positional : list string)
    (w w' : W) (o : Outcome unit) (t : list Step) :
  run h (mainParsed f positional) w = (o, w', t) ->
  Forall (eq (outputDirOf (flag.outputDirFlag f) positional)) (madeDirs t).
Proof.
  unfold mainParsed. intros Hrun.
  destruct (flag.extractTemplates f).
  - rewrite run_call in Hrun.
    destruct (h _ (ExtractEmbeddedFS _ _) w) as [[e |] w1].
    + destruct (run h (log_Fatalf _) w1) as [[o1 w2] t1] eqn:Hfatal.
      inversion Hrun; subst.
      apply run_Fatalf in Hfatal. destruct Hfatal as [-> ->]. constructor.
    + simpl in Hrun. destruct (h _ (log_Printf _) w1) as [[] w2].
      inversion Hrun; subst. constructor.
  - call_step Hrun Hrest. rewrite run_bind in Hrest.
    destruct (run h (chooseLoader _ _) _) as [[[loader | code | msg] wl] tl]
      eqn:Hloader;
      apply chooseLoader_dirs in Hloader;
      try (inversion Hrest; subst; unfold madeDirs in *; simpl;
           rewrite Hloader; constructor; fail).
    destruct (run h _ wl) as [[om wm] tm] eqn:Hrest2.
    inversion Hrest; subst. clear Hrest.
    change (Forall (eq (outputDirOf (flag.outputDirFlag f) positional))
                   (madeDirs (tl ++ tm))).
    unfold madeDirs. rewrite choose_app. fold (madeDirs tl) (madeDirs tm).
    rewrite Hloader. simpl.
    do 4 (call_step Hrest2 Hnext; rename Hnext into Hrest2).
    do 2 (call_step Hrest2 Hnext; rename Hnext into Hrest2).
    call_step Hrest2 Hnext; rename Hnext into Hrest2.
    unfold NewTemplateData in Hrest2.
    call_step Hrest2 Hnext; rename Hnext into Hrest2.
    rewrite run_bind in Hrest2.
    destruct (run h (Generate _ _ _) _) as [[[err | code | msg] wg] tg]
      eqn:Hgen;
      apply Generate_trace in Hgen; apply GenerateTrace_dirs in Hgen.
    + assert (Hlast : exists oe we te,
                 run h match err with
                       | Some e => log_Fatalf ("Failed to generate code: " ++ e)
                       | None => Ret tt
                       end wg = (oe, we, te) /\ madeDirs te = []).
      { destruct (run h _ wg) as [[oe we] te] eqn:Hlast.
        exists oe, we, te. split; [reflexivity |].
        destruct err as [e |].
        - apply run_Fatalf in Hlast. destruct Hlast as [-> ->]. reflexivity.
        - inversion Hlast; subst. reflexivity. }
      destruct Hlast as [oe [we [te [Hlast Hte]]]].
      rewrite Hlast in Hrest2. inversion Hrest2; subst. clear Hrest2.
      unfold madeDirs in *. simpl. rewrite choose_app, Hgen, Hte.
      repeat constructor.
    + inversion Hrest2; subst.
      unfold madeDirs in *. simpl. rewrite Hgen. repeat constructor.
    + inversion Hrest2; subst.
      unfold madeDirs in *. simpl. rewrite Hgen. repeat constructor.
Qed.

End EntryPoint.

(** ** The world of [Disk] is a lawful one *)

Section DiskLaws.

Import Disk.

Lemma nth_error_update_other (A : Type) (i j : nat) (v : A) (xs : list A) :
  i <> j -> nth_error (update j v xs) i = nth_error xs i.
Proof.
  revert i j. induction xs as [| x xs IH]; intros i j Hne;
    [destruct j; reflexivity |].
  destruct j as [| j]; destruct i as [| i]; simpl; try reflexivity;
    [contradiction | apply IH; congruence].
Qed.

Lemma generateFile_heap (l : Loader) (templateFile outputFile : string)
    (data : ptr) (w : World) :
  heap (snd (generateFile l templateFile outputFile data w)) = heap w.
Proof.
  unfold generateFile.
  destruct (findUnit templateFile l) as [tpl |]; [| reflexivity].
  destruct (load data w) as [d |]; [| reflexivity].
  destruct (render tpl d); [| reflexivity].
  destruct (existsb (String.eqb outputFile) (dirs w)); reflexivity.
Qed.

(** No call but a store through [p] changes the cell behind [p]. *)
Lemma Disk_keeps (p : ptr) : keepsSnapshot handler p.
Proof.
  intros X e w d Hstore Hd. unfold deref in *. simpl in *.
  destruct p as [| i]; [discriminate |]. simpl in *.
  destruct e; simpl; try assumption.
  - rewrite nth_error_app1; [assumption |].
    apply nth_error_Some. congruence.
  - destruct (load p w) eqn:Hp; simpl; [| assumption].
    destruct p as [| j]; [discriminate |]. simpl in Hstore.
    rewrite nth_error_update_other; [assumption |].
    simpl. rewrite Nat.sub_0_r. intros ->.
    rewrite Nat.eqb_refl in Hstore. discriminate.
  - unfold mkdirAll.
    destruct (existsb (String.eqb path) (map fst (files w))); assumption.
  - rewrite generateFile_heap. assumption.
  - unfold extract.
    destruct (existsb (String.eqb dir) (map fst (files w))); assumption.
  - destruct (existsb (String.eqb dir) (dirs w)); assumption.
Qed.

Lemma Disk_alloc : allocInitialises handler.
Proof.
  intros v w. unfold deref. simpl.
  rewrite nth_error_app2 by lia. rewrite Nat.sub_diag. reflexivity.
Qed.

Lemma lookup_write (path other content : string)
    (fs : list (string * string)) :
  lookup other (write path content fs)
  = if String.eqb path other then Some content else lookup other fs.
Proof.
  unfold lookup, write. simpl.
  destruct (String.eqb_spec path other) as [-> | Hne]; [reflexivity |].
  induction fs as [| [k v] fs IH]; simpl; [reflexivity |].
  destruct (String.eqb_spec k path) as [-> | Hk]; simpl.
  - destruct (String.eqb_spec path other); [contradiction | exact IH].
  - destruct (String.eqb k other); [reflexivity | exact IH].
Qed.

(** [generateFile] writes what the loader renders, where it is told. *)
Lemma Disk_writes : writesRendering handler read rendering.
Proof.
  split.
  - intros l templateFile outputFile p w d Hd Hok.
    unfold deref in Hd. simpl in Hd, Hok |- *.
    unfold generateFile, rendering in *. rewrite Hd in *.
    destruct (findUnit templateFile l) as [tpl |]; [| discriminate].
    destruct (render tpl d) as [out | name]; [| discriminate].
    destruct (existsb (String.eqb outputFile) (dirs w)); [discriminate |].
    unfold read. simpl. split.
    + rewrite lookup_write, String.eqb_refl. reflexivity.
    + intros other Hne. rewrite lookup_write.
      destruct (String.eqb_spec outputFile other); [congruence | reflexivity].
  - intros X e w path Hquiet. destruct e; try discriminate; reflexivity.
Qed.

End DiskLaws.

(** ** The properties at work on concrete runs *)

#[local] Existing Instance Disk.collaborators.

(** [Disk.defaultRun] skips the test template and says so;
    [Disk.testRun] generates it once. *)
Lemma Generate_test_templates_witness :
  (callsFor "image_test.go.tmpl" (snd Disk.defaultRun) = [] /\
   In (skipNotice "image_test.go.tmpl") (printed (snd Disk.defaultRun))) /\
  callsFor "image_test.go.tmpl" (snd Disk.testRun)
  = [("image_test.go.tmpl", "vips/image_test.go", None)].
Proof.
  split.
  - destruct (Generate_test_templates
                Disk.handler Disk.embeddedLoader 1 "./vips"
                (Disk.snapshot false) (Disk.boot false)
                (snd (fst Disk.defaultRun)) (fst (fst Disk.defaultRun))
                (snd Disk.defaultRun) "image_test.go.tmpl"
                (Disk_keeps 1) eq_refl eq_refl eq_refl)
      as [Hoff _].
    destruct (Hoff eq_refl) as [Hnone Hnotice].
    split; [exact Hnone |].
    apply Hnotice; [reflexivity | vm_compute; tauto].
  - destruct (Generate_test_templates
                Disk.handler Disk.embeddedLoader 1 "./vips"
                (Disk.snapshot true) (Disk.boot true)
                (snd (fst Disk.testRun)) (fst (fst Disk.testRun))
                (snd Disk.testRun) "image_test.go.tmpl"
                (Disk_keeps 1) eq_refl eq_refl eq_refl)
      as [_ Hon].
    exact (Hon eq_refl eq_refl).
Defined.

(** The three files of [Disk.testRun], each under its base name. *)
Lemma Generate_output_paths_witness :
  generateCalls (snd Disk.testRun)
  = [("vips.go.tmpl", "vips/vips.go", None);
     ("image.go.tmpl", "vips/image.go", None);
     ("image_test.go.tmpl", "vips/image_test.go", None)].
Proof.
  exact (proj2 (Generate_output_paths
                  Disk.handler Disk.embeddedLoader 1 "./vips" (Disk.boot true)
                  (snd (fst Disk.testRun)) (fst (fst Disk.testRun))
                  (snd Disk.testRun) eq_refl)
               (Disk.snapshot true) (Disk_keeps 1) eq_refl eq_refl).
Defined.

(** C3, a run against the claim as the spec states it. The second unit
    of [Disk.brokenLoader] fails to render; Generate returns the error,
    and the file of the first unit, absent before, is on disk: the
    failing run has written to the output directory. *)
Lemma Generate_partial_output :
  fst (fst Disk.brokenRun)
  = Returned (Some ("failed to generate out/b.go: " ++ Disk.brokenCause)) /\
  Disk.read "out/a.go" (Disk.boot true) = None /\
  Disk.read "out/a.go" (snd (fst Disk.brokenRun)) = Some "package a" /\
  ~ (fst (fst Disk.brokenRun) <> Returned None ->
     forall path,
       Disk.read path (snd (fst Disk.brokenRun))
       = Disk.read path (Disk.boot true)).
Proof.
  repeat split; try reflexivity.
  intros Hatomic.
  assert (Hfailed : fst (fst Disk.brokenRun) <> Returned None)
    by (vm_compute; discriminate).
  specialize (Hatomic Hfailed "out/a.go").
  vm_compute in Hatomic. discriminate.
Qed.

(** [Disk.brokenRun] stops at its second unit, with the first one
    generated and the third one never tried. *)
Lemma Generate_stops_at_failure_witness :
  exists before after,
    listed (snd Disk.brokenRun) = (before ++ "b.go.tmpl" :: after)%list /\
    generateCalls (snd Disk.brokenRun)
    = (map (generatedOk "out") (processed (Disk.snapshot true) before)
         ++ [("b.go.tmpl", "out/b.go", Some Disk.brokenCause)])%list.
Proof.
  exact (proj2 (Generate_stops_at_failure
                  Disk.handler Disk.brokenLoader 1 "out"
                  (Disk.snapshot true) (Disk.boot true)
                  (snd (fst Disk.brokenRun)) (fst (fst Disk.brokenRun))
                  (snd Disk.brokenRun) (firstn 5 (snd Disk.brokenRun)) []
                  Disk.brokenCall "b.go.tmpl" "out/b.go" Disk.brokenCause
                  (Disk_keeps 1) eq_refl eq_refl eq_refl eq_refl)).
Defined.

(** The error of [Disk.brokenRun] names the output file of the failing
    unit, and the failing call is the last step of the run. *)
Lemma Generate_aborts_on_failure_witness :
  fst (fst Disk.brokenRun)
  = Returned (Some ("failed to generate out/b.go: " ++ Disk.brokenCause)) /\
  "out/b.go"
  = filepath.Join
      ["out"; strings.TrimSuffix (filepath.Base "b.go.tmpl") ".tmpl"].
Proof.
  destruct (Generate_aborts_on_failure
              Disk.handler Disk.brokenLoader 1 "out" (Disk.boot true)
              (snd (fst Disk.brokenRun)) (fst (fst Disk.brokenRun))
              (snd Disk.brokenRun) (firstn 5 (snd Disk.brokenRun)) []
              Disk.brokenCall "b.go.tmpl" "out/b.go" Disk.brokenCause
              eq_refl eq_refl eq_refl) as [Ho [Hout _]].
  split; assumption.
Defined.

(** C8, two runs against the claim as the spec states it. They write
    different paths and return the same value, the nil error: no reading
    of the returned value gives the list of written paths. *)
Lemma Generate_returns_no_paths :
  ~ exists decode : Outcome error -> list string,
      forall l : Disk.Loader,
        In l [Disk.oneUnit "a.go.tmpl"; Disk.oneUnit "b.go.tmpl"] ->
        decode (fst (fst (run Disk.handler (Generate l 1 "out")
                              (Disk.boot false))))
        = map (fun c => snd (fst c))
              (generateCalls
                 (snd (run Disk.handler (Generate l 1 "out")
                           (Disk.boot false)))).
Proof.
  intros [decode Hdecode].
  pose proof (Hdecode _ (or_introl eq_refl)) as Ha.
  pose proof (Hdecode _ (or_intror (or_introl eq_refl))) as Hb.
  vm_compute in Ha, Hb. rewrite Ha in Hb. discriminate.
Qed.

(** [Disk.defaultRun] returns nil and prints its two paths. *)
Lemma Generate_reports_written_paths_witness :
  exists notices,
    printed (snd Disk.defaultRun)
    = (notices
         ++ [successNotice ["vips/vips.go"; "vips/image.go"];
             fileNotice "vips/vips.go"; fileNotice "vips/image.go"])%list.
Proof.
  destruct (Generate_reports_written_paths
              Disk.handler Disk.embeddedLoader 1 "./vips"
              (Disk.snapshot false) (Disk.boot false)
              (snd (fst Disk.defaultRun)) (fst (fst Disk.defaultRun))
              (snd Disk.defaultRun)
              (Disk_keeps 1) eq_refl eq_refl)
    as [r [Ho [Hiff Hlog]]].
  exact (proj2 (Hlog (proj2 Hiff eq_refl))).
Defined.

(** In [Disk.nestedRun] the two units share "out/types.go"; the file
    holds the rendering of the later one. *)
Lemma Generate_flattens_directories_witness :
  outputFileOf "out" "core/types.go.tmpl"
  = outputFileOf "out" "extra/types.go.tmpl" /\
  Disk.read "out/types.go" (snd (fst Disk.nestedRun)) = Some "package extra".
Proof.
  destruct (Generate_flattens_directories
              Disk.handler Disk.nestedLoader 1 "out" Disk.read Disk.rendering
              (Disk.snapshot true) (Disk_keeps 1) Disk_writes
              "core/types.go.tmpl" "extra/types.go.tmpl" eq_refl)
    as [Hsame Hlater].
  split; [exact Hsame |].
  apply (Hlater (Disk.boot true) (snd (fst Disk.nestedRun))
                (snd Disk.nestedRun) ["core/types.go.tmpl"] []);
    try reflexivity.
  - left. reflexivity.
  - intros x [].
Defined.

(** Two calls in two worlds of [Disk]. *)
Lemma NewTemplateData_stable_witness :
  exists (p1 p2 : ptr) (w1' w2' : Disk.World) (t1 t2 : list Step),
    run Disk.handler
        (NewTemplateData "8.18.0" ["resize"] ["Kernel"] ["jpeg"] false)
        Disk.empty
    = (Returned p1, w1', t1) /\
    run Disk.handler
        (NewTemplateData "8.18.0" ["resize"] ["Kernel"] ["jpeg"] false)
        (Disk.boot true)
    = (Returned p2, w2', t2) /\
    forallb heapOnly t1 = true /\ forallb heapOnly t2 = true /\
    deref Disk.handler p1 w1' = Some (Disk.snapshot false) /\
    deref Disk.handler p2 w2' = deref Disk.handler p1 w1'.
Proof.
  exact (NewTemplateData_stable
           Disk.handler Disk.empty (Disk.boot true)
           "8.18.0" ["resize"] ["Kernel"] ["jpeg"] false Disk_alloc).
Defined.

(** [Disk.extractRun] copies the templates, never asks the registry and
    exits with status zero. *)
Lemma main_extract_mode_witness :
  existsb touchesRegistry (snd Disk.extractRun) = false /\
  fst (fst Disk.extractRun) = Returned tt /\
  exitStatus (fst (fst Disk.extractRun)) = 0%Z /\
  Disk.read "tpl/vips.go.tmpl" (snd (fst Disk.extractRun))
  = Some "package vips // libvips {{.VipsVersion}}".
Proof.
  destruct (main_extract_mode
              Disk.handler ["-extract"; "-extract-dir"; "tpl"] []
              {| flag.extractTemplates := true; flag.extractDir := "tpl";
                 flag.outputDirFlag := "./vips"; flag.templateDirFlag := "";
                 flag.isDebug := false; flag.includeTest := false |}
              Disk.empty (snd (fst Disk.extractRun))
              (fst (fst Disk.extractRun)) (snd Disk.extractRun)
              eq_refl eq_refl eq_refl)
    as [Hregistry [err [Htrace [Hok _]]]].
  assert (Herr : err = None).
  { destruct err as [e |]; [exfalso | reflexivity].
    apply (f_equal printed) in Htrace. vm_compute in Htrace.
    discriminate. }
  destruct (Hok Herr) as [Ho Hstatus].
  split; [exact Hregistry |]. split; [exact Ho |].
  split; [exact Hstatus | reflexivity].
Defined.

(** * More about the generation driver *)

Section DriverEdges.

Context {C : Collaborators} {W : Type} (h : Handler W).
Arguments h : clear implicits.
Variables (l : TemplateLoader) (p : ptr) (outputDir : string).

(** X1. When the output directory cannot be created, Generate returns
    "failed to create output directory: <cause>" and that call is all it
    did. When the templates cannot be listed, it returns "failed to list
    template files: <cause>" with the directory created and nothing
    read, generated or printed. *)
Theorem Generate_setup_failure (w : W) (e : string) :
  (fst (h _ (os_MkdirAll outputDir 493) w) = Some e ->
   run h (Generate l p outputDir) w
   = (Returned (Some ("failed to create output directory: " ++ e)),
      snd (h _ (os_MkdirAll outputDir 493) w),
      [Called (os_MkdirAll outputDir 493) (Some e)]))
  /\
  (forall files : list string,
      fst (h _ (os_MkdirAll outputDir 493) w) = None ->
      fst (h _ (ListFiles l) (snd (h _ (os_MkdirAll outputDir 493) w)))
      = (files, Some e) ->
      run h (Generate l p outputDir) w
      = (Returned (Some ("failed to list template files: " ++ e)),
         snd (h _ (ListFiles l) (snd (h _ (os_MkdirAll outputDir 493) w))),
         [Called (os_MkdirAll outputDir 493) None;
          Called (ListFiles l) (files, Some e)])).
Proof.
  split.
  - intros Hmkdir. unfold Generate. simpl.
    destruct (h _ (os_MkdirAll outputDir 493) w) as [err w1].
    simpl in Hmkdir. subst err. reflexivity.
  - intros files Hmkdir Hlist. unfold Generate. simpl.
    destruct (h _ (os_MkdirAll outputDir 493) w) as [err w1].
    simpl in Hmkdir, Hlist |- *. subst err. simpl.
    destruct (h _ (ListFiles l) w1) as [answer w2].
    simpl in Hlist |- *. subst answer. reflexivity.
Qed.

(** X2. With no template unit listed, Generate succeeds without ever
    reading through the TemplateData pointer (so also when it is nil):
    it creates the directory, lists, and prints the summary line with
    the count 0. *)
Theorem Generate_empty_listing (w : W) :
  fst (h _ (os_MkdirAll outputDir 493) w) = None ->
  fst (h _ (ListFiles l) (snd (h _ (os_MkdirAll outputDir 493) w)))
  = ([], None) ->
  exists w',
    run h (Generate l p outputDir) w
    = (Returned None, w',
       [Called (os_MkdirAll outputDir 493) None;
        Called (ListFiles l) ([], None);
        logged (nl ++ "Successfully generated files from templates: 0"
                   ++ nl)]).
Proof.
  intros Hmkdir Hlist. unfold Generate. simpl.
  destruct (h _ (os_MkdirAll outputDir 493) w) as [err w1].
  simpl in Hmkdir, Hlist |- *. subst err. simpl.
  destruct (h _ (ListFiles l) w1) as [answer w2].
  simpl in Hlist |- *. subst answer. simpl.
  destruct (h _ (log_Printf (successNotice [])) w2) as [[] w3].
  exists w3. reflexivity.
Qed.

(** X3. With a unit listed and a pointer that holds no TemplateData (a
    nil pointer), Generate panics at the first unit: no GenerateFile
    call is made and nothing is printed. *)
Theorem Generate_nil_templateData (w : W) (u : string)
    (rest : list string) :
  fst (h _ (os_MkdirAll outputDir 493) w) = None ->
  fst (h _ (ListFiles l) (snd (h _ (os_MkdirAll outputDir 493) w)))
  = (u :: rest, None) ->
  deref h p (snd (h _ (ListFiles l)
                      (snd (h _ (os_MkdirAll outputDir 493) w)))) = None ->
  exists w',
    run h (Generate l p outputDir) w
    = (Panicked "invalid memory address or nil pointer dereference", w',
       [Called (os_MkdirAll outputDir 493) None;
        Called (ListFiles l) (u :: rest, None);
        Called (Deref p) None]).
Proof.
  intros Hmkdir Hlist Hnil. unfold Generate, deref in *. simpl.
  destruct (h _ (os_MkdirAll outputDir 493) w) as [err w1].
  simpl in Hmkdir, Hlist, Hnil |- *. subst err. simpl.
  destruct (h _ (ListFiles l) w1) as [answer w2].
  simpl in Hlist, Hnil |- *. subst answer. simpl.
  destruct (h _ (Deref p) w2) as [d w3].
  simpl in Hnil. subst d. simpl.
  exists w3. reflexivity.
Qed.

Lemma LoopTrace_steps (files acc : list string)
    (o : Outcome (error + list string)) (t : list Step) :
  LoopTrace l p outputDir files acc o t ->
  Forall (generateStep l p outputDir) t.
Proof.
  induction 1; repeat constructor; simpl; auto.
Qed.

Lemma closing_steps (generatedFiles : list string) :
  Forall (generateStep l p outputDir) (closing generatedFiles).
Proof.
  unfold closing. constructor; [exact I |].
  apply Forall_forall. intros s Hin.
  apply in_map_iff in Hin. destruct Hin as [file [<- _]]. exact I.
Qed.

Lemma GenerateTrace_steps (o : Outcome error) (t : list Step) :
  GenerateTrace l p outputDir o t ->
  Forall (generateStep l p outputDir) t /\ forall code, o <> Exited code.
Proof.
  destruct 1 as [e0 | files e0 | files msg t Hloop | files err t Hloop
                 | files gen t Hloop];
    (split; [| discriminate]);
    repeat (constructor; [simpl; auto |]);
    try (constructor; fail);
    try (eapply LoopTrace_steps; eassumption).
  apply Forall_app. split.
  - eapply LoopTrace_steps; eassumption.
  - apply closing_steps.
Qed.

(** X4. Whatever the collaborators answer, Generate works with what it
    was given and nothing else: it creates the output directory with
    mode 0755, calls ListFiles and GenerateFile on its own loader, reads
    and hands on its own pointer, and prints. It never allocates or
    stores, never queries the registry, and never exits the process. *)
Theorem Generate_own_steps (w w' : W) (o : Outcome error)
    (t : list Step) :
  run h (Generate l p outputDir) w = (o, w', t) ->
  Forall (generateStep l p outputDir) t /\
  (forall code, o <> Exited code).
Proof.
  intros Hrun. apply GenerateTrace_steps.
  eapply Generate_trace. eassumption.
Qed.

(** X5. The test flag concerns test templates only: a unit whose base
    name does not end in "_test.go.tmpl" is generated once per listing
    by every run that succeeds, with IncludeTest set or unset. *)
Theorem Generate_other_templates (d : TemplateData) (w w' : W)
    (t : list Step) (u : string) :
  keepsSnapshot h p -> deref h p w = Some d ->
  run h (Generate l p outputDir) w = (Returned None, w', t) ->
  isTestTemplate u = false ->
  callsFor u t
  = repeat (generatedOk outputDir u)
           (count_occ string_dec (listed t) u).
Proof.
  intros Hkeeps Hd Hrun Htest.
  destruct (Generate_run h l p outputDir d w w' _ t Hkeeps Hd Hrun)
    as [Htrace [Hall _]].
  pose proof (GenerateTrace_snapshot l p outputDir d _ t Htrace Hall)
    as [_ [Hcalls _]].
  unfold callsFor. rewrite Hcalls, callsFor_processed.
  unfold skipped. rewrite Htest, andb_false_r. reflexivity.
Qed.

(** X6. What a run prints. A run that succeeds prints the skip notices
    of the skipped units in listing order, then the summary line, then
    one line per generated file. A run that fails prints no summary. If
    it failed before the loop it prints nothing. If it failed at a unit,
    it prints exactly the skip notices of the skipped units listed
    before that unit, in listing order. *)
Theorem Generate_log (d : TemplateData) (w w' : W) (o : Outcome error)
    (t : list Step) :
  keepsSnapshot h p -> deref h p w = Some d ->
  run h (Generate l p outputDir) w = (o, w', t) ->
  (o = Returned None ->
   printed t
   = (map skipNotice (filter (skipped d) (listed t))
        ++ successNotice (outputsOf outputDir d (listed t))
        :: map fileNotice (outputsOf outputDir d (listed t)))%list)
  /\
  (o <> Returned None ->
   (generateCalls t = [] /\ printed t = []) \/
   exists before u after e,
     listed t = (before ++ u :: after)%list /\
     skipped d u = false /\
     generateCalls t
     = (map (generatedOk outputDir) (processed d before)
          ++ [(u, outputFileOf outputDir u, Some e)])%list /\
     printed t = map skipNotice (filter (skipped d) before)).
Proof.
  intros Hkeeps Hd Hrun.
  destruct (Generate_run h l p outputDir d w w' o t Hkeeps Hd Hrun)
    as [Htrace [Hall _]].
  pose proof (GenerateTrace_snapshot l p outputDir d o t Htrace Hall)
    as Hsnap.
  split.
  - intros ->. destruct Hsnap as [_ [_ Hlog]]. exact Hlog.
  - intros Hfailed.
    destruct Htrace as [e0 | files e0 | files msg t Hloop
                        | files err t Hloop | files gen t Hloop].
    + left. split; reflexivity.
    + left. split; reflexivity.
    + contradiction.
    + pose proof (LoopTrace_snapshot l p outputDir d _ _ _ _ Hloop Hall)
        as Hloopsnap.
      simpl in Hloopsnap.
      destruct Hloopsnap
        as [before [u [after [e [Hfiles [Hu [_ [Hcalls Hlog]]]]]]]].
      right. exists before, u, after, e. repeat split; assumption.
    + contradiction.
Qed.

End DriverEdges.

(** * Template names and output names *)

Section OutputNames.

Lemma length_append' (a b : string) :
  String.length (a ++ b) = (String.length a + String.length b)%nat.
Proof.
  induction a as [| c a IH]; simpl; [reflexivity | rewrite IH; reflexivity].
Qed.

Lemma substring_whole (s : string) : substring 0 (String.length s) s = s.
Proof.
  induction s as [| c s IH]; simpl; [reflexivity | rewrite IH; reflexivity].
Qed.

Lemma substring_append_left (a b : string) :
  substring 0 (String.length a) (a ++ b) = a.
Proof.
  induction a as [| c a IH]; simpl.
  - destruct b; reflexivity.
  - rewrite IH. reflexivity.
Qed.

Lemma substring_append_right (a b : string) :
  substring (String.length a) (String.length b) (a ++ b) = b.
Proof.
  induction a as [| c a IH]; simpl; [apply substring_whole | exact IH].
Qed.

(** [strings.HasSuffix] and [strings.TrimSuffix] on a string that ends
    in the suffix. *)
Lemma TrimSuffix_append (s suffix : string) :
  strings.HasSuffix (s ++ suffix) suffix = true /\
  strings.TrimSuffix (s ++ suffix) suffix = s.
Proof.
  assert (Hhas : strings.HasSuffix (s ++ suffix) suffix = true).
  { unfold strings.HasSuffix. rewrite length_append'.
    replace (String.length s + String.length suffix - String.length suffix)%nat
      with (String.length s) by lia.
    rewrite substring_append_right, String.eqb_refl.
    rewrite andb_true_r. apply Nat.leb_le. lia. }
  split; [exact Hhas |].
  unfold strings.TrimSuffix. rewrite Hhas, length_append'.
  replace (String.length s + String.length suffix - String.length suffix)%nat
    with (String.length s) by lia.
  apply substring_append_left.
Qed.

Lemma plain_append (a b : string) :
  plain (a ++ b) = plain a && plain b.
Proof.
  induction a as [| c a IH]; simpl; [reflexivity |].
  rewrite IH, andb_assoc. reflexivity.
Qed.

Lemma strip_plain (n : string) :
  plain n = true -> n <> "" -> filepath.stripTrailingSeparators n = n.
Proof.
  induction n as [| c n IH]; intros Hplain Hne; [contradiction |].
  simpl in Hplain. apply andb_prop in Hplain. destruct Hplain as [Hc Hn].
  simpl. destruct n as [| c' n'].
  - simpl. destruct (filepath.IsPathSeparator c); [discriminate | reflexivity].
  - rewrite (IH Hn) by discriminate. reflexivity.
Qed.

Lemma strip_append (a n : string) :
  plain n = true -> n <> "" ->
  filepath.stripTrailingSeparators (a ++ n) = a ++ n.
Proof.
  intros Hplain Hne. induction a as [| c a IH]; simpl.
  - apply strip_plain; assumption.
  - rewrite IH. destruct (a ++ n) eqn:Heq; [| reflexivity].
    destruct a; simpl in Heq; [contradiction | discriminate].
Qed.

Lemma afterLast_plain (acc n : string) :
  plain n = true -> filepath.afterLastSeparator acc n = acc.
Proof.
  revert acc. induction n as [| c n IH]; intros acc Hplain; simpl;
    [reflexivity |].
  simpl in Hplain. apply andb_prop in Hplain. destruct Hplain as [Hc Hn].
  destruct (filepath.IsPathSeparator c); [discriminate | apply IH; exact Hn].
Qed.

Lemma afterLast_dir (acc dir n : string) :
  plain n = true ->
  filepath.afterLastSeparator acc (dir ++ "/" ++ n) = n.
Proof.
  intros Hplain. revert acc. induction dir as [| c dir IH]; intros acc.
  - simpl. apply afterLast_plain. exact Hplain.
  - simpl. destruct (filepath.IsPathSeparator c); apply IH.
Qed.

Lemma append_assoc' (a b c : string) : (a ++ b) ++ c = a ++ b ++ c.
Proof.
  induction a as [| x a IH]; simpl; [reflexivity | rewrite IH; reflexivity].
Qed.

(** [filepath.Base] keeps the last element and drops the directories. *)
Lemma Base_plain (dir n : string) :
  plain n = true -> n <> "" ->
  filepath.Base n = n /\ filepath.Base (dir ++ "/" ++ n) = n.
Proof.
  intros Hplain Hne.
  assert (Hnonempty : String.eqb n "" = false)
    by (destruct n; [contradiction | reflexivity]).
  split; unfold filepath.Base.
  - rewrite Hnonempty, strip_plain by assumption.
    rewrite afterLast_plain by assumption. rewrite Hnonempty.
    reflexivity.
  - assert (Hfull : String.eqb (dir ++ "/" ++ n) "" = false)
      by (destruct dir; reflexivity).
    assert (Hstrip : filepath.stripTrailingSeparators (dir ++ "/" ++ n)
                     = dir ++ "/" ++ n).
    { rewrite <- (append_assoc' dir "/" n).
      apply strip_append; assumption. }
    rewrite Hfull, Hstrip.
    rewrite afterLast_dir by assumption. rewrite Hnonempty.
    reflexivity.
Qed.

(** X7. The output file and the skip test look at the base name of a
    template only. A template "<name>.tmpl", in whatever directory, is
    generated at the output directory joined with "<name>", and it is
    test-only exactly when "<name>.tmpl" ends in "_test.go.tmpl". *)
Theorem outputFileOf_strips_tmpl (outputDir dir name : string) :
  plain name = true ->
  outputFileOf outputDir (name ++ ".tmpl") = filepath.Join [outputDir; name]
  /\
  outputFileOf outputDir (dir ++ "/" ++ name ++ ".tmpl")
  = filepath.Join [outputDir; name]
  /\
  isTestTemplate (dir ++ "/" ++ name ++ ".tmpl")
  = strings.HasSuffix (name ++ ".tmpl") "_test.go.tmpl".
Proof.
  intros Hplain.
  assert (Hn : plain (name ++ ".tmpl") = true)
    by (rewrite plain_append, Hplain; reflexivity).
  assert (Hne : name ++ ".tmpl" <> "") by (destruct name; discriminate).
  destruct (Base_plain dir (name ++ ".tmpl") Hn Hne) as [Hbase Hdir].
  destruct (TrimSuffix_append name ".tmpl") as [_ Htrim].
  unfold outputFileOf, isTestTemplate.
  rewrite Hbase, Hdir, Htrim. auto.
Qed.

End OutputNames.

(** * More about the entry point *)

Section MainFacts.

Context {C : Collaborators} {W : Type} (h : Handler W).
Arguments h : clear implicits.

Lemma chooseLoader_trace (f : flag.FlagSet) (funcMap : FuncMap)
    (w w' : W) (o : Outcome TemplateLoader) (t : list Step) :
  run h (chooseLoader (flag.templateDirFlag f) funcMap) w = (o, w', t) ->
  (exists loader, o = Returned loader /\ t = loaderSteps f funcMap loader)
  \/
  (exists loader e,
      String.eqb (flag.templateDirFlag f) "" = false /\
      o = Exited 1 /\
      t = [Called (NewOSTemplateLoader (flag.templateDirFlag f) funcMap)
                  (loader, Some e);
           logged ("Failed to create template loader: " ++ e)]).
Proof.
  unfold chooseLoader, loaderSteps. intros Hrun.
  destruct (String.eqb (flag.templateDirFlag f) "") eqn:Hdir; simpl in Hrun.
  - destruct (h _ (NewFSTemplateLoader templates_Templates funcMap) w)
      as [loader w1].
    destruct (h _ (log_Printf _) w1) as [[] w2].
    inversion Hrun; subst. left. exists loader. auto.
  - destruct (h _ (NewOSTemplateLoader (flag.templateDirFlag f) funcMap) w)
      as [[loader [e |]] w1]; simpl in Hrun.
    + destruct (h _ (log_Printf _) w1) as [[] w2].
      inversion Hrun; subst. right. exists loader, e. auto.
    + destruct (h _ (log_Printf _) w1) as [[] w2].
      inversion Hrun; subst. left. exists loader. auto.
Qed.

(** How main ends, given how [Generate] ended. *)
Lemma ending_run (generated : Outcome error) (wg : W)
    (o : Outcome unit) (w' : W) (t : list Step) :
  (forall code, generated <> Exited code) ->
  match generated with
  | Returned err =>
      run h match err with
            | Some e => log_Fatalf ("Failed to generate code: " ++ e)
            | None => Ret tt
            end wg = (o, w', t)
  | Exited code => (Exited code, wg, @nil Step) = (o, w', t)
  | Panicked msg => (Panicked msg, wg, @nil Step) = (o, w', t)
  end ->
  o = finish generated /\ t = ending generated.
Proof.
  intros Hexit Hrun.
  destruct generated as [[e |] | code | msg]; simpl.
  - apply run_Fatalf in Hrun. exact Hrun.
  - inversion Hrun; subst. auto.
  - exfalso. exact (Hexit code eq_refl).
  - inversion Hrun; subst. auto.
Qed.

(** Every run of main after parsing has one of the traces of
    [MainTrace]. *)
Lemma mainParsed_trace (f : flag.FlagSet) (positional : list string)
    (w w' : W) (o : Outcome unit) (t : list Step) :
  run h (mainParsed f positional) w = (o, w', t) ->
  MainTrace f positional o t.
Proof.
  unfold mainParsed. intros Hrun.
  destruct (flag.extractTemplates f) eqn:Hextract.
  - rewrite run_call in Hrun.
    destruct (h _ (ExtractEmbeddedFS _ _) w) as [[e |] w1].
    + destruct (run h (log_Fatalf _) w1) as [[o1 w2] t1] eqn:Hfatal.
      inversion Hrun; subst.
      apply run_Fatalf in Hfatal. destruct Hfatal as [-> ->].
      apply Main_extract_failed. assumption.
    + simpl in Hrun. destruct (h _ (log_Printf _) w1) as [[] w2].
      inversion Hrun; subst. apply Main_extracted. assumption.
  - rewrite run_call in Hrun.
    destruct (h _ GetTemplateFuncMap w) as [funcMap w0].
    rewrite run_bind in Hrun.
    destruct (run h (chooseLoader _ _) w0) as [[ol wl] tl] eqn:Hloader.
    apply chooseLoader_trace in Hloader.
    destruct Hloader as [[loader [-> ->]] | [loader [e [Hdir [-> ->]]]]].
    2: { inversion Hrun; subst. apply Main_loader_failed; assumption. }
    rewrite run_call in Hrun.
    destruct (h _ (NewIntrospection _) wl) as [i w1].
    rewrite run_call in Hrun.
    destruct (h _ (GetVipsVersion i) w1) as [vipsVersion w2].
    rewrite run_call in Hrun.
    destruct (h _ (DiscoverImageTypes i) w2) as [imageTypes w3].
    rewrite run_call in Hrun.
    destruct (h _ (DiscoverOperations i) w3) as [operations w4].
    rewrite run_call in Hrun.
    destruct (h _ (log_Printf _) w4) as [[] w5].
    rewrite run_call in Hrun.
    destruct (h _ (DiscoverEnumTypes i) w5) as [enumTypes w6].
    rewrite run_call in Hrun.
    destruct (h _ (log_Printf _) w6) as [[] w7].
    unfold NewTemplateData in Hrun. rewrite run_call in Hrun.
    destruct (h _ (Alloc _) w7) as [p w8].
    rewrite run_bind in Hrun.
    destruct (run h (Generate loader p _) w8) as [[generated wg] tg]
      eqn:Hgen.
    apply Generate_trace in Hgen.
    destruct (GenerateTrace_steps _ _ _ _ _ Hgen) as [_ Hexit].
    assert (Hend : exists oe we te,
               match generated with
               | Returned err =>
                   run h match err with
                         | Some e =>
                             log_Fatalf ("Failed to generate code: " ++ e)
                         | None => Ret tt
                         end wg
               | Exited code => (Exited code, wg, @nil Step)
               | Panicked msg => (Panicked msg, wg, @nil Step)
               end = (oe, we, te) /\
               oe = finish generated /\ te = ending generated).
    { destruct (match generated with
                | Returned err =>
                    run h match err with
                          | Some e =>
                              log_Fatalf ("Failed to generate code: " ++ e)
                          | None => Ret tt
                          end wg
                | Exited code => (Exited code, wg, @nil Step)
                | Panicked msg => (Panicked msg, wg, @nil Step)
                end) as [[oe we] te] eqn:Hlast.
      exists oe, we, te. split; [reflexivity |].
      eapply ending_run; [exact Hexit |].
      destruct generated as [err | code | msg]; exact Hlast. }
    destruct Hend as [oe [we [te [Hlast [-> ->]]]]].
    destruct generated as [err | code | msg].
    + rewrite Hlast in Hrun. inversion Hrun; subst.
      exact (@Main_generate _ f positional funcMap loader i vipsVersion
               imageTypes operations enumTypes p _ tg Hextract Hgen).
    + exfalso. exact (Hexit code eq_refl).
    + inversion Hrun; subst.
      pose proof (@Main_generate _ f positional funcMap loader i vipsVersion
                    imageTypes operations enumTypes p _ tg Hextract Hgen)
        as Hmain.
      simpl in Hmain. rewrite app_nil_r in Hmain. exact Hmain.
Qed.

End MainFacts.

Section MainProperties.

Context {C : Collaborators} {W : Type} (h : Handler W).
Arguments h : clear implicits.

Lemma main_trace (args positional : list string) (f : flag.FlagSet)
    (w w' : W) (o : Outcome unit) (t : list Step) :
  flag.Parse args = flag.Ok f positional ->
  run h (main args) w = (o, w', t) ->
  MainTrace f positional o t.
Proof.
  intros Hparse Hrun. unfold main in Hrun. rewrite Hparse in Hrun.
  eapply mainParsed_trace. eassumption.
Qed.

Lemma choose_none (A B : Type) (f : A -> option B) (xs : list A) :
  Forall (fun x => f x = None) xs -> choose f xs = [].
Proof.
  induction 1 as [| x xs Hx _ IH]; simpl; [reflexivity |].
  rewrite Hx. exact IH.
Qed.

Lemma choose_in (A B : Type) (f : A -> option B) (xs : list A)
    (x : A) (b : B) :
  In x xs -> f x = Some b -> In b (choose f xs).
Proof.
  intros Hin Hx. induction xs as [| y xs IH]; simpl in *; [contradiction |].
  destruct Hin as [-> | Hin].
  - rewrite Hx. left. reflexivity.
  - destruct (f y); [right |]; apply IH; assumption.
Qed.

Lemma choose_all (A B : Type) (f : A -> option B) (P : B -> Prop)
    (xs : list A) :
  Forall (fun x => forall b, f x = Some b -> P b) xs ->
  Forall P (choose f xs).
Proof.
  induction 1 as [| x xs Hx _ IH]; simpl; [constructor |].
  destruct (f x) as [b |]; [constructor; auto | assumption].
Qed.

(** What a step of [Generate] is not. *)
Lemma generateStep_kind (l : TemplateLoader) (p : ptr) (outputDir : string)
    (s : Step) :
  generateStep l p outputDir s ->
  loaderError s = None /\ loaderSource s = None /\ loaderMade s = None /\
  allocation s = None /\ registryCall s = None /\
  touchesRegistry s = false /\ checkedFailure s = failedCall s /\
  (forall l', loaderUsed s = Some l' -> l' = l) /\
  (forall q, pointerUsed s = Some q -> q = p).
Proof.
  destruct s as [X e a]. unfold generateStep. simpl.
  destruct e; simpl; try contradiction; intros Hstep;
    unfold loaderError, loaderMade, allocation, checkedFailure; simpl;
    rewrite ?orb_false_r;
    repeat split; try reflexivity; try discriminate.
  - intros l' Hl. inversion Hl; subst. reflexivity.
  - intros q Hq. inversion Hq; subst. reflexivity.
  - intros l' Hl. inversion Hl; subst. tauto.
  - intros q Hq. inversion Hq; subst. tauto.
Qed.

Lemma existsb_none (A : Type) (f : A -> bool) (xs : list A) :
  Forall (fun x => f x = false) xs -> existsb f xs = false.
Proof.
  induction 1 as [| x xs Hx _ IH]; simpl; [reflexivity |].
  rewrite Hx. exact IH.
Qed.

(** The steps of [Generate] inside a run of main. *)
Lemma GenerateTrace_kind (l : TemplateLoader) (p : ptr) (outputDir : string)
    (o : Outcome error) (t : list Step) :
  GenerateTrace l p outputDir o t ->
  choose loaderError t = [] /\ choose loaderSource t = [] /\
  choose loaderMade t = [] /\ choose allocation t = [] /\
  choose registryCall t = [] /\ existsb touchesRegistry t = false /\
  Forall (eq l) (choose loaderUsed t) /\
  Forall (eq p) (choose pointerUsed t).
Proof.
  intros Htrace.
  destruct (GenerateTrace_steps l p outputDir o t Htrace) as [Hsteps _].
  assert (Hkind : Forall (fun s =>
            loaderError s = None /\ loaderSource s = None /\
            loaderMade s = None /\ allocation s = None /\
            registryCall s = None /\ touchesRegistry s = false /\
            checkedFailure s = failedCall s /\
            (forall l', loaderUsed s = Some l' -> l' = l) /\
            (forall q, pointerUsed s = Some q -> q = p)) t).
  { eapply Forall_impl; [| exact Hsteps].
    intros s. apply generateStep_kind. }
  repeat split;
    try (apply choose_none; eapply Forall_impl; [| exact Hkind];
         simpl; tauto);
    try (apply existsb_none; eapply Forall_impl; [| exact Hkind];
         simpl; tauto).
  - apply choose_all. eapply Forall_impl; [| exact Hkind].
    simpl. intros s Hs l' Hl. symmetry. apply Hs. exact Hl.
  - apply choose_all. eapply Forall_impl; [| exact Hkind].
    simpl. intros s Hs q Hq. symmetry. apply Hs. exact Hq.
Qed.

(** [Generate] fails exactly when one of its checked calls fails. *)
Lemma GenerateTrace_failed (l : TemplateLoader) (p : ptr)
    (outputDir : string) (o : Outcome error) (t : list Step) :
  GenerateTrace l p outputDir o t ->
  existsb checkedFailure t = match o with
                             | Returned (Some _) => true
                             | _ => false
                             end.
Proof.
  intros Htrace.
  assert (Hsame : existsb checkedFailure t = existsb failedCall t).
  { destruct (GenerateTrace_steps l p outputDir o t Htrace) as [Hsteps _].
    clear Htrace. induction Hsteps as [| s t Hs _ IH]; simpl; [reflexivity |].
    destruct (generateStep_kind l p outputDir s Hs)
      as [_ [_ [_ [_ [_ [_ [Hfail _]]]]]]].
    rewrite Hfail, IH. reflexivity. }
  rewrite Hsame. clear Hsame.
  destruct Htrace as [e0 | files e0 | files msg t Hloop | files err t Hloop
                      | files gen t Hloop]; try reflexivity.
  - change (existsb failedCall t = false).
    rewrite (LoopTrace_failedCall _ _ _ _ _ _ _ Hloop). reflexivity.
  - change (existsb failedCall t = match err with
                                   | Some _ => true
                                   | None => false
                                   end).
    rewrite (LoopTrace_failedCall _ _ _ _ _ _ _ Hloop).
    destruct err; [reflexivity |].
    exfalso. exact (LoopTrace_error _ _ _ _ _ _ _ Hloop eq_refl).
  - change (existsb failedCall (t ++ closing gen) = false).
    rewrite existsb_app, (LoopTrace_failedCall _ _ _ _ _ _ _ Hloop).
    destruct (closing_quiet 0 gen) as [_ [_ [Hquiet _]]]. exact Hquiet.
Qed.

Lemma cut_front (A B : Type) (f : A -> option B)
    (pre post t1 t2 : list A) (s : A) :
  (pre ++ s :: post)%list = (t1 ++ t2)%list ->
  Forall (fun x => f x = None) t1 -> f s <> None ->
  exists pre', pre = (t1 ++ pre')%list /\ (pre' ++ s :: post)%list = t2.
Proof.
  revert pre. induction t1 as [| x t1 IH]; intros pre Heq Hquiet Hs.
  - exists pre. auto.
  - inversion Hquiet as [| y ys Hx Hrest]; subst.
    destruct (cut_head _ _ f _ _ _ _ _ Heq Hx Hs) as [pre1 [-> Heq1]].
    destruct (IH pre1 Heq1 Hrest Hs) as [pre' [-> Heq2]].
    exists pre'. auto.
Qed.

(** The pieces of a run of main that reaches [Generate]. *)
Lemma loaderSteps_kind (f : flag.FlagSet) (funcMap : FuncMap)
    (loader : TemplateLoader) :
  choose loaderError (loaderSteps f funcMap loader) = [] /\
  choose loaderSource (loaderSteps f funcMap loader)
  = [negb (String.eqb (flag.templateDirFlag f) "")] /\
  choose loaderMade (loaderSteps f funcMap loader) = [loader] /\
  choose allocation (loaderSteps f funcMap loader) = [] /\
  choose registryCall (loaderSteps f funcMap loader) = [] /\
  choose loaderUsed (loaderSteps f funcMap loader) = [] /\
  choose pointerUsed (loaderSteps f funcMap loader) = [] /\
  existsb checkedFailure (loaderSteps f funcMap loader) = false /\
  madeDirs (loaderSteps f funcMap loader) = [] /\
  generateCalls (loaderSteps f funcMap loader) = [].
Proof.
  unfold loaderSteps.
  destruct (negb (String.eqb (flag.templateDirFlag f) ""));
    repeat split; reflexivity.
Qed.

Lemma ending_kind (generated : Outcome error) :
  choose loaderError (ending generated) = [] /\
  choose loaderSource (ending generated) = [] /\
  choose loaderMade (ending generated) = [] /\
  choose allocation (ending generated) = [] /\
  choose registryCall (ending generated) = [] /\
  choose loaderUsed (ending generated) = [] /\
  choose pointerUsed (ending generated) = [] /\
  existsb checkedFailure (ending generated) = false /\
  Forall (fun s => generateCall s = None) (ending generated).
Proof.
  destruct generated as [[e |] | code | msg];
    repeat split; try reflexivity; repeat constructor.
Qed.

(** X8. When the template directory given with -templates cannot be
    loaded, main prints "Failed to create template loader: <cause>" and
    exits with status 1, before any call into the native registry and
    with no directory created and no file generated. *)
Theorem main_loader_failure (args positional : list string)
    (f : flag.FlagSet) (w w' : W) (o : Outcome unit) (t : list Step)
    (s : Step) (e : string) :
  flag.Parse args = flag.Ok f positional ->
  run h (main args) w = (o, w', t) ->
  In s t -> loaderError s = Some e ->
  o = Exited 1 /\
  printed t = ["Failed to create template loader: " ++ e] /\
  existsb touchesRegistry t = false /\
  madeDirs t = [] /\ generateCalls t = [].
Proof.
  intros Hparse Hrun Hin Hs.
  pose proof (main_trace args positional f w w' o t Hparse Hrun) as Htrace.
  pose proof (choose_in _ _ loaderError t s e Hin Hs) as Hfound.
  destruct Htrace as [e0 | | funcMap loader e0 Hextract Hdir
                      | funcMap loader i vipsVersion imageTypes operations
                        enumTypes p generated tg Hextract Hgen].
  - destruct Hfound.
  - destruct Hfound.
  - destruct Hfound as [<- | []]. repeat split; reflexivity.
  - exfalso.
    destruct (loaderSteps_kind f funcMap loader) as [Hl _].
    destruct (GenerateTrace_kind _ _ _ _ _ Hgen) as [Hg _].
    destruct (ending_kind generated) as [He _].
    change (In e (choose loaderError
                    (loaderSteps f funcMap loader
                     ++ registrySteps f i vipsVersion imageTypes operations
                                      enumTypes p
                     ++ tg ++ ending generated))) in Hfound.
    rewrite !choose_app, Hl, Hg, He in Hfound. destruct Hfound.
Qed.

(** X9. In generation mode main asks for the template functions first
    and opens exactly one template source with them: the directory given
    with -templates when that flag is not empty, the embedded templates
    otherwise. *)
Theorem main_template_source (args positional : list string)
    (f : flag.FlagSet) (w w' : W) (o : Outcome unit) (t : list Step) :
  flag.Parse args = flag.Ok f positional ->
  flag.extractTemplates f = false ->
  run h (main args) w = (o, w', t) ->
  choose loaderSource t = [negb (String.eqb (flag.templateDirFlag f) "")] /\
  exists funcMap,
    nth_error t 0 = Some (Called GetTemplateFuncMap funcMap) /\
    (String.eqb (flag.templateDirFlag f) "" = false ->
     exists loader err,
       nth_error t 1
       = Some (Called (NewOSTemplateLoader (flag.templateDirFlag f) funcMap)
                      (loader, err))) /\
    (String.eqb (flag.templateDirFlag f) "" = true ->
     exists loader,
       nth_error t 1
       = Some (Called (NewFSTemplateLoader templates_Templates funcMap)
                      loader)).
Proof.
  intros Hparse Hmode Hrun.
  pose proof (main_trace args positional f w w' o t Hparse Hrun) as Htrace.
  destruct Htrace as [e0 Hextract | Hextract | funcMap loader e0 Hextract Hdir
                      | funcMap loader i vipsVersion imageTypes operations
                        enumTypes p generated tg Hextract Hgen];
    try congruence.
  - split; [simpl; rewrite Hdir; reflexivity |].
    exists funcMap. split; [reflexivity |]. split.
    + intros _. exists loader, (Some e0). reflexivity.
    + congruence.
  - split.
    + destruct (loaderSteps_kind f funcMap loader) as [_ [Hl _]].
      destruct (GenerateTrace_kind _ _ _ _ _ Hgen) as [_ [Hg _]].
      destruct (ending_kind generated) as [_ [He _]].
      change (choose loaderSource
                (loaderSteps f funcMap loader
                 ++ registrySteps f i vipsVersion imageTypes operations
                                  enumTypes p
                 ++ tg ++ ending generated)
              = [negb (String.eqb (flag.templateDirFlag f) "")]).
      rewrite !choose_app, Hl, Hg, He. reflexivity.
    + exists funcMap. split; [reflexivity |].
      unfold loaderSteps. split; intros Hdir; rewrite Hdir; simpl.
      * exists loader, None. reflexivity.
      * exists loader. reflexivity.
Qed.

(** X10. The snapshot that main builds holds what the registry
    answered: the version, the operations, the enum types and the image
    types read through the one introspection handle (created with the
    -debug flag), and the -include-test flag. Main builds at most one
    snapshot. *)
Theorem main_snapshot (args positional : list string)
    (f : flag.FlagSet) (w w' : W) (o : Outcome unit) (t : list Step)
    (d : TemplateData) (p : ptr) :
  flag.Parse args = flag.Ok f positional ->
  run h (main args) w = (o, w', t) ->
  In (d, p) (choose allocation t) ->
  choose allocation t = [(d, p)] /\
  IncludeTest d = flag.includeTest f /\
  exists i : Introspection,
    In (Called (NewIntrospection (flag.isDebug f)) i) t /\
    In (Called (GetVipsVersion i) (VipsVersion d)) t /\
    In (Called (DiscoverImageTypes i) (ImageTypes d)) t /\
    In (Called (DiscoverOperations i) (Operations d)) t /\
    In (Called (DiscoverEnumTypes i) (EnumTypes d)) t.
Proof.
  intros Hparse Hrun Hin.
  pose proof (main_trace args positional f w w' o t Hparse Hrun) as Htrace.
  destruct Htrace as [e0 Hextract | Hextract | funcMap loader e0 Hextract Hdir
                      | funcMap loader i vipsVersion imageTypes operations
                        enumTypes p0 generated tg Hextract Hgen];
    try (destruct Hin; fail).
  destruct (loaderSteps_kind f funcMap loader) as [_ [_ [_ [Hl _]]]].
  destruct (GenerateTrace_kind _ _ _ _ _ Hgen) as [_ [_ [_ [Hg _]]]].
  destruct (ending_kind generated) as [_ [_ [_ [He _]]]].
  assert (Halloc :
            choose allocation
              (Called GetTemplateFuncMap funcMap
               :: loaderSteps f funcMap loader
               ++ registrySteps f i vipsVersion imageTypes operations
                                enumTypes p0
               ++ tg ++ ending generated)
            = [({| VipsVersion := vipsVersion; Operations := operations;
                   EnumTypes := enumTypes; ImageTypes := imageTypes;
                   IncludeTest := flag.includeTest f |}, p0)]).
  { change (choose allocation
              (loaderSteps f funcMap loader
               ++ registrySteps f i vipsVersion imageTypes operations
                                enumTypes p0
               ++ tg ++ ending generated)
            = [({| VipsVersion := vipsVersion; Operations := operations;
                   EnumTypes := enumTypes; ImageTypes := imageTypes;
                   IncludeTest := flag.includeTest f |}, p0)]).
    rewrite !choose_app, Hl, Hg, He. reflexivity. }
  rewrite Halloc in Hin |- *.
  destruct Hin as [Heq | []]. inversion Heq; subst d p0. clear Heq.
  split; [reflexivity |]. split; [reflexivity |].
  exists i. simpl.
  repeat split; right; apply in_or_app; right; simpl; tauto.
Qed.

(** X11. [Generate] is run on what main prepared: every loader method
    is called on the loader that the constructor returned, and every
    read or hand-over of the TemplateData pointer uses the pointer of the
    snapshot that main allocated. *)
Theorem main_wiring (args positional : list string)
    (f : flag.FlagSet) (w w' : W) (o : Outcome unit) (t : list Step) :
  flag.Parse args = flag.Ok f positional ->
  run h (main args) w = (o, w', t) ->
  Forall (fun l => In l (choose loaderMade t)) (choose loaderUsed t) /\
  Forall (fun q => In q (map snd (choose allocation t)))
         (choose pointerUsed t).
Proof.
  intros Hparse Hrun.
  pose proof (main_trace args positional f w w' o t Hparse Hrun) as Htrace.
  destruct Htrace as [e0 Hextract | Hextract | funcMap loader e0 Hextract Hdir
                      | funcMap loader i vipsVersion imageTypes operations
                        enumTypes p generated tg Hextract Hgen];
    try (split; constructor).
  destruct (loaderSteps_kind f funcMap loader)
    as [_ [_ [Hmade [Hlalloc [_ [Hlused [Hlptr _]]]]]]].
  destruct (GenerateTrace_kind _ _ _ _ _ Hgen)
    as [_ [_ [Hgmade [Hgalloc [_ [_ [Hgused Hgptr]]]]]]].
  destruct (ending_kind generated)
    as [_ [_ [Hemade [Healloc [_ [Heused [Heptr _]]]]]]].
  change (Forall (fun l => In l (choose loaderMade
                    (loaderSteps f funcMap loader
                     ++ registrySteps f i vipsVersion imageTypes operations
                                      enumTypes p
                     ++ tg ++ ending generated)))
                 (choose loaderUsed
                    (loaderSteps f funcMap loader
                     ++ registrySteps f i vipsVersion imageTypes operations
                                      enumTypes p
                     ++ tg ++ ending generated))
          /\
          Forall (fun q => In q (map snd (choose allocation
                    (loaderSteps f funcMap loader
                     ++ registrySteps f i vipsVersion imageTypes operations
                                      enumTypes p
                     ++ tg ++ ending generated))))
                 (choose pointerUsed
                    (loaderSteps f funcMap loader
                     ++ registrySteps f i vipsVersion imageTypes operations
                                      enumTypes p
                     ++ tg ++ ending generated))).
  rewrite !choose_app.
  rewrite Hmade, Hgmade, Hemade, Hlalloc, Hgalloc, Healloc,
    Hlused, Heused, Hlptr, Heptr.
  simpl. rewrite !app_nil_r. split.
  - eapply Forall_impl; [| exact Hgused]. intros l <-. left. reflexivity.
  - eapply Forall_impl; [| exact Hgptr]. intros q <-. left. reflexivity.
Qed.

(** [flag.Parse] exits with status 2, or with status 0 when help was
    asked for. *)
Lemma parseLoop_exit (fuel : nat) (f : flag.FlagSet) (args : list string)
    (code : Z) (msg : string) :
  flag.parseLoop fuel f args = flag.ExitWith code msg ->
  code = 0%Z \/ code = 2%Z.
Proof.
  revert f args. induction fuel as [| fuel IH]; intros f args Hloop;
    simpl in Hloop; [discriminate |].
  destruct (flag.parseOne f args) as [f1 args1 | args1 | err |];
    try discriminate.
  - eapply IH. eassumption.
  - inversion Hloop. right. reflexivity.
  - inversion Hloop. left. reflexivity.
Qed.

(** X12. The exit status of main, for every command line. When the
    command line does not parse, main exits at once, with status 2, or
    with status 0 when help was asked for, and no checked call is made.
    When it parses, main exits with status 1 exactly when one of the
    calls it or [Generate] checks has failed (extraction, loading the
    template directory, creating the output directory, listing,
    generating a unit), and the status is 0 only when main runs to its
    end. *)
Theorem main_exit_status (args : list string) (w w' : W)
    (o : Outcome unit) (t : list Step) :
  run h (main args) w = (o, w', t) ->
  match flag.Parse args with
  | flag.Ok f positional =>
      (exitStatus o = 1%Z <-> existsb checkedFailure t = true) /\
      (exitStatus o = 0%Z <-> o = Returned tt)
  | flag.ExitWith code msg =>
      o = Exited code /\ (code = 0%Z \/ code = 2%Z) /\
      existsb checkedFailure t = false /\
      existsb touchesRegistry t = false /\ madeDirs t = []
  | flag.OutOfFuel => False
  end.
Proof.
  intros Hrun.
  destruct (flag.Parse args) as [f positional | code msg |] eqn:Hparse.
  2: { unfold main in Hrun. rewrite Hparse in Hrun. simpl in Hrun.
       destruct (h _ (os_Stderr msg) w) as [[] w1].
       inversion Hrun; subst.
       split; [reflexivity |]. split; [| repeat split; reflexivity].
       eapply parseLoop_exit. exact Hparse. }
  2: { exact (Parse_fuel args Hparse). }
  pose proof (main_trace args positional f w w' o t Hparse Hrun) as Htrace.
  destruct Htrace as [e0 Hextract | Hextract | funcMap loader e0 Hextract Hdir
                      | funcMap loader i vipsVersion imageTypes operations
                        enumTypes p generated tg Hextract Hgen].
  - split; split; intros; try reflexivity; discriminate.
  - split; split; intros; try reflexivity; discriminate.
  - split; split; intros; try reflexivity; discriminate.
  - destruct (loaderSteps_kind f funcMap loader)
      as [_ [_ [_ [_ [_ [_ [_ [Hl _]]]]]]]].
    destruct (ending_kind generated)
      as [_ [_ [_ [_ [_ [_ [_ [He _]]]]]]]].
    pose proof (GenerateTrace_failed _ _ _ _ _ Hgen) as Hg.
    destruct (GenerateTrace_steps _ _ _ _ _ Hgen) as [_ Hexit].
    change (existsb checkedFailure
              (Called GetTemplateFuncMap funcMap
               :: loaderSteps f funcMap loader
               ++ registrySteps f i vipsVersion imageTypes operations
                                enumTypes p
               ++ tg ++ ending generated))
      with (existsb checkedFailure
              (loaderSteps f funcMap loader
               ++ registrySteps f i vipsVersion imageTypes operations
                                enumTypes p
               ++ tg ++ ending generated)).
    rewrite !existsb_app, Hl, Hg, He, orb_false_r.
    change (existsb checkedFailure
              (registrySteps f i vipsVersion imageTypes operations
                             enumTypes p)) with false.
    destruct generated as [[e |] | code | msg]; simpl.
    + split; split; intros; try reflexivity; discriminate.
    + split; split; intros; try reflexivity; discriminate.
    + exfalso. exact (Hexit code eq_refl).
    + split; split; intros; discriminate.
Qed.

(** X13. The error of a failing unit reaches the user with both
    contexts: when GenerateFile fails with a cause for an output file,
    the last thing main does is to print "Failed to generate code:
    failed to generate <output file>: <cause>", and it exits with
    status 1. *)
Theorem main_generate_error_message (args positional : list string)
    (f : flag.FlagSet) (w w' : W) (o : Outcome unit)
    (t pre post : list Step) (s : Step) (u out e : string) :
  flag.Parse args = flag.Ok f positional ->
  run h (main args) w = (o, w', t) ->
  t = (pre ++ s :: post)%list ->
  generateCall s = Some (u, out, Some e) ->
  o = Exited 1 /\
  post = [logged ("Failed to generate code: failed to generate "
                  ++ out ++ ": " ++ e)].
Proof.
  intros Hparse Hrun Ht Hs.
  assert (Hsome : generateCall s <> None) by (rewrite Hs; discriminate).
  pose proof (main_trace args positional f w w' o t Hparse Hrun) as Htrace.
  assert (Hin : In s t) by (subst t; apply in_elt).
  destruct Htrace as [e0 Hextract | Hextract | funcMap loader e0 Hextract Hdir
                      | funcMap loader i vipsVersion imageTypes operations
                        enumTypes p generated tg Hextract Hgen].
  - simpl in Hin. destruct Hin as [<- | [<- | []]]; discriminate.
  - simpl in Hin. destruct Hin as [<- | [<- | []]]; discriminate.
  - simpl in Hin. destruct Hin as [<- | [<- | [<- | []]]]; discriminate.
  - clear Hin. symmetry in Ht.
    assert (Hquiet : Forall (fun x => generateCall x = None)
              (Called GetTemplateFuncMap funcMap
               :: loaderSteps f funcMap loader
               ++ registrySteps f i vipsVersion imageTypes operations
                                enumTypes p)).
    { constructor; [reflexivity |]. apply Forall_app. split.
      - unfold loaderSteps.
        destruct (negb (String.eqb (flag.templateDirFlag f) ""));
          repeat constructor.
      - repeat constructor. }
    replace (Called GetTemplateFuncMap funcMap
             :: loaderSteps f funcMap loader
             ++ registrySteps f i vipsVersion imageTypes operations
                              enumTypes p
             ++ tg ++ ending generated)%list
      with ((Called GetTemplateFuncMap funcMap
             :: loaderSteps f funcMap loader
             ++ registrySteps f i vipsVersion imageTypes operations
                              enumTypes p)
            ++ tg ++ ending generated)%list in Ht
      by (simpl; rewrite <- app_assoc; reflexivity).
    destruct (cut_front _ _ generateCall _ _ _ _ _ Ht Hquiet Hsome)
      as [pre1 [_ Ht1]].
    destruct (ending_kind generated) as [_ [_ [_ [_ [_ [_ [_ [_ Hend]]]]]]]].
    destruct (cut_tail _ _ generateCall _ _ _ _ _ Ht1 Hend Hsome)
      as [post1 [Hpost Ht2]].
    destruct (GenerateTrace_failure_is_last _ _ _ _ _ Hgen
                pre1 s post1 u out e (eq_sym Ht2) Hs)
      as [Hpost1 [_ Hgenerated]].
    subst post1 generated post. split; reflexivity.
Qed.

(** X14. Main reads the native registry at most once, in a fixed order
    (handle, version, image types, operations, enum types), and all of
    it before the first directory is created or the first file is
    generated. *)
Theorem main_registry_order (args positional : list string)
    (f : flag.FlagSet) (w w' : W) (o : Outcome unit) (t : list Step) :
  flag.Parse args = flag.Ok f positional ->
  run h (main args) w = (o, w', t) ->
  (choose registryCall t = [] \/
   choose registryCall t
   = [AskNew (flag.isDebug f); AskVersion; AskImageTypes; AskOperations;
      AskEnumTypes]) /\
  exists before after,
    t = (before ++ after)%list /\
    madeDirs before = [] /\ generateCalls before = [] /\
    choose registryCall after = [].
Proof.
  intros Hparse Hrun.
  pose proof (main_trace args positional f w w' o t Hparse Hrun) as Htrace.
  destruct Htrace as [e0 Hextract | Hextract | funcMap loader e0 Hextract Hdir
                      | funcMap loader i vipsVersion imageTypes operations
                        enumTypes p generated tg Hextract Hgen].
  - split; [left; reflexivity |].
    eexists _, []. rewrite app_nil_r. repeat split; reflexivity.
  - split; [left; reflexivity |].
    eexists _, []. rewrite app_nil_r. repeat split; reflexivity.
  - split; [left; reflexivity |].
    eexists _, []. rewrite app_nil_r. repeat split; reflexivity.
  - destruct (loaderSteps_kind f funcMap loader)
      as [_ [_ [_ [_ [Hl [_ [_ [_ [Hldirs Hlcalls]]]]]]]]].
    destruct (GenerateTrace_kind _ _ _ _ _ Hgen) as [_ [_ [_ [_ [Hg _]]]]].
    destruct (ending_kind generated) as [_ [_ [_ [_ [He _]]]]].
    split.
    + right.
      change (choose registryCall
                (loaderSteps f funcMap loader
                 ++ registrySteps f i vipsVersion imageTypes operations
                                  enumTypes p
                 ++ tg ++ ending generated)
              = [AskNew (flag.isDebug f); AskVersion; AskImageTypes;
                 AskOperations; AskEnumTypes]).
      rewrite !choose_app, Hl, Hg, He. reflexivity.
    + exists (Called GetTemplateFuncMap funcMap
              :: loaderSteps f funcMap loader
              ++ registrySteps f i vipsVersion imageTypes operations
                               enumTypes p)%list,
             (tg ++ ending generated)%list.
      split; [simpl; rewrite <- app_assoc; reflexivity |].
      split; [| split].
      * change (madeDirs (loaderSteps f funcMap loader
                          ++ registrySteps f i vipsVersion imageTypes
                                           operations enumTypes p) = []).
        unfold madeDirs in *. rewrite choose_app, Hldirs. reflexivity.
      * change (generateCalls (loaderSteps f funcMap loader
                               ++ registrySteps f i vipsVersion imageTypes
                                                operations enumTypes p)
                = []).
        unfold generateCalls in *. rewrite choose_app, Hlcalls. reflexivity.
      * rewrite choose_app, Hg, He. reflexivity.
Qed.

(** X15. Flag parsing stops at the first argument that is not a flag,
    so a command line that starts with a positional argument leaves
    every flag at its default: the only directory such a run creates is
    "./vips", whatever the arguments are. *)
Theorem main_positional_only (a : string) (rest : list string) :
  flag.token a = flag.NotAFlag ->
  flag.Parse (a :: rest) = flag.Ok flag.registered (a :: rest) /\
  forall (w w' : W) (o : Outcome unit) (t : list Step),
    run h (main (a :: rest)) w = (o, w', t) ->
    Forall (eq "./vips") (madeDirs t).
Proof.
  intros Htoken.
  assert (Hparse : flag.Parse (a :: rest)
                   = flag.Ok flag.registered (a :: rest)).
  { unfold flag.Parse. simpl. rewrite Htoken. reflexivity. }
  split; [exact Hparse |].
  intros w w' o t Hrun. unfold main in Hrun. rewrite Hparse in Hrun.
  exact (mainParsed_dirs h flag.registered (a :: rest) w w' o t Hrun).
Qed.

End MainProperties.

(** * The further properties on concrete runs *)

(** The output directory is a file; the listing is refused. *)
Lemma Generate_setup_failure_witness :
  Runs.blockedRun
  = (Returned (Some "failed to create output directory: mkdir out: not a directory"),
     Runs.blocked,
     [Called (os_MkdirAll "out" 493) (Some "mkdir out: not a directory")])
  /\
  fst (fst Runs.unlistableRun)
  = Returned (Some "failed to list template files: permission denied").
Proof.
  split.
  - exact (proj1 (Generate_setup_failure
                    Disk.handler Disk.embeddedLoader 1 "out" Runs.blocked
                    "mkdir out: not a directory") eq_refl).
  - exact (f_equal (fun r => fst (fst r))
             (proj2 (Generate_setup_failure
                       Disk.handler Runs.unlistable 1 "out" (Disk.boot true)
                       "permission denied")
                    (map fst Disk.embedded) eq_refl eq_refl)).
Defined.

(** No unit and a nil pointer: the run succeeds. *)
Lemma Generate_empty_listing_witness :
  exists w',
    Runs.emptyRun
    = (Returned None, w',
       [Called (os_MkdirAll "out" 493) None;
        Called (ListFiles Runs.noUnits) ([], None);
        logged (nl ++ "Successfully generated files from templates: 0"
                   ++ nl)]).
Proof.
  exact (Generate_empty_listing Disk.handler Runs.noUnits 0 "out" Disk.empty
           eq_refl eq_refl).
Defined.

(** Three units and a nil pointer: the run panics at the first one. *)
Lemma Generate_nil_templateData_witness :
  exists w',
    Runs.nilRun
    = (Panicked "invalid memory address or nil pointer dereference", w',
       [Called (os_MkdirAll "out" 493) None;
        Called (ListFiles Disk.embeddedLoader)
               (["vips.go.tmpl"; "image.go.tmpl"; "image_test.go.tmpl"],
                None);
        Called (Deref 0) None]).
Proof.
  exact (Generate_nil_templateData
           Disk.handler Disk.embeddedLoader 0 "out" Disk.empty
           "vips.go.tmpl" ["image.go.tmpl"; "image_test.go.tmpl"]
           eq_refl eq_refl eq_refl).
Defined.

(** The steps of the broken batch. *)
Lemma Generate_own_steps_witness :
  Forall (generateStep Disk.brokenLoader 1 "out") (snd Disk.brokenRun) /\
  (forall code, fst (fst Disk.brokenRun) <> Exited code).
Proof.
  exact (Generate_own_steps
           Disk.handler Disk.brokenLoader 1 "out" (Disk.boot true)
           (snd (fst Disk.brokenRun)) (fst (fst Disk.brokenRun))
           (snd Disk.brokenRun) eq_refl).
Defined.

(** "vips.go.tmpl" is generated with the test flag unset. *)
Lemma Generate_other_templates_witness :
  callsFor "vips.go.tmpl" (snd Disk.defaultRun)
  = [("vips.go.tmpl", "vips/vips.go", None)].
Proof.
  exact (Generate_other_templates
           Disk.handler Disk.embeddedLoader 1 "./vips" (Disk.snapshot false)
           (Disk.boot false) (snd (fst Disk.defaultRun))
           (snd Disk.defaultRun) "vips.go.tmpl"
           (Disk_keeps 1) eq_refl eq_refl eq_refl).
Defined.

(** What [Disk.defaultRun] prints, and what the run of
    [Runs.skipThenBreak] prints: the notice of the test unit before the
    broken one, not that of the test unit after it. *)
Lemma Generate_log_witness :
  printed (snd Disk.defaultRun)
  = [skipNotice "image_test.go.tmpl";
     successNotice ["vips/vips.go"; "vips/image.go"];
     fileNotice "vips/vips.go"; fileNotice "vips/image.go"]
  /\
  ((generateCalls (snd Runs.skipThenBreakRun) = [] /\
    printed (snd Runs.skipThenBreakRun) = []) \/
   exists before u after e,
     listed (snd Runs.skipThenBreakRun) = (before ++ u :: after)%list /\
     skipped (Disk.snapshot false) u = false /\
     generateCalls (snd Runs.skipThenBreakRun)
     = (map (generatedOk "out") (processed (Disk.snapshot false) before)
          ++ [(u, outputFileOf "out" u, Some e)])%list /\
     printed (snd Runs.skipThenBreakRun)
     = map skipNotice (filter (skipped (Disk.snapshot false)) before))
  /\
  listed (snd Runs.skipThenBreakRun)
  = ["a_test.go.tmpl"; "b.go.tmpl"; "c_test.go.tmpl"] /\
  printed (snd Runs.skipThenBreakRun) = [skipNotice "a_test.go.tmpl"].
Proof.
  split; [| split; [| split; reflexivity]].
  - exact (proj1 (Generate_log
                    Disk.handler Disk.embeddedLoader 1 "./vips"
                    (Disk.snapshot false) (Disk.boot false)
                    (snd (fst Disk.defaultRun)) (fst (fst Disk.defaultRun))
                    (snd Disk.defaultRun) (Disk_keeps 1) eq_refl eq_refl)
                 eq_refl).
  - apply (proj2 (Generate_log
                    Disk.handler Runs.skipThenBreak 1 "out"
                    (Disk.snapshot false) (Disk.boot false)
                    (snd (fst Runs.skipThenBreakRun))
                    (fst (fst Runs.skipThenBreakRun))
                    (snd Runs.skipThenBreakRun)
                    (Disk_keeps 1) eq_refl eq_refl)).
    vm_compute. discriminate.
Defined.

(** "vips.go.tmpl" in a directory of templates. *)
Lemma outputFileOf_strips_tmpl_witness :
  outputFileOf "./vips" "vips.go.tmpl" = "vips/vips.go" /\
  outputFileOf "./vips" "templates/core/vips.go.tmpl" = "vips/vips.go" /\
  isTestTemplate "templates/core/vips.go.tmpl" = false.
Proof.
  exact (outputFileOf_strips_tmpl "./vips" "templates/core" "vips.go"
           eq_refl).
Defined.

(** A template directory that does not exist. *)
Lemma main_loader_failure_witness :
  fst (fst Runs.noTemplatesRun) = Exited 1 /\
  printed (snd Runs.noTemplatesRun)
  = ["Failed to create template loader: template directory nowhere does not exist"] /\
  existsb touchesRegistry (snd Runs.noTemplatesRun) = false /\
  madeDirs (snd Runs.noTemplatesRun) = [] /\
  generateCalls (snd Runs.noTemplatesRun) = [].
Proof.
  apply (main_loader_failure
           Disk.handler ["-templates"; "nowhere"] []
           {| flag.extractTemplates := false;
              flag.extractDir := "./templates";
              flag.outputDirFlag := "./vips";
              flag.templateDirFlag := "nowhere";
              flag.isDebug := false; flag.includeTest := false |}
           Disk.empty (snd (fst Runs.noTemplatesRun))
           (fst (fst Runs.noTemplatesRun)) (snd Runs.noTemplatesRun)
           (Called (@NewOSTemplateLoader Disk.collaborators "nowhere" tt)
                   ({| Disk.units := []; Disk.listError := None |},
                    Some "template directory nowhere does not exist"))
           "template directory nowhere does not exist"
           eq_refl eq_refl).
  - right. left. reflexivity.
  - reflexivity.
Defined.

(** Templates from a directory, and the embedded ones. *)
Lemma main_template_source_witness :
  choose loaderSource (snd Runs.onDiskRun) = [true] /\
  choose loaderSource (snd Runs.flagRun) = [false].
Proof.
  split.
  - exact (proj1 (main_template_source
                    Disk.handler ["-templates"; "tpl"; "-out"; "gen"] []
                    {| flag.extractTemplates := false;
                       flag.extractDir := "./templates";
                       flag.outputDirFlag := "gen";
                       flag.templateDirFlag := "tpl";
                       flag.isDebug := false; flag.includeTest := false |}
                    Runs.onDisk (snd (fst Runs.onDiskRun))
                    (fst (fst Runs.onDiskRun)) (snd Runs.onDiskRun)
                    eq_refl eq_refl eq_refl)).
  - exact (proj1 (main_template_source
                    Disk.handler ["-include-test"; "-debug"] []
                    {| flag.extractTemplates := false;
                       flag.extractDir := "./templates";
                       flag.outputDirFlag := "./vips";
                       flag.templateDirFlag := "";
                       flag.isDebug := true; flag.includeTest := true |}
                    Disk.empty (snd (fst Runs.flagRun))
                    (fst (fst Runs.flagRun)) (snd Runs.flagRun)
                    eq_refl eq_refl eq_refl)).
Defined.

(** The snapshot of [Runs.flagRun]. *)
Lemma main_snapshot_witness :
  choose allocation (snd Runs.flagRun) = [(Runs.flagSnapshot, 1)] /\
  In (Called (@NewIntrospection Disk.collaborators true) tt)
     (snd Runs.flagRun).
Proof.
  destruct (main_snapshot
              Disk.handler ["-include-test"; "-debug"] []
              {| flag.extractTemplates := false;
                 flag.extractDir := "./templates";
                 flag.outputDirFlag := "./vips";
                 flag.templateDirFlag := "";
                 flag.isDebug := true; flag.includeTest := true |}
              Disk.empty (snd (fst Runs.flagRun))
              (fst (fst Runs.flagRun)) (snd Runs.flagRun)
              Runs.flagSnapshot 1
              eq_refl eq_refl (or_introl eq_refl))
    as [Hone [_ [[] [Hnew _]]]].
  split; assumption.
Defined.

(** The loader and the pointer of [Runs.flagRun]. *)
Lemma main_wiring_witness :
  Forall (fun l => In l (choose loaderMade (snd Runs.flagRun)))
         (choose loaderUsed (snd Runs.flagRun)) /\
  Forall (fun q => In q (map snd (choose allocation (snd Runs.flagRun))))
         (choose pointerUsed (snd Runs.flagRun)).
Proof.
  exact (main_wiring
           Disk.handler ["-include-test"; "-debug"] []
           {| flag.extractTemplates := false;
              flag.extractDir := "./templates";
              flag.outputDirFlag := "./vips";
              flag.templateDirFlag := "";
              flag.isDebug := true; flag.includeTest := true |}
           Disk.empty (snd (fst Runs.flagRun))
           (fst (fst Runs.flagRun)) (snd Runs.flagRun)
           eq_refl eq_refl).
Defined.

(** The output directory is a file: status 1. All goes well: status 0.
    An unknown flag: status 2. Help: status 0, without a return. *)
Lemma main_exit_status_witness :
  exitStatus (fst (fst Runs.blockedMainRun)) = 1%Z /\
  exitStatus (fst (fst Runs.flagRun)) = 0%Z /\
  fst (fst Runs.unknownFlagRun) = Exited 2 /\
  fst (fst Runs.helpRun) = Exited 0.
Proof.
  split; [| split; [| split]].
  - apply (proj1 (main_exit_status
                    Disk.handler ["-out"; "out"]
                    Runs.blocked (snd (fst Runs.blockedMainRun))
                    (fst (fst Runs.blockedMainRun))
                    (snd Runs.blockedMainRun) eq_refl)).
    reflexivity.
  - apply (proj2 (main_exit_status
                    Disk.handler ["-include-test"; "-debug"]
                    Disk.empty (snd (fst Runs.flagRun))
                    (fst (fst Runs.flagRun)) (snd Runs.flagRun)
                    eq_refl)).
    reflexivity.
  - exact (proj1 (main_exit_status
                    Disk.handler ["-bogus"]
                    Disk.empty (snd (fst Runs.unknownFlagRun))
                    (fst (fst Runs.unknownFlagRun))
                    (snd Runs.unknownFlagRun) eq_refl)).
  - exact (proj1 (main_exit_status
                    Disk.handler ["-h"]
                    Disk.empty (snd (fst Runs.helpRun))
                    (fst (fst Runs.helpRun)) (snd Runs.helpRun) eq_refl)).
Defined.

(** The first template of [Runs.onDiskRun] cannot be written. *)
Lemma main_generate_error_message_witness :
  fst (fst Runs.onDiskRun) = Exited 1 /\
  skipn 15 (snd Runs.onDiskRun)
  = [logged "Failed to generate code: failed to generate gen/a.go: open gen/a.go: is a directory"].
Proof.
  exact (main_generate_error_message
           Disk.handler ["-templates"; "tpl"; "-out"; "gen"] []
           {| flag.extractTemplates := false;
              flag.extractDir := "./templates";
              flag.outputDirFlag := "gen";
              flag.templateDirFlag := "tpl";
              flag.isDebug := false; flag.includeTest := false |}
           Runs.onDisk (snd (fst Runs.onDiskRun))
           (fst (fst Runs.onDiskRun)) (snd Runs.onDiskRun)
           (firstn 14 (snd Runs.onDiskRun))
           (skipn 15 (snd Runs.onDiskRun))
           (nth 14 (snd Runs.onDiskRun) (logged ""))
           "tpl/a.go.tmpl" "gen/a.go" "open gen/a.go: is a directory"
           eq_refl eq_refl eq_refl eq_refl).
Defined.

(** The registry calls of [Runs.flagRun]. *)
Lemma main_registry_order_witness :
  (choose registryCall (snd Runs.flagRun) = [] \/
   choose registryCall (snd Runs.flagRun)
   = [AskNew true; AskVersion; AskImageTypes; AskOperations;
      AskEnumTypes]) /\
  exists before after,
    snd Runs.flagRun = (before ++ after)%list /\
    madeDirs before = [] /\ generateCalls before = [] /\
    choose registryCall after = [].
Proof.
  exact (main_registry_order
           Disk.handler ["-include-test"; "-debug"] []
           {| flag.extractTemplates := false;
              flag.extractDir := "./templates";
              flag.outputDirFlag := "./vips";
              flag.templateDirFlag := "";
              flag.isDebug := true; flag.includeTest := true |}
           Disk.empty (snd (fst Runs.flagRun))
           (fst (fst Runs.flagRun)) (snd Runs.flagRun)
           eq_refl eq_refl).
Defined.

(** "vipsgen gen -include-test" generates into "./vips". *)
Lemma main_positional_only_witness :
  flag.Parse ["gen"; "-include-test"]
  = flag.Ok flag.registered ["gen"; "-include-test"] /\
  Forall (eq "./vips") (madeDirs (snd Runs.bareRun)).
Proof.
  destruct (main_positional_only Disk.handler "gen" ["-include-test"]
              eq_refl) as [Hparse Hdirs].
  split; [exact Hparse |].
  exact (Hdirs Disk.empty (snd (fst Runs.bareRun))
               (fst (fst Runs.bareRun)) (snd Runs.bareRun) eq_refl).
Defined.

(** * The snapshot and the output directory, as the code has them *)

Section Frame.

Context {C : Collaborators} {W : Type} (h : Handler W).
Arguments h : clear implicits.
Variables (l : TemplateLoader) (p : ptr) (outputDir : string).



End Frame.

Section OutputDirectory.

Context {C : Collaborators} {W : Type} (h : Handler W).
Arguments h : clear implicits.

Lemma outputDirOf_cases (out : string) (positional : list string) :
  outputDirOf out positional
  = if String.eqb out "" then
      match positional with
      | arg0 :: _ => arg0
      | [] => "./vips"
      end
    else out.
Proof.
  unfold outputDirOf. destruct (String.eqb out ""); reflexivity.
Qed.

(** C9. The -out flag is registered with the default "./vips". For a
    command line that parses, let the output directory be the value of
    -out when that is not empty, else the first positional argument when
    there is one, else "./vips". Whenever main gets as far as
    generating (no extraction, a template loader obtained), this is the
    one directory it creates, and it is the directory every file is
    generated in; main creates no other directory in any run. The value
    of -out is empty, and the positional argument looked at, only when
    the command line sets -out to the empty string. *)
Theorem main_output_directory :
  flag.outputDirFlag flag.registered = "./vips" /\
  forall (args positional : list string) (f : flag.FlagSet),
    flag.Parse args = flag.Ok f positional ->
    (flag.outputDirFlag f = "" -> setsOutEmpty args = true) /\
    forall (w w' : W) (o : Outcome unit) (t : list Step),
      run h (main args) w = (o, w', t) ->
      let outputDir :=
        if String.eqb (flag.outputDirFlag f) "" then
          match positional with
          | arg0 :: _ => arg0
          | [] => "./vips"
          end
        else flag.outputDirFlag f in
      (flag.extractTemplates f = false -> choose loaderError t = [] ->
       madeDirs t = [outputDir]) /\
      (madeDirs t = [] \/ madeDirs t = [outputDir]) /\
      Forall (fun c => snd (fst c) = outputFileOf outputDir (fst (fst c)))
             (generateCalls t).
Proof.
  split; [reflexivity |].
  intros args positional f Hparse. split.
  - intros Hout.
    destruct (parseLoop_out _ _ _ _ _ Hparse Hout) as [Hdefault | Hset];
      [discriminate | assumption].
  - intros w w' o t Hrun.
    pose proof (main_trace h args positional f w w' o t Hparse Hrun)
      as Htrace.
    rewrite <- outputDirOf_cases. cbv zeta.
    destruct Htrace as [e0 Hextract | Hextract
                        | funcMap loader e0 Hextract Hdir
                        | funcMap loader i vipsVersion imageTypes operations
                          enumTypes p generated tg Hextract Hgen].
    + split; [congruence |]. split; [left; reflexivity | constructor].
    + split; [congruence |]. split; [left; reflexivity | constructor].
    + split; [discriminate |]. split; [left; reflexivity | constructor].
    + destruct (loaderSteps_kind f funcMap loader)
        as [_ [_ [_ [_ [_ [_ [_ [_ [Hldirs Hlcalls]]]]]]]]].
      destruct (ending_kind generated)
        as [_ [_ [_ [_ [_ [_ [_ [_ Hend]]]]]]]].
      assert (Hdirs : madeDirs
                (Called GetTemplateFuncMap funcMap
                 :: loaderSteps f funcMap loader
                 ++ registrySteps f i vipsVersion imageTypes operations
                                  enumTypes p
                 ++ tg ++ ending generated)
              = [outputDirOf (flag.outputDirFlag f) positional]).
      { change (madeDirs
                  (loaderSteps f funcMap loader
                   ++ registrySteps f i vipsVersion imageTypes operations
                                    enumTypes p
                   ++ tg ++ ending generated)
                = [outputDirOf (flag.outputDirFlag f) positional]).
        unfold madeDirs in *. rewrite !choose_app, Hldirs.
        fold (madeDirs tg). rewrite (GenerateTrace_dirs _ _ _ _ _ Hgen).
        destruct generated as [[e |] | code | msg]; reflexivity. }
      assert (Hcalls : generateCalls
                (Called GetTemplateFuncMap funcMap
                 :: loaderSteps f funcMap loader
                 ++ registrySteps f i vipsVersion imageTypes operations
                                  enumTypes p
                 ++ tg ++ ending generated)
              = generateCalls tg).
      { change (generateCalls
                  (loaderSteps f funcMap loader
                   ++ registrySteps f i vipsVersion imageTypes operations
                                    enumTypes p
                   ++ tg ++ ending generated)
                = generateCalls tg).
        unfold generateCalls in *.
        rewrite !choose_app, Hlcalls, (choose_none _ _ _ _ Hend).
        simpl. rewrite app_nil_r. reflexivity. }
      rewrite Hdirs, Hcalls.
      split; [reflexivity |]. split; [right; reflexivity |].
      exact (GenerateTrace_outputs _ _ _ _ _ Hgen).
Qed.

End OutputDirectory.

(** C4, two runs against the claim as the spec states it. The units
    "a/x.go.tmpl" and "b/x.go.tmpl" fail with one and the same error,
    which names their common output file: no reading of the returned
    error gives the name of the failing unit. *)
Lemma Generate_error_names_no_unit :
  fst (fst (Runs.clashRun "a/x.go.tmpl"))
  = Returned
      (Some "failed to generate out/x.go: open out/x.go: is a directory") /\
  fst (fst (Runs.clashRun "b/x.go.tmpl"))
  = fst (fst (Runs.clashRun "a/x.go.tmpl")) /\
  ~ exists unitOf : Outcome error -> string,
      forall u : string,
        In u ["a/x.go.tmpl"; "b/x.go.tmpl"] ->
        map (fun c => fst (fst c)) (generateCalls (snd (Runs.clashRun u)))
        = [u] /\
        unitOf (fst (fst (Runs.clashRun u))) = u.
Proof.
  split; [reflexivity |]. split; [reflexivity |].
  intros [unitOf Hunit].
  destruct (Hunit _ (or_introl eq_refl)) as [_ Ha].
  destruct (Hunit _ (or_intror (or_introl eq_refl))) as [_ Hb].
  vm_compute in Ha, Hb. rewrite Ha in Hb. discriminate.
Qed.



(** With -out set to the empty string the positional argument names the
    output directory: it is created, and the files are generated in it. *)
Lemma main_output_directory_witness :
  setsOutEmpty ["-out"; ""; "gen"] = true /\
  madeDirs (snd Disk.positionalRun) = ["gen"] /\
  generateCalls (snd Disk.positionalRun)
  = [("vips.go.tmpl", "gen/vips.go", None);
     ("image.go.tmpl", "gen/image.go", None)].
Proof.
  destruct (main_output_directory Disk.handler) as [_ Hparsed].
  destruct (Hparsed ["-out"; ""; "gen"] ["gen"]
              {| flag.extractTemplates := false;
                 flag.extractDir := "./templates";
                 flag.outputDirFlag := ""; flag.templateDirFlag := "";
                 flag.isDebug := false; flag.includeTest := false |}
              eq_refl) as [Hset Hruns].
  destruct (Hruns Disk.empty (snd (fst Disk.positionalRun))
                  (fst (fst Disk.positionalRun)) (snd Disk.positionalRun)
                  eq_refl) as [Hcreated _].
  split; [exact (Hset eq_refl) |].
  split; [exact (Hcreated eq_refl eq_refl) | reflexivity].
Defined.
